(** * emg_2_pose: CSV loader, left/right split and FFT band-peak analysis

    A shallow embedding of the three Python utilities of the repository:

    - [src/dataloader.py]: the [HandDataLoader] class (module [Loader]);
    - [src/sample_app.py]: the left/right split of [visualize_data]
      (module [SampleApp]);
    - [src/fft/emg_fft_analysis.py]: the spectral analysis script
      (modules [Spectrum], [Peaks], [Bands] and [Script]).

    Floating point numbers are idealised as real numbers.  The library
    routines the scripts call ([scipy.fft.fft], [scipy.fft.fftfreq],
    [scipy.signal.find_peaks], [numpy.argmax], boolean-mask indexing) are
    written out from their reference implementations. *)

From Stdlib Require Import Reals Lra Lia ZArith Bool String Arith List.
From Stdlib Require Import Permutation DecimalString.
Import ListNotations.

Local Open Scope R_scope.

(** ** NumPy-style helpers on arrays of reals *)

Module Np.

(** Comparison results as booleans, as NumPy produces them. *)
Definition ltb (a b : R) : bool := if Rlt_dec a b then true else false.
Definition leb (a b : R) : bool := if Rle_dec a b then true else false.
Definition eqb (a b : R) : bool := if Req_dec_T a b then true else false.

(** [a[i]] for an in-range index; the scripts never index out of range
    (the default is only there to make the function total). *)
Definition get (a : list R) (i : nat) : R := nth i a 0.

(** [a[mask]]: the elements whose mask entry is [True], in order. *)
Fixpoint mask_select {A : Type} (mask : list bool) (a : list A) : list A :=
  match mask, a with
  | m :: mask', x :: a' =>
      if m then x :: mask_select mask' a' else mask_select mask' a'
  | _, _ => []
  end.

(** Python's built-in [any]. *)
Definition any (mask : list bool) : bool := existsb (fun b => b) mask.

(** [a[idx]] for an integer index array. *)
Definition take (a : list R) (idx : list nat) : list R :=
  map (get a) idx.

(** [np.argmax]: index of the first occurrence of the maximum.  The scan
    keeps the best value seen so far and only moves on a strictly larger
    one. *)
Fixpoint argmax_from (a : list R) (i best_i : nat) (best : R) : nat :=
  match a with
  | [] => best_i
  | y :: a' =>
      if ltb best y then argmax_from a' (S i) i y
      else argmax_from a' (S i) best_i best
  end.

Definition argmax (a : list R) : nat :=
  match a with
  | [] => 0%nat
  | x :: a' => argmax_from a' 1 0 x
  end.

(** Sum of an array. *)
Definition sum (a : list R) : R := fold_right Rplus 0 a.

End Np.

(** ** The single-sided spectrum (lines 23-31 of the script) *)

Module Spectrum.

(** Complex numbers as pairs (real part, imaginary part). *)
Definition C : Type := (R * R)%type.

(** [np.abs] on a complex number. *)
Definition Cabs (z : C) : R := sqrt (fst z * fst z + snd z * snd z).

(** One bin of the discrete Fourier transform,
    [y[k] = sum_j x[j] * exp(-2 pi i j k / n)]. *)
Definition dft_angle (n j k : nat) : R :=
  2 * PI * INR j * INR k / INR n.

Definition dft_bin (x : list R) (k : nat) : C :=
  let n := length x in
  let js := seq 0 n in
  (Np.sum (map (fun j => Np.get x j * cos (dft_angle n j k)) js),
   - Np.sum (map (fun j => Np.get x j * sin (dft_angle n j k)) js)).

(** [scipy.fft.fft]: all [n] bins. *)
Definition fft (x : list R) : list C :=
  map (dft_bin x) (seq 0 (length x)).

(** [scipy.fft.fftfreq(n, d)]: the integers
    [0, 1, ..., (n-1)//2, -(n//2), ..., -1] scaled by [1/(n*d)]. *)
Definition fftfreq_ints (n : nat) : list Z :=
  let N := Z.to_nat ((Z.of_nat n - 1) / 2 + 1) in
  map Z.of_nat (seq 0 N)
    ++ map (fun j => (Z.of_nat j - Z.of_nat (n / 2))%Z) (seq 0 (n - N)).

Definition fftfreq (n : nat) (d : R) : list R :=
  let val := 1 / (INR n * d) in
  map (fun z => IZR z * val) (fftfreq_ints n).

(** The constant of the script. *)
Definition SAMPLING_RATE : R := 200.

Section Analysis.

Variable sampling_rate : R.
Variable emg_data : list R.

(** [n = len(emg_data)] *)
Definition n : nat := length emg_data.

(** [yf = fft(emg_data)] *)
Definition yf : list C := fft emg_data.

(** [xf = fftfreq(n, 1/SAMPLING_RATE)[:n//2]] *)
Definition xf : list R := firstn (n / 2) (fftfreq n (1 / sampling_rate)).

(** [psd = 2.0/n * np.abs(yf[0:n//2])] *)
Definition psd : list R :=
  map (fun z => 2 / INR n * Cabs z) (firstn (n / 2) yf).

End Analysis.

End Spectrum.

(** ** Peak search ([scipy.signal.find_peaks] with [height=0]) *)

Module Peaks.

(** Inner loop of [_local_maxima_1d]:
    [while i_ahead < i_max and x[i_ahead] == x[i]: i_ahead += 1]. *)
Fixpoint skip_equal (fuel : nat) (x : list R) (xi : R) (i_ahead i_max : nat)
  : nat :=
  match fuel with
  | O => i_ahead
  | S fuel' =>
      if (i_ahead <? i_max)%nat && Np.eqb (Np.get x i_ahead) xi
      then skip_equal fuel' x xi (S i_ahead) i_max
      else i_ahead
  end.

(** Outer loop of [_local_maxima_1d], started at [i = 1] with
    [i_max = len(x) - 1]: a maximum is recorded when the previous sample is
    smaller and the next sample that differs is smaller too; the recorded
    index is the middle of the flat top, rounded down. *)
Fixpoint local_maxima_loop (fuel : nat) (x : list R) (i i_max : nat)
  : list nat :=
  match fuel with
  | O => []
  | S fuel' =>
      if (i <? i_max)%nat then
        if Np.ltb (Np.get x (i - 1)) (Np.get x i) then
          let i_ahead := skip_equal i_max x (Np.get x i) (i + 1) i_max in
          if Np.ltb (Np.get x i_ahead) (Np.get x i) then
            let left_edge := i in
            let right_edge := (i_ahead - 1)%nat in
            ((left_edge + right_edge) / 2)%nat
              :: local_maxima_loop fuel' x (i_ahead + 1) i_max
          else local_maxima_loop fuel' x (i + 1) i_max
        else local_maxima_loop fuel' x (i + 1) i_max
      else []
  end.

Definition local_maxima_1d (x : list R) : list nat :=
  local_maxima_loop (length x) x 1 (length x - 1).

(** [find_peaks(x, height=h)[0]]: the local maxima whose value is at
    least [h]. *)
Definition find_peaks (x : list R) (height : R) : list nat :=
  let peaks := local_maxima_1d x in
  let peak_heights := Np.take x peaks in
  let keep := map (fun v => Np.leb height v) peak_heights in
  Np.mask_select keep peaks.

End Peaks.

(** ** Frequency bands and the per-band report (lines 34-70) *)

Module Bands.

Definition band : Type := (R * R * string)%type.

Definition frequency_bands : list band :=
  [ (0, 20, "Delta-Theta (0-20Hz)"%string);
    (20, 50, "Low Beta (20-50Hz)"%string);
    (50, 100, "High Beta (50-100Hz)"%string);
    (100, 200, "Gamma (100-200Hz)"%string);
    (200, 500, "High Gamma (200-500Hz)"%string) ].

Definition low (b : band) : R := fst (fst b).
Definition high (b : band) : R := snd (fst b).
Definition band_name (b : band) : string := snd b.

(** Two bands that follow one another in the configured list. *)
Definition adjacent (b1 b2 : band) : Prop :=
  exists pre post, frequency_bands = pre ++ b1 :: b2 :: post.

(** The membership test of one frequency value,
    [(x >= low) & (x <= high)]. *)
Definition band_test (b : band) (x : R) : bool :=
  Np.leb (low b) x && Np.leb x (high b).

(** [band_mask = (xf >= low) & (xf <= high)] *)
Definition band_mask (xf : list R) (b : band) : list bool :=
  map (band_test b) xf.

Definition log10 (v : R) : R := ln v / ln 10.

(** What [20 * np.log10(v)] evaluates to: a number for a positive [v],
    minus infinity at 0 (NumPy warns and goes on) and not-a-number below
    0. *)
Inductive decibels : Type :=
| MinusInfinity
| Finite (d : R)
| NotANumber.

Definition dB (v : R) : decibels :=
  if Np.eqb v 0 then MinusInfinity
  else if Np.ltb 0 v then Finite (20 * log10 v)
  else NotANumber.

(** What the loop prints for one band: line 49, line 64 or line 70. *)
Inductive band_report : Type :=
| NoData (name : string)
| PeakFound (name : string) (peak_freq peak_value : R) (decibel : decibels)
| NoPeakMax (name : string) (peak_value : R) (decibel : decibels)
    (peak_freq : R).

(** Lines 53-70 for a band whose mask selects something. *)
Definition report_peak (name : string) (band_psd band_freq : list R)
  : band_report :=
  let peaks := Peaks.find_peaks band_psd 0 in
  if (0 <? length peaks)%nat then
    let max_peak_idx :=
      nth (Np.argmax (Np.take band_psd peaks)) peaks 0%nat in
    let peak_freq := Np.get band_freq max_peak_idx in
    let peak_value := Np.get band_psd max_peak_idx in
    PeakFound name peak_freq peak_value (dB peak_value)
  else
    let max_idx := Np.argmax band_psd in
    let peak_freq := Np.get band_freq max_idx in
    let peak_value := Np.get band_psd max_idx in
    NoPeakMax name peak_value (dB peak_value) peak_freq.

(** The body of the loop of lines 45-70 for one band. *)
Definition analyze_band (xf psd : list R) (b : band) : band_report :=
  let mask := band_mask xf b in
  if negb (Np.any mask) then NoData (band_name b)
  else report_peak (band_name b) (Np.mask_select mask psd)
                   (Np.mask_select mask xf).

(** The frequency a report line shows, if it shows one. *)
Definition reported_freq (r : band_report) : option R :=
  match r with
  | NoData _ => None
  | PeakFound _ f _ _ => Some f
  | NoPeakMax _ _ _ f => Some f
  end.

Definition reported_value (r : band_report) : option R :=
  match r with
  | NoData _ => None
  | PeakFound _ _ v _ => Some v
  | NoPeakMax _ v _ _ => Some v
  end.

(** The whole loop, for a sampled column. *)
Definition band_reports (sampling_rate : R) (emg_data : list R)
  : list band_report :=
  map (analyze_band (Spectrum.xf sampling_rate emg_data)
                    (Spectrum.psd emg_data))
      frequency_bands.

(** Lines 97-115: the annotation of each non-empty band at its largest
    sample, drawn only when that sample is positive. *)
Definition annotation (xf psd : list R) (b : band)
  : option (R * decibels) :=
  let mask := band_mask xf b in
  if negb (Np.any mask) then None
  else
    let band_psd := Np.mask_select mask psd in
    let band_freq := Np.mask_select mask xf in
    let max_idx := Np.argmax band_psd in
    let peak_freq := Np.get band_freq max_idx in
    let peak_value := Np.get band_psd max_idx in
    if Np.ltb 0 peak_value then Some (peak_freq, dB peak_value) else None.

End Bands.

(** ** Python exceptions and a small state-and-exception monad *)

Module Py.

(** The exception classes that occur, with their place in Python's class
    hierarchy ([pandas.errors.ParserError] and [EmptyDataError] derive from
    [ValueError]). *)
Inductive exn_class : Type :=
| Exception
| OSError
| FileNotFoundError
| PermissionError
| ValueError
| ParserError
| EmptyDataError
| UnicodeDecodeError
| TypeError
| LookupError
| KeyError
| NameError
| EOFError.

Definition base (c : exn_class) : option exn_class :=
  match c with
  | Exception => None
  | OSError => Some Exception
  | FileNotFoundError => Some OSError
  | PermissionError => Some OSError
  | ValueError => Some Exception
  | ParserError => Some ValueError
  | EmptyDataError => Some ValueError
  | UnicodeDecodeError => Some ValueError
  | TypeError => Some Exception
  | LookupError => Some Exception
  | KeyError => Some LookupError
  | NameError => Some Exception
  | EOFError => Some Exception
  end.

Definition class_eqb (a b : exn_class) : bool :=
  match a, b with
  | Exception, Exception | OSError, OSError
  | FileNotFoundError, FileNotFoundError
  | PermissionError, PermissionError | ValueError, ValueError
  | ParserError, ParserError | EmptyDataError, EmptyDataError
  | UnicodeDecodeError, UnicodeDecodeError | TypeError, TypeError
  | LookupError, LookupError | KeyError, KeyError | NameError, NameError
  | EOFError, EOFError => true
  | _, _ => false
  end.

(** [issubclass(c, target)], walking up the (depth at most 3) hierarchy. *)
Fixpoint issubclass_fuel (fuel : nat) (c target : exn_class) : bool :=
  class_eqb c target ||
  match fuel with
  | O => false
  | S fuel' =>
      match base c with
      | Some b => issubclass_fuel fuel' b target
      | None => false
      end
  end.

Definition issubclass : exn_class -> exn_class -> bool := issubclass_fuel 3.

(** A raised exception: its class and its message [str(e)]. *)
Record exn : Type := mk_exn { cls : exn_class; str : string }.

Definition isinstance (e : exn) (c : exn_class) : bool :=
  issubclass (cls e) c.

(** [repr] of a [str], as [unicode_repr] of CPython builds it.  The quote
    is the single quote, unless the text holds a single quote and no double
    quote.  A backslash and the quote in use get a backslash in front; tab,
    line feed and carriage return are written with their letter, the other
    control characters of ASCII as [\x] and two hexadecimal digits.  A string is kept as its
    UTF-8 bytes: the bytes above 127 belong to characters outside ASCII,
    which [repr] leaves as they are when they are printable. *)
Definition double_quote : Ascii.ascii := Ascii.ascii_of_nat 34.
Definition single_quote : Ascii.ascii := Ascii.ascii_of_nat 39.
Definition backslash : Ascii.ascii := Ascii.ascii_of_nat 92.

Fixpoint contains (c : Ascii.ascii) (s : string) : bool :=
  match s with
  | EmptyString => false
  | String d s' => Ascii.eqb d c || contains c s'
  end.

Definition repr_quote (s : string) : Ascii.ascii :=
  if contains single_quote s && negb (contains double_quote s)
  then double_quote else single_quote.

Definition hexdigit (d : nat) : Ascii.ascii :=
  nth d (list_ascii_of_string "0123456789abcdef"%string)
    (Ascii.ascii_of_nat 48).

Definition repr_char (quote c : Ascii.ascii) : string :=
  let code := Ascii.nat_of_ascii c in
  if Ascii.eqb c quote || Ascii.eqb c backslash then
    String backslash (String c EmptyString)
  else if (code =? 9)%nat then String backslash "t"%string
  else if (code =? 10)%nat then String backslash "n"%string
  else if (code =? 13)%nat then String backslash "r"%string
  else if (code <? 32)%nat || (code =? 127)%nat then
    String backslash
      (String (Ascii.ascii_of_nat 120)
         (String (hexdigit (code / 16))
            (String (hexdigit (code mod 16)) EmptyString)))
  else String c EmptyString.

Fixpoint repr_body (quote : Ascii.ascii) (s : string) : string :=
  match s with
  | EmptyString => EmptyString
  | String c s' => (repr_char quote c ++ repr_body quote s')%string
  end.

Definition repr (s : string) : string :=
  let quote := repr_quote s in
  String quote (repr_body quote s ++ String quote EmptyString)%string.

(** The text holds ASCII characters only. *)
Fixpoint is_ascii (s : string) : bool :=
  match s with
  | EmptyString => true
  | String c s' => (Ascii.nat_of_ascii c <? 128)%nat && is_ascii s'
  end.

(** How a statement ends: normally with a value, or by raising. *)
Inductive outcome (A : Type) : Type :=
| Normal (a : A)
| Raised (e : exn).
Arguments Normal {A} a.
Arguments Raised {A} e.

Definition M (S A : Type) : Type := S -> outcome A * S.

Definition ret {S A : Type} (a : A) : M S A := fun s => (Normal a, s).

Definition bind {S A B : Type} (m : M S A) (k : A -> M S B) : M S B :=
  fun s =>
    match m s with
    | (Normal a, s') => k a s'
    | (Raised e, s') => (Raised e, s')
    end.

Definition raise {S A : Type} (e : exn) : M S A := fun s => (Raised e, s).

Definition gets {S A : Type} (f : S -> A) : M S A := fun s => (Normal (f s), s).

Definition modify {S : Type} (f : S -> S) : M S unit :=
  fun s => (Normal tt, f s).

(** Lift the result of a library call. *)
Definition lift {S A : Type} (r : A + exn) : M S A :=
  match r with
  | inl a => ret a
  | inr e => raise e
  end.

(** [try: body except C1: h1 except C2 as e: h2 ...]: the first clause
    whose class matches handles the exception; what a handler raises
    propagates. *)
Fixpoint dispatch {S A : Type} (handlers : list (exn_class * (exn -> M S A)))
  (e : exn) : M S A :=
  match handlers with
  | [] => raise e
  | (c, h) :: rest => if isinstance e c then h e else dispatch rest e
  end.

Definition try_except {S A : Type} (body : M S A)
  (handlers : list (exn_class * (exn -> M S A))) : M S A :=
  fun s =>
    match body s with
    | (Normal a, s') => (Normal a, s')
    | (Raised e, s') => dispatch handlers e s'
    end.

End Py.

Declare Scope py_scope.
Delimit Scope py_scope with py.
Notation "x <- m ;; k" := (Py.bind m (fun x => k))
  (at level 61, m at next level, right associativity) : py_scope.
Notation "m ;; k" := (Py.bind m (fun _ => k))
  (at level 61, right associativity) : py_scope.

(** ** Tables ([pandas.DataFrame]) *)

Module Frame.

(** A cell: a boolean, a number or a (non-numeric) string.  Missing values
    (NaN) are outside the idealisation of floats as reals. *)
Inductive cell : Type :=
| CBool (b : bool)
| CNum (x : R)
| CStr (s : string).

Record DataFrame : Type := mk_frame
  { columns : list string;
    rows : list (list cell) }.

(** [len(df)] and [len(df.columns)] *)
Definition len (df : DataFrame) : nat := length (rows df).
Definition ncols (df : DataFrame) : nat := length (columns df).

(** Position of a column label. *)
Fixpoint index_of (name : string) (cols : list string) : option nat :=
  match cols with
  | [] => None
  | c :: cols' =>
      if String.eqb c name then Some 0%nat
      else option_map S (index_of name cols')
  end.

(** [name in df.columns] *)
Definition has_column (df : DataFrame) (name : string) : bool :=
  match index_of name (columns df) with Some _ => true | None => false end.

(** [df[name]]: the column as a sequence of cells, or [KeyError]; the text
    of a [KeyError] is the [repr] of the key. *)
Definition getitem (df : DataFrame) (name : string) : list cell + Py.exn :=
  match index_of name (columns df) with
  | Some j => inl (map (fun row => nth j row (CStr EmptyString)) (rows df))
  | None => inr (Py.mk_exn Py.KeyError (Py.repr name))
  end.

(** [series == True] / [series == False], element by element; in Python
    [1 == True] and [0 == False] hold, a string equals neither. *)
Definition cell_eq_bool (c : cell) (b : bool) : bool :=
  match c with
  | CBool b' => Bool.eqb b' b
  | CNum x => Np.eqb x (if b then 1 else 0)
  | CStr _ => false
  end.

Definition eq_scalar (col : list cell) (b : bool) : list bool :=
  map (fun c => cell_eq_bool c b) col.

(** [df[mask]]: the rows whose mask entry is [True]. *)
Definition select_rows (df : DataFrame) (mask : list bool) : DataFrame :=
  mk_frame (columns df) (Np.mask_select mask (rows df)).

(** Row positions a mask selects. *)
Definition selected (mask : list bool) : list nat :=
  Np.mask_select mask (seq 0 (length mask)).

(** [df.head()]: the first five rows. *)
Definition head (df : DataFrame) : DataFrame :=
  mk_frame (columns df) (firstn 5 (rows df)).

(** [series.values] handed to [fft]: booleans count as 0/1, a string makes
    the conversion to floats fail with [ValueError]. *)
Fixpoint as_floats (col : list cell) : list R + Py.exn :=
  match col with
  | [] => inl []
  | c :: col' =>
      match c, as_floats col' with
      | CStr s, _ =>
          inr (Py.mk_exn Py.ValueError
                 ("could not convert string to float: " ++ Py.repr s))
      | _, inr e => inr e
      | CBool b, inl xs => inl ((if b then 1 else 0) :: xs)
      | CNum x, inl xs => inl (x :: xs)
      end
  end.

End Frame.

(** ** [src/dataloader.py]: the class [HandDataLoader] *)

Module Loader.
Import Frame.
Local Open Scope py_scope.
Local Open Scope string_scope.

(** The two attributes of an instance; [None] is Python's [None]. *)
Record HandDataLoader : Type := mk_loader
  { hand_data : option DataFrame;
    emg_data : option DataFrame }.

(** The instance together with what has been printed so far. *)
Record state : Type := mk_state
  { self : HandDataLoader;
    stdout : list string }.

(** [__init__] *)
Definition init : HandDataLoader :=
  {| hand_data := None; emg_data := None |}.

Definition set_hand_data (v : option DataFrame) (s : state) : state :=
  {| self := {| hand_data := v; emg_data := emg_data (self s) |};
     stdout := stdout s |}.

Definition set_emg_data (v : option DataFrame) (s : state) : state :=
  {| self := {| hand_data := hand_data (self s); emg_data := v |};
     stdout := stdout s |}.

Definition print (line : string) : Py.M state unit :=
  Py.modify (fun s => {| self := self s; stdout := stdout s ++ [line] |}).

Definition str_of_nat (k : nat) : string :=
  NilEmpty.string_of_uint (Nat.to_uint k).

Definition loaded_message (what : string) (df : DataFrame) : string :=
  what ++ " data loaded: " ++ str_of_nat (len df) ++ " rows, "
       ++ str_of_nat (ncols df) ++ " columns".

Definition error_message (what : string) (e : Py.exn) : string :=
  "Error loading " ++ what ++ " data: " ++ Py.str e.

(** [len(None)] is a [TypeError]. *)
Definition none_has_no_len : Py.exn :=
  Py.mk_exn Py.TypeError "object of type 'NoneType' has no len()".

Section WithFiles.

(** [pd.read_csv]: what reading and parsing a path gives. *)
Variable read_csv : string -> DataFrame + Py.exn.

Definition load_hand_data (filepath : string)
  : Py.M state (option DataFrame) :=
  Py.try_except
    (df <- Py.lift (read_csv filepath) ;;
     Py.modify (set_hand_data (Some df)) ;;
     stored <- Py.gets (fun s => hand_data (self s)) ;;
     match stored with
     | Some t => print (loaded_message "Hand" t)
     | None => Py.raise none_has_no_len
     end ;;
     Py.gets (fun s => hand_data (self s)))
    [ (Py.Exception,
       fun e => print (error_message "hand" e) ;; Py.ret None) ].

Definition load_emg_data (filepath : string)
  : Py.M state (option DataFrame) :=
  Py.try_except
    (df <- Py.lift (read_csv filepath) ;;
     Py.modify (set_emg_data (Some df)) ;;
     stored <- Py.gets (fun s => emg_data (self s)) ;;
     match stored with
     | Some t => print (loaded_message "EMG" t)
     | None => Py.raise none_has_no_len
     end ;;
     Py.gets (fun s => emg_data (self s)))
    [ (Py.Exception,
       fun e => print (error_message "EMG" e) ;; Py.ret None) ].

Definition load_all_data (hand_filepath emg_filepath : string)
  : Py.M state (option DataFrame * option DataFrame) :=
  hand <- load_hand_data hand_filepath ;;
  emg <- load_emg_data emg_filepath ;;
  Py.ret (hand, emg).

End WithFiles.

End Loader.

(** ** [src/sample_app.py]: the left/right split of [visualize_data] *)

Module SampleApp.
Import Frame.
Local Open Scope string_scope.

(** [hand_data['is_left'] == True] and [hand_data['is_left'] == False] *)
Definition left_mask (hand_data : DataFrame) : list bool + Py.exn :=
  match getitem hand_data "is_left" with
  | inl col => inl (eq_scalar col true)
  | inr e => inr e
  end.

Definition right_mask (hand_data : DataFrame) : list bool + Py.exn :=
  match getitem hand_data "is_left" with
  | inl col => inl (eq_scalar col false)
  | inr e => inr e
  end.

(** [left_hand = hand_data[hand_data['is_left'] == True]] *)
Definition left_hand (hand_data : DataFrame) : DataFrame + Py.exn :=
  match left_mask hand_data with
  | inl mask => inl (select_rows hand_data mask)
  | inr e => inr e
  end.

(** [right_hand = hand_data[hand_data['is_left'] == False]] *)
Definition right_hand (hand_data : DataFrame) : DataFrame + Py.exn :=
  match right_mask hand_data with
  | inl mask => inl (select_rows hand_data mask)
  | inr e => inr e
  end.

End SampleApp.

(** ** [src/fft/emg_fft_analysis.py]: the script *)

Module Script.
Import Frame.
Local Open Scope py_scope.
Local Open Scope string_scope.

Definition FILENAME : string := "emg_data.csv".

(** What the script prints.  Lines that format real numbers are kept as
    records of the numbers they show. *)
Inductive out : Type :=
| Line (s : string)
| LineList (s : string) (items : list string)
| FrameText (df : DataFrame)
| BandLine (r : Bands.band_report).

(** The figure handed to [plt.savefig]. *)
Record figure : Type := mk_figure
  { time_axis : list R;
    signal : list R;
    freq_axis : list R;
    psd_dB : list Bands.decibels;
    spans : list (R * R * string * string);
    annotations : list (R * Bands.decibels);
    xlim : R * R }.

(** The module-level variables, the console and the files written.  A name
    that has not been assigned yet is [None]. *)
Record globals : Type := mk_globals
  { df : option DataFrame;
    EMG_COLUMN : string;
    stdin : list string;
    stdout : list out;
    saved : list (string * figure) }.

Definition initial (keyboard : list string) : globals :=
  {| df := None; EMG_COLUMN := "emg"; stdin := keyboard;
     stdout := []; saved := [] |}.

Definition print (o : out) : Py.M globals unit :=
  Py.modify (fun g =>
    {| df := df g; EMG_COLUMN := EMG_COLUMN g; stdin := stdin g;
       stdout := stdout g ++ [o]; saved := saved g |}).

Definition assign_df (v : DataFrame) : Py.M globals unit :=
  Py.modify (fun g =>
    {| df := Some v; EMG_COLUMN := EMG_COLUMN g; stdin := stdin g;
       stdout := stdout g; saved := saved g |}).

Definition assign_EMG_COLUMN (v : string) : Py.M globals unit :=
  Py.modify (fun g =>
    {| df := df g; EMG_COLUMN := v; stdin := stdin g;
       stdout := stdout g; saved := saved g |}).

Definition savefig (name : string) (fig : figure) : Py.M globals unit :=
  Py.modify (fun g =>
    {| df := df g; EMG_COLUMN := EMG_COLUMN g; stdin := stdin g;
       stdout := stdout g; saved := saved g ++ [(name, fig)] |}).

(** Reading the global [df]: a [NameError] while it is unassigned. *)
Definition read_df : Py.M globals DataFrame :=
  fun g =>
    match df g with
    | Some v => (Py.Normal v, g)
    | None => (Py.Raised (Py.mk_exn Py.NameError "name 'df' is not defined"), g)
    end.

(** [input(prompt)]: the next line typed, [EOFError] when there is none. *)
Definition input (prompt : string) : Py.M globals string :=
  fun g =>
    match stdin g with
    | answer :: rest =>
        (Py.Normal answer,
         {| df := df g; EMG_COLUMN := EMG_COLUMN g; stdin := rest;
            stdout := stdout g ++ [Line prompt]; saved := saved g |})
    | [] =>
        (Py.Raised (Py.mk_exn Py.EOFError "EOF when reading a line"),
         {| df := df g; EMG_COLUMN := EMG_COLUMN g; stdin := [];
            stdout := stdout g ++ [Line prompt]; saved := saved g |})
    end.

Definition newline : string := String (Ascii.ascii_of_nat 10) EmptyString.

Fixpoint replicate (k : nat) (s : string) : string :=
  match k with
  | O => EmptyString
  | S k' => s ++ replicate k' s
  end.

(** [fft] refuses an empty array. *)
Definition checked_fft (x : list R) : unit + Py.exn :=
  if (length x =? 0)%nat
  then inr (Py.mk_exn Py.ValueError
              "invalid number of data points (0) specified")
  else inl tt.

Definition colors : list string :=
  ["lightblue"; "lightgreen"; "lightyellow"; "lightcoral"; "plum"].

Fixpoint somes {A : Type} (l : list (option A)) : list A :=
  match l with
  | [] => []
  | Some a :: l' => a :: somes l'
  | None :: l' => somes l'
  end.

(** Lines 75-122: what is drawn. *)
Definition make_figure (emg_data : list R) : figure :=
  let n := Spectrum.n emg_data in
  let xf := Spectrum.xf Spectrum.SAMPLING_RATE emg_data in
  let psd := Spectrum.psd emg_data in
  {| time_axis := map (fun i => INR i / Spectrum.SAMPLING_RATE) (seq 0 n);
     signal := emg_data;
     freq_axis := xf;
     psd_dB := map Bands.dB psd;
     spans :=
       map (fun bc => (Bands.low (fst bc), Bands.high (fst bc), snd bc,
                       Bands.band_name (fst bc)))
           (combine Bands.frequency_bands colors);
     annotations := somes (map (Bands.annotation xf psd) Bands.frequency_bands);
     xlim := (0, Spectrum.SAMPLING_RATE / 2) |}.

Fixpoint print_all (l : list out) : Py.M globals unit :=
  match l with
  | [] => Py.ret tt
  | o :: l' => print o ;; print_all l'
  end.

Section WithFiles.

(** [pd.read_csv]: what reading and parsing a path gives. *)
Variable read_csv : string -> DataFrame + Py.exn.

(** Lines 14-131, the body of the [try]. *)
Definition body : Py.M globals unit :=
  table <- Py.lift (read_csv FILENAME) ;;
  assign_df table ;;
  print (Line "データの先頭5行を表示:") ;;
  d <- read_df ;;
  print (FrameText (head d)) ;;
  d <- read_df ;;
  column <- Py.gets EMG_COLUMN ;;
  (if negb (has_column d column) then
     d <- read_df ;;
     print (LineList (newline ++ "使用可能な列: ") (columns d)) ;;
     answer <- input "EMGデータの列名を入力してください: " ;;
     assign_EMG_COLUMN answer
   else Py.ret tt) ;;
  d <- read_df ;;
  column <- Py.gets EMG_COLUMN ;;
  cells <- Py.lift (getitem d column) ;;
  emg_data <- Py.lift (as_floats cells) ;;
  Py.lift (checked_fft emg_data) ;;
  print (Line (newline ++ "各周波数帯域のピーク値:")) ;;
  print (Line (replicate 50 "-")) ;;
  print_all (map BandLine
               (Bands.band_reports Spectrum.SAMPLING_RATE emg_data)) ;;
  print (Line (replicate 50 "-")) ;;
  savefig "emg_fft_analysis.png" (make_figure emg_data) ;;
  print (Line (newline
     ++ "FFT解析結果を 'emg_fft_analysis.png' として保存しました。")).

(** Lines 133-134. *)
Definition on_file_not_found (e : Py.exn) : Py.M globals unit :=
  print (Line ("エラー: ファイル '" ++ FILENAME ++ "' が見つかりません。")).

(** Lines 135-138. *)
Definition on_exception (e : Py.exn) : Py.M globals unit :=
  print (Line ("エラーが発生しました: " ++ Py.str e)) ;;
  print (Line (newline ++ "使用可能な列:")) ;;
  d <- read_df ;;
  print (LineList EmptyString (columns d)).

(** The whole script. *)
Definition script : Py.M globals unit :=
  Py.try_except body
    [ (Py.FileNotFoundError, on_file_not_found);
      (Py.Exception, on_exception) ].

End WithFiles.

End Script.

(** ** [src/dataloader.py]: [get_basic_info] and the usage example *)

Module LoaderInfo.
Import Frame.
Local Open Scope py_scope.
Local Open Scope string_scope.

Definition newline : string := String (Ascii.ascii_of_nat 10) EmptyString.

(** [df.shape] as Python prints a pair of integers. *)
Definition shape_text (df : DataFrame) : string :=
  "(" ++ Loader.str_of_nat (len df) ++ ", " ++ Loader.str_of_nat (ncols df)
      ++ ")".

Section WithText.

(** The text Python and pandas produce for a list of column labels, for
    the [dtypes] of a table and for a table itself. *)
Variable repr_columns : list string -> string.
Variable repr_dtypes : DataFrame -> string.
Variable repr_frame : DataFrame -> string.

(** The four [print] calls of one block of [get_basic_info]. *)
Definition info_block (what : string) (t : DataFrame) : list string :=
  [ newline ++ "=== " ++ what ++ " Data Info ===";
    "Shape: " ++ shape_text t;
    "Columns: " ++ repr_columns (columns t);
    "Data types:" ++ newline ++ repr_dtypes t ].

Fixpoint print_lines (lines : list string) : Py.M Loader.state unit :=
  match lines with
  | [] => Py.ret tt
  | line :: rest => Loader.print line ;; print_lines rest
  end.

(** [get_basic_info]: nothing between the test of an attribute and its
    uses changes it, so it is read once per block. *)
Definition get_basic_info : Py.M Loader.state unit :=
  hand <- Py.gets (fun s => Loader.hand_data (Loader.self s)) ;;
  match hand with
  | Some t => print_lines (info_block "Hand" t)
  | None => Py.ret tt
  end ;;
  emg <- Py.gets (fun s => Loader.emg_data (Loader.self s)) ;;
  match emg with
  | Some t => print_lines (info_block "EMG" t)
  | None => Py.ret tt
  end.

(** The two [print] calls that show the first rows of a table. *)
Definition sample_block (what : string) (t : DataFrame) : list string :=
  [ newline ++ "=== " ++ what ++ " Data Sample ===";
    repr_frame (head t) ].

Variable read_csv : string -> DataFrame + Py.exn.

(** Lines 78-99: the usage example run as a script. *)
Definition main : Py.M Loader.state unit :=
  Py.modify (fun s => Loader.mk_state Loader.init (Loader.stdout s)) ;;
  loaded <- Loader.load_all_data read_csv "hand_data_log.csv"
              "emg_data.csv" ;;
  get_basic_info ;;
  match fst loaded with
  | Some t => print_lines (sample_block "Hand" t)
  | None => Py.ret tt
  end ;;
  match snd loaded with
  | Some t => print_lines (sample_block "EMG" t)
  | None => Py.ret tt
  end.

End WithText.

End LoaderInfo.

(** ** [src/sample_app.py]: the three report functions *)

Module App.
Import Frame.
Local Open Scope py_scope.
Local Open Scope string_scope.

(** What is drawn on one pair of axes; the drawing calls are recorded with
    the data they are handed ([label] is [None] where the call gives
    none).  A heat map of [table.corr()] is recorded by [table]. *)
Inductive artist : Type :=
| Scatter (xs ys : list cell) (label : option string)
| PlotLine (xs ys : list cell) (label : option string)
| Hist (values : list cell) (label : option string)
| CorrHeatmap (table : DataFrame) (ticks : list string).

Record axes : Type := mk_axes
  { title : string;
    artists : list artist }.

Definition figure : Type := list axes.

(** The console and the image files written so far. *)
Record state : Type := mk_state
  { stdout : list string;
    saved : list (string * figure) }.

Definition print (line : string) : Py.M state unit :=
  Py.modify (fun s => {| stdout := stdout s ++ [line]; saved := saved s |}).

Definition savefig (name : string) (fig : figure) : Py.M state unit :=
  Py.modify (fun s =>
    {| stdout := stdout s; saved := saved s ++ [(name, fig)] |}).

(** [loader = HandDataLoader()] followed by calls on it: the loader is a
    local object that prints on the same console. *)
Definition with_new_loader {A : Type} (m : Py.M Loader.state A)
  : Py.M state A :=
  fun s =>
    match m (Loader.mk_state Loader.init (stdout s)) with
    | (r, ls) => (r, {| stdout := Loader.stdout ls; saved := saved s |})
    end.

(** Sequencing of steps that may raise and touch no state. *)
Definition and_then {A B : Type} (r : A + Py.exn) (k : A -> B + Py.exn)
  : B + Py.exn :=
  match r with
  | inl a => k a
  | inr e => inr e
  end.

(** [f'Sensor_{i}'] and [sensor_columns] *)
Definition sensor_col (i : nat) : string := "Sensor_" ++ Loader.str_of_nat i.
Definition sensor_columns : list string := map sensor_col (seq 1 8).

(** A loop of [plt.plot(table[x_name], table[name], label=...)] over
    columns, given with their labels: the artists in order. *)
Fixpoint plot_each (table : DataFrame) (x_name : string)
  (names : list (string * option string)) : list artist + Py.exn :=
  match names with
  | [] => inl []
  | (name, label) :: rest =>
      and_then (getitem table x_name) (fun xs =>
      and_then (getitem table name) (fun ys =>
      and_then (plot_each table x_name rest) (fun more =>
      inl (PlotLine xs ys label :: more))))
  end.

Section WithLibraries.

Variable read_csv : string -> DataFrame + Py.exn.

(** The message of the [KeyError] pandas raises when a list of labels is
    not all found, given the labels asked for and those missing. *)
Variable missing_labels_message : list string -> list string -> string.

(** What [DataFrame.corr] raises on a table, if it raises. *)
Variable corr_error : DataFrame -> option Py.exn.

(** [table[names]] for a list of labels. *)
Definition getitems (table : DataFrame) (names : list string)
  : DataFrame + Py.exn :=
  if forallb (has_column table) names then
    inl (mk_frame names
           (map (fun row =>
                   map (fun name =>
                          match index_of name (columns table) with
                          | Some j => nth j row (CStr EmptyString)
                          | None => CStr EmptyString
                          end) names)
                (rows table)))
  else
    inr (Py.mk_exn Py.KeyError
           (missing_labels_message names
              (filter (fun name => negb (has_column table name)) names))).

(** [table.corr()], kept as the table it is computed from. *)
Definition corr (table : DataFrame) : DataFrame + Py.exn :=
  match corr_error table with
  | Some e => inr e
  | None => inl table
  end.

(** Lines 21-75 of [visualize_data]: the four panels. *)
Definition overview_figure (hand_data emg_data : DataFrame)
  : figure + Py.exn :=
  and_then (getitem hand_data "timestamp") (fun ts =>
  and_then (getitem hand_data "thumb_mcp_quat_0") (fun quat =>
  and_then (plot_each emg_data "Timestamp"
              (map (fun i => (sensor_col i,
                              Some ("Sensor " ++ Loader.str_of_nat i)))
                   (seq 1 8))) (fun sensor_lines =>
  and_then (SampleApp.left_hand hand_data) (fun left_hand =>
  and_then (SampleApp.right_hand hand_data) (fun right_hand =>
  and_then (getitem left_hand "thumb_mcp_quat_0") (fun left_quat =>
  and_then (getitem right_hand "thumb_mcp_quat_0") (fun right_quat =>
  and_then (getitems emg_data sensor_columns) (fun sensors =>
  and_then (corr sensors) (fun correlated =>
  inl [ mk_axes "Hand Pose Timeline (Thumb MCP)"
          [Scatter ts quat (Some "Thumb MCP Quat 0")];
        mk_axes "EMG Sensor Data" sensor_lines;
        mk_axes "Left vs Right Hand Distribution"
          [Hist left_quat (Some "Left Hand");
           Hist right_quat (Some "Right Hand")];
        mk_axes "EMG Sensor Correlation Matrix"
          [CorrHeatmap correlated sensor_columns] ]))))))))).

Definition visualize_data : Py.M state unit :=
  loaded <- with_new_loader
              (Loader.load_all_data read_csv "hand_data_log.csv"
                 "emg_data.csv") ;;
  match loaded with
  | (Some hand_data, Some emg_data) =>
      fig <- Py.lift (overview_figure hand_data emg_data) ;;
      savefig "hand_emg_analysis.png" fig ;;
      print "Visualization saved as 'hand_emg_analysis.png'"
  | _ => print "Error: Could not load data files"
  end.

Definition index_joints : list string :=
  ["index_mcp_quat_0"; "index_pip_quat_0"; "index_dip_quat_0"].
Definition joint_names : list string := ["MCP"; "PIP"; "DIP"].

(** Lines 92-116 of [analyze_finger_movement]: one panel per joint, then
    the panel with all three. *)
Definition finger_figure (hand_data : DataFrame) : figure + Py.exn :=
  and_then (plot_each hand_data "timestamp"
              (map (fun jn => (fst jn, Some ("Index " ++ snd jn)))
                   (combine index_joints joint_names))) (fun singles =>
  and_then (plot_each hand_data "timestamp"
              (map (fun jn => (fst jn, Some (snd jn)))
                   (combine index_joints joint_names))) (fun together =>
  inl (map (fun na =>
              mk_axes ("Index Finger " ++ fst na ++ " Joint Movement")
                      [snd na])
           (combine joint_names singles)
       ++ [mk_axes "Index Finger - All Joints" together])%list)).

Definition analyze_finger_movement : Py.M state unit :=
  loaded <- with_new_loader
              (Loader.load_hand_data read_csv "hand_data_log.csv") ;;
  match loaded with
  | None => Py.ret tt
  | Some hand_data =>
      fig <- Py.lift (finger_figure hand_data) ;;
      savefig "index_finger_analysis.png" fig ;;
      print "Index finger analysis saved as 'index_finger_analysis.png'"
  end.

(** Lines 133-145 of [compare_emg_patterns]: one panel per sensor. *)
Definition sensors_figure (emg_data : DataFrame) : figure + Py.exn :=
  and_then (plot_each emg_data "Timestamp"
              (map (fun sensor => (sensor, None)) sensor_columns))
    (fun lines =>
  inl (map (fun sa => mk_axes (fst sa) [snd sa])
           (combine sensor_columns lines))).

Definition compare_emg_patterns : Py.M state unit :=
  loaded <- with_new_loader
              (Loader.load_emg_data read_csv "emg_data.csv") ;;
  match loaded with
  | None => Py.ret tt
  | Some emg_data =>
      fig <- Py.lift (sensors_figure emg_data) ;;
      savefig "emg_sensors_comparison.png" fig ;;
      print "EMG sensor comparison saved as 'emg_sensors_comparison.png'"
  end.

(** Lines 153-163: the script. *)
Definition main : Py.M state unit :=
  print "=== Data Visualization Examples ===" ;;
  visualize_data ;;
  analyze_finger_movement ;;
  compare_emg_patterns.

End WithLibraries.

End App.

(** ** Vocabulary for stating what the peak search finds *)

Module PeakSpec.

(** Samples [l..r] form a flat top: they are all equal, they have a
    neighbour on each side, and both outer neighbours are strictly
    smaller. *)
Definition flat_top (x : list R) (l r : nat) : Prop :=
  (1 <= l <= r)%nat
  /\ (r + 1 < length x)%nat
  /\ (forall j, (l <= j <= r)%nat -> Np.get x j = Np.get x l)
  /\ Np.get x (l - 1) < Np.get x l
  /\ Np.get x (r + 1) < Np.get x l.

(** [p] is the middle of a flat top, rounded down. *)
Definition flat_top_middle (x : list R) (p : nat) : Prop :=
  exists l r, flat_top x l r /\ p = ((l + r) / 2)%nat.

(** Sample [i] is strictly greater than both immediate neighbours. *)
Definition strict_peak (x : list R) (i : nat) : Prop :=
  (1 <= i)%nat /\ (i + 1 < length x)%nat
  /\ Np.get x (i - 1) < Np.get x i
  /\ Np.get x (i + 1) < Np.get x i.

End PeakSpec.

(** ** Test signals *)

Module Signal.

(** A pure sine wave of the given amplitude, frequency and phase, sampled
    at rate [fs] for [N] samples: sample [t] is taken at time [t / fs]. *)
Definition sine_wave (amplitude f phase fs : R) (N : nat) : list R :=
  map (fun t => amplitude * sin (2 * PI * f * (INR t / fs) + phase))
      (seq 0 N).

End Signal.

(** ** Concrete inputs used to exercise the definitions *)

Module Sample.

(** Seven samples of a 99 Hz sine taken at 200 Hz. *)
Definition sine99 : list R := Signal.sine_wave 1 99 0 200 7.
Definition high_beta : Bands.band := (50, 100, "High Beta (50-100Hz)"%string).

(** A column of four samples. *)
Definition ramp4 : list R := [1; 2; 3; 4].

(** Five bins of the lowest band whose magnitudes have a flat top at bins
    1 and 2 and their largest value at the last bin. *)
Definition flat_xf : list R := [0; 2; 4; 6; 8].
Definition flat_psd : list R := [0; 3; 3; 0; 5].
Definition lowest_band : Bands.band := (0, 20, "Delta-Theta (0-20Hz)"%string).

(** A hand-pose table of three rows. *)
Definition hand_table : Frame.DataFrame :=
  Frame.mk_frame
    ["timestamp"; "is_left"; "thumb_mcp_quat_0"]%string
    [ [Frame.CNum 0; Frame.CBool true; Frame.CNum 1];
      [Frame.CNum 1; Frame.CBool false; Frame.CNum 2];
      [Frame.CNum 2; Frame.CBool true; Frame.CNum 3] ].

(** A hand-pose table whose [is_left] column was read as text in its
    second row. *)
Definition text_flag_table : Frame.DataFrame :=
  Frame.mk_frame
    ["timestamp"; "is_left"]%string
    [ [Frame.CNum 0; Frame.CBool true];
      [Frame.CNum 1; Frame.CStr "yes"];
      [Frame.CNum 2; Frame.CBool false] ].

(** A directory that holds only the hand-pose log. *)
Definition only_hand_file (path : string) : Frame.DataFrame + Py.exn :=
  if String.eqb path "hand_data_log.csv" then inl hand_table
  else inr (Py.mk_exn Py.FileNotFoundError
              "[Errno 2] No such file or directory").

(** A directory where every path holds the hand-pose table (so the column
    [emg] is missing). *)
Definition hand_table_everywhere (path : string) : Frame.DataFrame + Py.exn :=
  inl hand_table.

(** An EMG table with the column [emg], one with a sensor column only,
    and one with the column [emg] but no rows. *)
Definition emg_table : Frame.DataFrame :=
  Frame.mk_frame ["Timestamp"; "emg"]%string
    [ [Frame.CNum 0; Frame.CNum 1]; [Frame.CNum 1; Frame.CNum 2] ].

Definition sensor_table : Frame.DataFrame :=
  Frame.mk_frame ["Timestamp"; "Sensor_1"]%string
    [ [Frame.CNum 0; Frame.CNum 1]; [Frame.CNum 1; Frame.CNum 2] ].

Definition empty_emg_table : Frame.DataFrame :=
  Frame.mk_frame ["Timestamp"; "emg"]%string [].

Definition emg_table_everywhere (path : string)
  : Frame.DataFrame + Py.exn := inl emg_table.

Definition sensor_table_everywhere (path : string)
  : Frame.DataFrame + Py.exn := inl sensor_table.

Definition empty_emg_table_everywhere (path : string)
  : Frame.DataFrame + Py.exn := inl empty_emg_table.

(** An EMG table with the time stamp and all eight sensor columns. *)
Definition full_emg_table : Frame.DataFrame :=
  Frame.mk_frame
    ["Timestamp"; "Sensor_1"; "Sensor_2"; "Sensor_3"; "Sensor_4";
     "Sensor_5"; "Sensor_6"; "Sensor_7"; "Sensor_8"]%string
    [ [Frame.CNum 0; Frame.CNum 1; Frame.CNum 2; Frame.CNum 3; Frame.CNum 4;
       Frame.CNum 5; Frame.CNum 6; Frame.CNum 7; Frame.CNum 8] ].

Definition full_emg_table_everywhere (path : string)
  : Frame.DataFrame + Py.exn := inl full_emg_table.

(** A hand-pose table with the three joints of the index finger. *)
Definition finger_table : Frame.DataFrame :=
  Frame.mk_frame
    ["timestamp"; "index_mcp_quat_0"; "index_pip_quat_0";
     "index_dip_quat_0"]%string
    [ [Frame.CNum 0; Frame.CNum 1; Frame.CNum 2; Frame.CNum 3];
      [Frame.CNum 1; Frame.CNum 4; Frame.CNum 5; Frame.CNum 6] ].

Definition finger_table_everywhere (path : string)
  : Frame.DataFrame + Py.exn := inl finger_table.

(** A directory whose files cannot be parsed. *)
Definition unparsable_files (path : string) : Frame.DataFrame + Py.exn :=
  inr (Py.mk_exn Py.ParserError "Error tokenizing data").

End Sample.

(** * Properties *)

(** ** Comparisons and array helpers *)

Lemma ltb_true (a b : R) : Np.ltb a b = true <-> a < b.
Proof. unfold Np.ltb. destruct (Rlt_dec a b); split; auto; discriminate. Qed.

Lemma ltb_false (a b : R) : Np.ltb a b = false <-> b <= a.
Proof.
  unfold Np.ltb. destruct (Rlt_dec a b); split; auto; try discriminate; lra.
Qed.

Lemma leb_true (a b : R) : Np.leb a b = true <-> a <= b.
Proof. unfold Np.leb. destruct (Rle_dec a b); split; auto; discriminate. Qed.

Lemma leb_false (a b : R) : Np.leb a b = false <-> b < a.
Proof.
  unfold Np.leb. destruct (Rle_dec a b); split; auto; try discriminate; lra.
Qed.

Lemma eqb_true (a b : R) : Np.eqb a b = true <-> a = b.
Proof. unfold Np.eqb. destruct (Req_dec_T a b); split; auto; discriminate. Qed.

Lemma eqb_false (a b : R) : Np.eqb a b = false <-> a <> b.
Proof.
  unfold Np.eqb. destruct (Req_dec_T a b); split; auto; try discriminate.
  intros H; contradiction.
Qed.

(** ** The retained spectrum *)

Lemma fftfreq_ints_head (n i : nat) :
  (i < n / 2)%nat -> nth i (Spectrum.fftfreq_ints n) 0%Z = Z.of_nat i.
Proof.
  intros Hi. unfold Spectrum.fftfreq_ints.
  assert (Hn : (2 <= n)%nat).
  { destruct n as [|[|n]]; [simpl in Hi; lia | simpl in Hi; lia | lia]. }
  assert (HN : (i < Z.to_nat ((Z.of_nat n - 1) / 2 + 1))%nat).
  { pose proof (Nat.div_mod_eq n 2) as Hd.
    pose proof (Nat.mod_upper_bound n 2 ltac:(lia)) as Hm.
    pose proof (Z.div_mod (Z.of_nat n - 1) 2 ltac:(lia)) as Hz.
    pose proof (Z.mod_pos_bound (Z.of_nat n - 1) 2 ltac:(lia)) as Hb.
    lia. }
  rewrite app_nth1 by (rewrite length_map, length_seq; exact HN).
  rewrite nth_indep with (d' := Z.of_nat 0)
    by (rewrite length_map, length_seq; exact HN).
  rewrite map_nth, seq_nth by exact HN. reflexivity.
Qed.

Lemma fftfreq_ints_length (n : nat) :
  length (Spectrum.fftfreq_ints n) = n.
Proof.
  unfold Spectrum.fftfreq_ints.
  rewrite length_app, !length_map, !length_seq.
  pose proof (Z.div_mod (Z.of_nat n - 1) 2 ltac:(lia)) as Hz.
  pose proof (Z.mod_pos_bound (Z.of_nat n - 1) 2 ltac:(lia)) as Hb.
  lia.
Qed.

Lemma fftfreq_length (n : nat) (d : R) : length (Spectrum.fftfreq n d) = n.
Proof. unfold Spectrum.fftfreq. rewrite length_map. apply fftfreq_ints_length. Qed.

Lemma fft_length (x : list R) : length (Spectrum.fft x) = length x.
Proof. unfold Spectrum.fft. rewrite length_map, length_seq. reflexivity. Qed.

Lemma half_le (n : nat) : (n / 2 <= n)%nat.
Proof. pose proof (Nat.div_mod_eq n 2). lia. Qed.

Lemma xf_length (fs : R) (x : list R) :
  length (Spectrum.xf fs x) = (length x / 2)%nat.
Proof.
  unfold Spectrum.xf, Spectrum.n.
  rewrite length_firstn, fftfreq_length. pose proof (half_le (length x)). lia.
Qed.

Lemma psd_length (x : list R) :
  length (Spectrum.psd x) = (length x / 2)%nat.
Proof.
  unfold Spectrum.psd, Spectrum.yf, Spectrum.n.
  rewrite length_map, length_firstn, fft_length.
  pose proof (half_le (length x)). lia.
Qed.

Lemma nth_firstn_lt {A : Type} (l : list A) (k i : nat) (d : A) :
  (i < k)%nat -> nth i (firstn k l) d = nth i l d.
Proof.
  revert k i. induction l as [|a l IH]; intros k i Hi.
  - rewrite firstn_nil. reflexivity.
  - destruct k as [|k]; [lia|]. destruct i as [|i]; simpl; [reflexivity|].
    apply IH. lia.
Qed.

Lemma xf_nth_fftfreq (fs : R) (x : list R) (i : nat) :
  (i < length x / 2)%nat ->
  nth i (Spectrum.xf fs x) 0
  = INR i * (1 / (INR (length x) * (1 / fs))).
Proof.
  intros Hi. unfold Spectrum.xf, Spectrum.n.
  rewrite nth_firstn_lt by exact Hi.
  unfold Spectrum.fftfreq.
  set (f := fun z : Z => IZR z * (1 / (INR (length x) * (1 / fs)))).
  replace 0 with (f 0%Z) by (unfold f; lra).
  rewrite map_nth, fftfreq_ints_head by exact Hi.
  unfold f. rewrite <- INR_IZR_INZ. reflexivity.
Qed.

Lemma psd_nth (x : list R) (i : nat) :
  (i < length x / 2)%nat ->
  nth i (Spectrum.psd x) 0
  = 2 / INR (length x) * Spectrum.Cabs (nth i (Spectrum.fft x) (0, 0)).
Proof.
  intros Hi. unfold Spectrum.psd, Spectrum.yf, Spectrum.n.
  set (f := fun z : Spectrum.C => 2 / INR (length x) * Spectrum.Cabs z).
  assert (Hd : f (0, 0) = 0).
  { unfold f, Spectrum.Cabs. simpl.
    replace (0 * 0 + 0 * 0) with 0 by lra. rewrite sqrt_0. lra. }
  rewrite <- Hd at 1. rewrite map_nth, nth_firstn_lt by exact Hi.
  reflexivity.
Qed.

Lemma fft_nth (x : list R) (i : nat) :
  (i < length x)%nat ->
  nth i (Spectrum.fft x) (0, 0) = Spectrum.dft_bin x i.
Proof.
  intros Hi. unfold Spectrum.fft.
  rewrite nth_indep with (d' := Spectrum.dft_bin x 0)
    by (rewrite length_map, length_seq; exact Hi).
  rewrite map_nth, seq_nth by exact Hi. reflexivity.
Qed.

(** C1 (as the code has it): for a column of length N the frequency axis
    and the magnitude array both have exactly floor(N/2) entries, and entry
    [i] of each is bin [i] of the transform: the non-negative frequency
    number [i] of [fftfreq] and the scaled modulus of [yf[i]].  The bin
    number floor(N/2) is not retained. *)
Theorem single_sided_keeps_half (fs : R) (x : list R) :
  length (Spectrum.xf fs x) = (length x / 2)%nat
  /\ length (Spectrum.psd x) = (length x / 2)%nat
  /\ forall i : nat, (i < length x / 2)%nat ->
       nth i (Spectrum.fftfreq_ints (length x)) 0%Z = Z.of_nat i
       /\ nth i (Spectrum.xf fs x) 0
          = nth i (Spectrum.fftfreq (length x) (1 / fs)) 0
       /\ nth i (Spectrum.psd x) 0
          = 2 / INR (length x) * Spectrum.Cabs (nth i (Spectrum.yf x) (0, 0)).
Proof.
  split; [apply xf_length|]. split; [apply psd_length|].
  intros i Hi. split; [apply fftfreq_ints_head; exact Hi|]. split.
  - unfold Spectrum.xf, Spectrum.n. apply nth_firstn_lt. exact Hi.
  - apply psd_nth. exact Hi.
Qed.

Lemma single_sided_keeps_half_witness :
  (1 < length Sample.ramp4 / 2)%nat
  /\ nth 1 (Spectrum.xf 200 Sample.ramp4) 0
     = nth 1 (Spectrum.fftfreq 4 (1 / 200)) 0.
Proof.
  split; [simpl; lia|].
  apply (proj2 (proj2 (single_sided_keeps_half 200 Sample.ramp4)) 1%nat).
  simpl; lia.
Defined.

(** C1 as stated fails: a column of four samples keeps two bins, not
    three. *)
Lemma single_sided_not_half_plus_one :
  ~ (length (Spectrum.xf Spectrum.SAMPLING_RATE Sample.ramp4)
     = (length Sample.ramp4 / 2 + 1)%nat
     /\ length (Spectrum.psd Sample.ramp4)
        = (length Sample.ramp4 / 2 + 1)%nat).
Proof.
  intros [H _]. rewrite xf_length in H. simpl in H. discriminate H.
Qed.

(** C5: every entry of the magnitude array is (2/N) times the modulus of
    the same bin of the discrete Fourier transform of the column.  With
    [re] and [im] the two sums of the transform at bin [i], the entry is
    [2/N * sqrt (re^2 + im^2)]: the modulus itself and not its square (the
    square of the entry is [(2/N)^2 * (re^2 + im^2)]). *)
Theorem psd_is_scaled_modulus (x : list R) (i : nat) :
  (i < length (Spectrum.psd x))%nat ->
  let re :=
    Np.sum (map (fun j => Np.get x j
                          * cos (2 * PI * INR j * INR i / INR (length x)))
                (seq 0 (length x))) in
  let im :=
    - Np.sum (map (fun j => Np.get x j
                            * sin (2 * PI * INR j * INR i / INR (length x)))
                  (seq 0 (length x))) in
  nth i (Spectrum.fft x) (0, 0) = (re, im)
  /\ nth i (Spectrum.psd x) 0
     = 2 / INR (length x) * sqrt (re * re + im * im)
  /\ 0 <= nth i (Spectrum.psd x) 0
  /\ nth i (Spectrum.psd x) 0 * nth i (Spectrum.psd x) 0
     = (2 / INR (length x)) * (2 / INR (length x)) * (re * re + im * im).
Proof.
  rewrite psd_length. intros Hi re im.
  assert (Hlen : (i < length x)%nat) by (pose proof (half_le (length x)); lia).
  assert (Hbin : nth i (Spectrum.fft x) (0, 0) = (re, im)).
  { rewrite fft_nth by exact Hlen. reflexivity. }
  assert (Hpsd : nth i (Spectrum.psd x) 0
                 = 2 / INR (length x) * sqrt (re * re + im * im)).
  { rewrite psd_nth by exact Hi. rewrite Hbin. reflexivity. }
  assert (Hsq : 0 <= re * re + im * im) by nra.
  assert (Hn : 0 < INR (length x)) by (apply lt_0_INR; lia).
  assert (Hc : 0 < 2 / INR (length x)).
  { apply Rdiv_lt_0_compat; [lra | exact Hn]. }
  split; [exact Hbin|]. split; [exact Hpsd|]. split.
  - rewrite Hpsd. apply Rmult_le_pos; [lra | apply sqrt_pos].
  - rewrite Hpsd.
    replace (2 / INR (length x) * sqrt (re * re + im * im)
             * (2 / INR (length x) * sqrt (re * re + im * im)))
      with (2 / INR (length x) * (2 / INR (length x))
            * (sqrt (re * re + im * im) * sqrt (re * re + im * im)))
      by ring.
    rewrite sqrt_sqrt by exact Hsq. reflexivity.
Qed.

Lemma psd_is_scaled_modulus_witness :
  (1 < length (Spectrum.psd Sample.ramp4))%nat
  /\ nth 1 (Spectrum.psd Sample.ramp4) 0
     = 2 / INR (length Sample.ramp4)
       * sqrt
           (Np.sum
              (map (fun j => Np.get Sample.ramp4 j
                             * cos (2 * PI * INR j * INR 1
                                    / INR (length Sample.ramp4)))
                   (seq 0 (length Sample.ramp4)))
            * Np.sum
                (map (fun j => Np.get Sample.ramp4 j
                               * cos (2 * PI * INR j * INR 1
                                      / INR (length Sample.ramp4)))
                     (seq 0 (length Sample.ramp4)))
            + - Np.sum
                  (map (fun j => Np.get Sample.ramp4 j
                                 * sin (2 * PI * INR j * INR 1
                                        / INR (length Sample.ramp4)))
                       (seq 0 (length Sample.ramp4)))
              * - Np.sum
                    (map (fun j => Np.get Sample.ramp4 j
                                   * sin (2 * PI * INR j * INR 1
                                          / INR (length Sample.ramp4)))
                         (seq 0 (length Sample.ramp4)))).
Proof.
  assert (H : (1 < length (Spectrum.psd Sample.ramp4))%nat).
  { rewrite psd_length. simpl. lia. }
  split; [exact H|].
  exact (proj1 (proj2 (psd_is_scaled_modulus Sample.ramp4 1 H))).
Defined.

Lemma xf_bin_frequency_aux (fs : R) (x : list R) (i : nat) :
  fs <> 0 ->
  (i < length x / 2)%nat ->
  nth i (Spectrum.xf fs x) 0 = INR i * fs / INR (length x).
Proof.
  intros Hfs Hi. rewrite xf_nth_fftfreq by exact Hi.
  assert (Hn : INR (length x) <> 0).
  { apply not_0_INR. intros E. rewrite E in Hi. simpl in Hi. lia. }
  field. split; assumption.
Qed.

(** C6: entry [i] of the frequency axis, for [i] below N/2 (integer
    division), is [i * samplingRate / N]. *)
Theorem xf_bin_frequency (fs : R) (x : list R) (i : nat) :
  fs <> 0 ->
  (i < length x / 2)%nat ->
  nth i (Spectrum.xf fs x) 0 = INR i * fs / INR (length x).
Proof.
  intros Hfs Hi.
  assert (Hn : INR (length x) <> 0).
  { apply not_0_INR. intros E. rewrite E in Hi. simpl in Hi. lia. }
  unfold Spectrum.xf, Spectrum.n, Spectrum.fftfreq.
  rewrite nth_firstn_lt by exact Hi.
  set (scale := fun z : Z => IZR z * (1 / (INR (length x) * (1 / fs)))).
  replace 0 with (scale 0%Z) by (unfold scale; lra).
  rewrite map_nth, fftfreq_ints_head by exact Hi.
  unfold scale. rewrite <- INR_IZR_INZ. field. split; assumption.
Qed.

Lemma xf_bin_frequency_witness :
  Spectrum.SAMPLING_RATE <> 0
  /\ (1 < length Sample.ramp4 / 2)%nat
  /\ nth 1 (Spectrum.xf Spectrum.SAMPLING_RATE Sample.ramp4) 0
     = INR 1 * Spectrum.SAMPLING_RATE / INR (length Sample.ramp4).
Proof.
  assert (H : Spectrum.SAMPLING_RATE <> 0)
    by (unfold Spectrum.SAMPLING_RATE; lra).
  split; [exact H|]. split; [simpl; lia|].
  apply (xf_bin_frequency Spectrum.SAMPLING_RATE Sample.ramp4 1 H).
  simpl; lia.
Defined.

(** ** The frequency bands *)

Lemma adjacent_cases (b1 b2 : Bands.band) :
  Bands.adjacent b1 b2 ->
  Bands.high b1 = Bands.low b2
  /\ Bands.low b1 < Bands.high b1 /\ Bands.low b2 < Bands.high b2.
Proof.
  intros (pre & post & H). unfold Bands.frequency_bands in H.
  do 5 (destruct pre as [|? pre];
        [ simpl in H; inversion H; subst;
          unfold Bands.high, Bands.low; simpl; lra
        | simpl in H; inversion H as [[Hhd Htl]]; clear H; rename Htl into H;
          clear Hhd ]).
  destruct pre; discriminate H.
Qed.

Lemma band_test_true (b : Bands.band) (x : R) :
  Bands.band_test b x = true <-> Bands.low b <= x <= Bands.high b.
Proof.
  unfold Bands.band_test. rewrite andb_true_iff, !leb_true. tauto.
Qed.

(** C3: every frequency in [0, 500] passes the membership test of at least
    one configured band, and a frequency that sits exactly on the boundary
    shared by two consecutive bands passes the test of both. *)
Theorem bands_cover_inclusive (x : R) :
  0 <= x <= 500 ->
  (exists b, In b Bands.frequency_bands /\ Bands.band_test b x = true)
  /\ (forall b1 b2, Bands.adjacent b1 b2 -> x = Bands.high b1 ->
        Bands.band_test b1 x = true /\ Bands.band_test b2 x = true).
Proof.
  intros Hx. split.
  - destruct (Rle_dec x 20) as [H20|H20];
      [|destruct (Rle_dec x 50) as [H50|H50];
        [|destruct (Rle_dec x 100) as [H100|H100];
          [|destruct (Rle_dec x 200) as [H200|H200]]]].
    + exists (0, 20, "Delta-Theta (0-20Hz)"%string). split; [simpl; auto|].
      apply band_test_true. unfold Bands.low, Bands.high. simpl. lra.
    + exists (20, 50, "Low Beta (20-50Hz)"%string). split; [simpl; auto|].
      apply band_test_true. unfold Bands.low, Bands.high. simpl. lra.
    + exists (50, 100, "High Beta (50-100Hz)"%string). split; [simpl; auto|].
      apply band_test_true. unfold Bands.low, Bands.high. simpl. lra.
    + exists (100, 200, "Gamma (100-200Hz)"%string). split; [simpl; auto 6|].
      apply band_test_true. unfold Bands.low, Bands.high. simpl. lra.
    + exists (200, 500, "High Gamma (200-500Hz)"%string).
      split; [simpl; auto 7|].
      apply band_test_true. unfold Bands.low, Bands.high. simpl. lra.
  - intros b1 b2 Hadj Hb.
    destruct (adjacent_cases b1 b2 Hadj) as (Heq & H1 & H2).
    split; apply band_test_true; lra.
Qed.

Lemma bands_cover_inclusive_witness :
  0 <= 20 <= 500
  /\ Bands.adjacent (0, 20, "Delta-Theta (0-20Hz)"%string)
                    (20, 50, "Low Beta (20-50Hz)"%string)
  /\ Bands.band_test (0, 20, "Delta-Theta (0-20Hz)"%string) 20 = true
  /\ Bands.band_test (20, 50, "Low Beta (20-50Hz)"%string) 20 = true.
Proof.
  assert (H : 0 <= 20 <= 500) by lra.
  assert (A : Bands.adjacent (0, 20, "Delta-Theta (0-20Hz)"%string)
                             (20, 50, "Low Beta (20-50Hz)"%string)).
  { exists [], [ (50, 100, "High Beta (50-100Hz)"%string);
                 (100, 200, "Gamma (100-200Hz)"%string);
                 (200, 500, "High Gamma (200-500Hz)"%string) ].
    reflexivity. }
  split; [exact H|]. split; [exact A|].
  exact (proj2 (bands_cover_inclusive 20 H) _ _ A eq_refl).
Defined.

(** ** The loader *)

Lemma every_class_is_exception (c : Py.exn_class) :
  Py.issubclass c Py.Exception = true.
Proof. destruct c; reflexivity. Qed.

Lemma load_hand_data_run (read_csv : string -> Frame.DataFrame + Py.exn)
  (st : Loader.state) (path : string) :
  Loader.load_hand_data read_csv path st =
  match read_csv path with
  | inl t =>
      (Py.Normal (Some t),
       Loader.mk_state
         (Loader.mk_loader (Some t) (Loader.emg_data (Loader.self st)))
         (Loader.stdout st ++ [Loader.loaded_message "Hand" t]))
  | inr e =>
      (Py.Normal None,
       Loader.mk_state (Loader.self st)
         (Loader.stdout st ++ [Loader.error_message "hand" e]))
  end.
Proof.
  unfold Loader.load_hand_data, Py.try_except, Py.bind, Py.lift.
  destruct (read_csv path) as [t|e]; simpl.
  - reflexivity.
  - unfold Py.isinstance. rewrite every_class_is_exception. reflexivity.
Qed.

Lemma load_emg_data_run (read_csv : string -> Frame.DataFrame + Py.exn)
  (st : Loader.state) (path : string) :
  Loader.load_emg_data read_csv path st =
  match read_csv path with
  | inl t =>
      (Py.Normal (Some t),
       Loader.mk_state
         (Loader.mk_loader (Loader.hand_data (Loader.self st)) (Some t))
         (Loader.stdout st ++ [Loader.loaded_message "EMG" t]))
  | inr e =>
      (Py.Normal None,
       Loader.mk_state (Loader.self st)
         (Loader.stdout st ++ [Loader.error_message "EMG" e]))
  end.
Proof.
  unfold Loader.load_emg_data, Py.try_except, Py.bind, Py.lift.
  destruct (read_csv path) as [t|e]; simpl.
  - reflexivity.
  - unfold Py.isinstance. rewrite every_class_is_exception. reflexivity.
Qed.

Example loaded_message_text :
  Loader.loaded_message "Hand" Sample.hand_table
  = "Hand data loaded: 3 rows, 3 columns"%string.
Proof. reflexivity. Qed.

(** C7: for every path, each loader ends normally, never by raising: when
    the read gives a table it returns that table and prints one line with
    its row and column counts; when the read raises it prints one line
    with the error and returns [None]. *)
Theorem loaders_return_table_or_none
  (read_csv : string -> Frame.DataFrame + Py.exn)
  (st : Loader.state) (path : string) :
  ((exists t,
      read_csv path = inl t
      /\ fst (Loader.load_hand_data read_csv path st) = Py.Normal (Some t)
      /\ Loader.stdout (snd (Loader.load_hand_data read_csv path st))
         = Loader.stdout st
           ++ [("Hand data loaded: " ++ Loader.str_of_nat (Frame.len t)
                ++ " rows, " ++ Loader.str_of_nat (Frame.ncols t)
                ++ " columns")%string])
   \/ (exists e,
         read_csv path = inr e
         /\ fst (Loader.load_hand_data read_csv path st) = Py.Normal None
         /\ Loader.stdout (snd (Loader.load_hand_data read_csv path st))
            = Loader.stdout st
              ++ [("Error loading hand data: " ++ Py.str e)%string]))
  /\
  ((exists t,
      read_csv path = inl t
      /\ fst (Loader.load_emg_data read_csv path st) = Py.Normal (Some t)
      /\ Loader.stdout (snd (Loader.load_emg_data read_csv path st))
         = Loader.stdout st
           ++ [("EMG data loaded: " ++ Loader.str_of_nat (Frame.len t)
                ++ " rows, " ++ Loader.str_of_nat (Frame.ncols t)
                ++ " columns")%string])
   \/ (exists e,
         read_csv path = inr e
         /\ fst (Loader.load_emg_data read_csv path st) = Py.Normal None
         /\ Loader.stdout (snd (Loader.load_emg_data read_csv path st))
            = Loader.stdout st
              ++ [("Error loading EMG data: " ++ Py.str e)%string])).
Proof.
  rewrite load_hand_data_run, load_emg_data_run.
  destruct (read_csv path) as [t|e]; split.
  - left. exists t. repeat split.
  - left. exists t. repeat split.
  - right. exists e. repeat split.
  - right. exists e. repeat split.
Qed.

(** C9: a load that fails (returns [None]) leaves its own table attribute
    as it was, and neither load ever touches the other attribute. *)
Theorem failed_load_keeps_state
  (read_csv : string -> Frame.DataFrame + Py.exn)
  (st : Loader.state) (path : string) :
  (fst (Loader.load_hand_data read_csv path st) = Py.Normal None ->
   Loader.hand_data (Loader.self (snd (Loader.load_hand_data read_csv path st)))
   = Loader.hand_data (Loader.self st))
  /\ (fst (Loader.load_emg_data read_csv path st) = Py.Normal None ->
      Loader.emg_data (Loader.self (snd (Loader.load_emg_data read_csv path st)))
      = Loader.emg_data (Loader.self st))
  /\ Loader.emg_data (Loader.self (snd (Loader.load_hand_data read_csv path st)))
     = Loader.emg_data (Loader.self st)
  /\ Loader.hand_data (Loader.self (snd (Loader.load_emg_data read_csv path st)))
     = Loader.hand_data (Loader.self st).
Proof.
  rewrite load_hand_data_run, load_emg_data_run.
  destruct (read_csv path) as [t|e]; simpl; repeat split;
    intros H; discriminate H.
Qed.

Lemma failed_load_keeps_state_witness :
  let before :=
    Loader.mk_state (Loader.mk_loader (Some Sample.hand_table) None) [] in
  let run :=
    Loader.load_hand_data Sample.unparsable_files "hand_data_log.csv" before in
  fst run = Py.Normal None
  /\ Loader.hand_data (Loader.self (snd run)) = Some Sample.hand_table.
Proof.
  intros before run.
  assert (H : fst run = Py.Normal None) by reflexivity.
  split; [exact H|].
  exact (proj1 (failed_load_keeps_state Sample.unparsable_files before
                  "hand_data_log.csv") H).
Defined.

(** A run in a directory without the EMG file: the hand table is loaded and
    stored, the EMG load reports the error, and nothing is raised. *)
Example load_all_data_run :
  Loader.load_all_data Sample.only_hand_file "hand_data_log.csv" "emg_data.csv"
    (Loader.mk_state Loader.init [])
  = (Py.Normal (Some Sample.hand_table, None),
     Loader.mk_state
       (Loader.mk_loader (Some Sample.hand_table) None)
       [ "Hand data loaded: 3 rows, 3 columns";
         "Error loading EMG data: [Errno 2] No such file or directory" ]%string).
Proof. reflexivity. Qed.

(** ** The left/right split *)

Lemma mask_select_length_split {A : Type} (m : list bool) (l : list A) :
  length m = length l ->
  (length (Np.mask_select m l) + length (Np.mask_select (map negb m) l)
   = length l)%nat.
Proof.
  revert l. induction m as [|b m IH]; intros [|a l] Hlen;
    simpl in *; try discriminate; [reflexivity|].
  injection Hlen as Hlen. specialize (IH l Hlen).
  destruct b; simpl; lia.
Qed.

Lemma mask_select_permutation {A : Type} (m : list bool) (l : list A) :
  length m = length l ->
  Permutation (Np.mask_select m l ++ Np.mask_select (map negb m) l) l.
Proof.
  revert l. induction m as [|b m IH]; intros [|a l] Hlen;
    simpl in *; try discriminate; [constructor|].
  injection Hlen as Hlen. specialize (IH l Hlen).
  destruct b; simpl.
  - constructor. exact IH.
  - apply Permutation_sym, Permutation_cons_app, Permutation_sym. exact IH.
Qed.

Lemma in_mask_select_seq (m : list bool) (s i : nat) :
  In i (Np.mask_select m (seq s (length m)))
  <-> (s <= i < s + length m)%nat /\ nth (i - s) m false = true.
Proof.
  revert s. induction m as [|b m IH]; intros s; simpl.
  - split; [tauto | intros [H _]; lia].
  - destruct b; simpl; rewrite IH.
    + split.
      * intros [<- | [Hr Hn]].
        -- rewrite Nat.sub_diag. split; [lia | reflexivity].
        -- replace (i - s)%nat with (S (i - S s)) by lia.
           split; [lia | exact Hn].
      * intros [Hr Hn]. destruct (Nat.eq_dec s i) as [E|E]; [left; exact E|].
        right. replace (i - s)%nat with (S (i - S s)) in Hn by lia.
        split; [lia | exact Hn].
    + split.
      * intros [Hr Hn]. replace (i - s)%nat with (S (i - S s)) by lia.
        split; [lia | exact Hn].
      * intros [Hr Hn]. destruct (Nat.eq_dec s i) as [E|E].
        -- subst i. rewrite Nat.sub_diag in Hn. discriminate Hn.
        -- replace (i - s)%nat with (S (i - S s)) in Hn by lia.
           split; [lia | exact Hn].
Qed.

Lemma in_selected (m : list bool) (i : nat) :
  In i (Frame.selected m) <-> (i < length m)%nat /\ nth i m false = true.
Proof.
  unfold Frame.selected. rewrite in_mask_select_seq, Nat.sub_0_r.
  split; intros [H1 H2]; (split; [lia | exact H2]).
Qed.

Lemma mask_select_by_position {A : Type} (m : list bool) (l : list A)
  (d : A) (s : nat) (pre : list A) :
  length m = length l -> length pre = s ->
  Np.mask_select m l
  = map (fun i => nth i (pre ++ l) d) (Np.mask_select m (seq s (length m))).
Proof.
  revert l s pre. induction m as [|b m IH]; intros [|a l] s pre Hlen Hpre;
    simpl in *; try discriminate; [reflexivity|].
  injection Hlen as Hlen.
  assert (Hstep : Np.mask_select m l
                  = map (fun i => nth i (pre ++ a :: l) d)
                        (Np.mask_select m (seq (S s) (length m)))).
  { rewrite (IH l (S s) (pre ++ [a])) by
      (try rewrite length_app; simpl; lia).
    rewrite <- app_assoc. reflexivity. }
  destruct b; simpl.
  - rewrite app_nth2 by lia. rewrite Hpre, Nat.sub_diag. simpl.
    f_equal. exact Hstep.
  - exact Hstep.
Qed.

Lemma bool_column_masks (col : list Frame.cell) :
  (forall c, In c col -> exists b, c = Frame.CBool b) ->
  Frame.eq_scalar col false = map negb (Frame.eq_scalar col true).
Proof.
  induction col as [|c col IH]; intros Hall; simpl; [reflexivity|].
  rewrite IH by (intros c' Hc'; apply Hall; right; exact Hc').
  destruct (Hall c (or_introl eq_refl)) as [b ->]. destruct b; reflexivity.
Qed.

Lemma getitem_length (df : Frame.DataFrame) (name : string)
  (col : list Frame.cell) :
  Frame.getitem df name = inl col -> length col = Frame.len df.
Proof.
  unfold Frame.getitem, Frame.len.
  destruct (Frame.index_of name (Frame.columns df)); intros H;
    [|discriminate H].
  injection H as <-. apply length_map.
Qed.

(** C8: when the [is_left] column holds only booleans, no row position is
    selected both as left and as right hand, every row position is selected
    by one of the two, each selected table holds exactly the rows at its
    selected positions, and together the two tables hold the rows of the
    full table (same count, same rows). *)
Theorem left_right_split_is_partition (hand_data : Frame.DataFrame)
  (col : list Frame.cell) :
  Frame.getitem hand_data "is_left" = inl col ->
  (forall c, In c col -> exists b, c = Frame.CBool b) ->
  exists lmask rmask left right,
    SampleApp.left_mask hand_data = inl lmask
    /\ SampleApp.right_mask hand_data = inl rmask
    /\ SampleApp.left_hand hand_data = inl left
    /\ SampleApp.right_hand hand_data = inl right
    /\ (forall i, ~ (In i (Frame.selected lmask)
                     /\ In i (Frame.selected rmask)))
    /\ (forall i, (i < Frame.len hand_data)%nat
                  <-> In i (Frame.selected lmask)
                      \/ In i (Frame.selected rmask))
    /\ Frame.rows left
       = map (fun i => nth i (Frame.rows hand_data) []) (Frame.selected lmask)
    /\ Frame.rows right
       = map (fun i => nth i (Frame.rows hand_data) []) (Frame.selected rmask)
    /\ (Frame.len left + Frame.len right = Frame.len hand_data)%nat
    /\ Permutation (Frame.rows left ++ Frame.rows right)
                   (Frame.rows hand_data).
Proof.
  intros Hcol Hbool.
  pose proof (getitem_length _ _ _ Hcol) as Hlen. unfold Frame.len in Hlen.
  set (m := Frame.eq_scalar col true).
  assert (Hm : length m = length (Frame.rows hand_data)).
  { unfold m, Frame.eq_scalar. rewrite length_map. exact Hlen. }
  exists m, (map negb m),
    (Frame.select_rows hand_data m),
    (Frame.select_rows hand_data (map negb m)).
  unfold SampleApp.left_hand, SampleApp.right_hand,
    SampleApp.left_mask, SampleApp.right_mask.
  rewrite Hcol, (bool_column_masks col Hbool). fold m.
  do 4 (split; [reflexivity|]).
  split; [|split; [|split; [|split; [|split]]]].
  - intros i [Hl Hr]. apply in_selected in Hl, Hr.
    destruct Hl as [Hi Hl], Hr as [_ Hr].
    rewrite nth_indep with (d' := negb true) in Hr
      by (rewrite length_map; exact Hi).
    rewrite map_nth in Hr. rewrite nth_indep with (d' := true) in Hl
      by exact Hi.
    rewrite Hl in Hr. discriminate Hr.
  - intros i. unfold Frame.len. rewrite <- Hm. split.
    + intros Hi. rewrite !in_selected, length_map.
      rewrite (nth_indep (map negb m) false (negb false))
        by (rewrite length_map; exact Hi).
      rewrite map_nth. destruct (nth i m false); [left | right]; auto.
    + intros [H|H]; apply in_selected in H; [|rewrite length_map in H];
        tauto.
  - simpl. unfold Frame.selected.
    apply (mask_select_by_position m (Frame.rows hand_data) [] 0 []);
      [exact Hm | reflexivity].
  - simpl. unfold Frame.selected.
    rewrite (mask_select_by_position (map negb m) (Frame.rows hand_data)
               [] 0 []); [reflexivity | | reflexivity].
    rewrite length_map. exact Hm.
  - unfold Frame.len. simpl. apply mask_select_length_split. exact Hm.
  - simpl. apply mask_select_permutation. exact Hm.
Qed.

Lemma left_right_split_is_partition_witness :
  let col := [Frame.CBool true; Frame.CBool false; Frame.CBool true] in
  Frame.getitem Sample.hand_table "is_left" = inl col
  /\ (forall c, In c col -> exists b, c = Frame.CBool b)
  /\ exists lmask rmask left right,
       SampleApp.left_mask Sample.hand_table = inl lmask
       /\ SampleApp.right_mask Sample.hand_table = inl rmask
       /\ SampleApp.left_hand Sample.hand_table = inl left
       /\ SampleApp.right_hand Sample.hand_table = inl right
       /\ (forall i, ~ (In i (Frame.selected lmask)
                        /\ In i (Frame.selected rmask)))
       /\ (forall i, (i < Frame.len Sample.hand_table)%nat
                     <-> In i (Frame.selected lmask)
                         \/ In i (Frame.selected rmask))
       /\ Frame.rows left
          = map (fun i => nth i (Frame.rows Sample.hand_table) [])
                (Frame.selected lmask)
       /\ Frame.rows right
          = map (fun i => nth i (Frame.rows Sample.hand_table) [])
                (Frame.selected rmask)
       /\ (Frame.len left + Frame.len right
           = Frame.len Sample.hand_table)%nat
       /\ Permutation (Frame.rows left ++ Frame.rows right)
                      (Frame.rows Sample.hand_table).
Proof.
  intros col.
  assert (H1 : Frame.getitem Sample.hand_table "is_left" = inl col)
    by reflexivity.
  assert (H2 : forall c, In c col -> exists b, c = Frame.CBool b).
  { intros c [<-|[<-|[<-|[]]]]; eexists; reflexivity. }
  split; [exact H1|]. split; [exact H2|].
  exact (left_right_split_is_partition Sample.hand_table col H1 H2).
Defined.

(** Without the assumption on the column the split loses rows: a row whose
    flag is text is neither left nor right. *)
Example text_flag_row_is_dropped :
  SampleApp.left_hand Sample.text_flag_table
  = inl (Frame.mk_frame ["timestamp"; "is_left"]%string
           [ [Frame.CNum 0; Frame.CBool true] ])
  /\ SampleApp.right_hand Sample.text_flag_table
     = inl (Frame.mk_frame ["timestamp"; "is_left"]%string
              [ [Frame.CNum 2; Frame.CBool false] ]).
Proof. split; reflexivity. Qed.

(** ** The handlers of the script *)

Lemma script_run_read_failure
  (read_csv : string -> Frame.DataFrame + Py.exn) (g : Script.globals)
  (e : Py.exn) :
  read_csv Script.FILENAME = inr e ->
  Script.body read_csv g = (Py.Raised e, g).
Proof.
  intros H. unfold Script.body, Py.bind, Py.lift. rewrite H. reflexivity.
Qed.

(** C10: when reading the CSV raises anything that is not a
    [FileNotFoundError], the generic handler prints its first two lines and
    then reads the global [df], which was never assigned: the script ends
    by raising [NameError], with the list of columns never printed. *)
Theorem generic_handler_raises_name_error
  (read_csv : string -> Frame.DataFrame + Py.exn)
  (keyboard : list string) (e : Py.exn) :
  read_csv Script.FILENAME = inr e ->
  Py.isinstance e Py.FileNotFoundError = false ->
  Script.script read_csv (Script.initial keyboard)
  = (Py.Raised (Py.mk_exn Py.NameError "name 'df' is not defined"),
     Script.mk_globals None "emg" keyboard
       [ Script.Line ("エラーが発生しました: " ++ Py.str e);
         Script.Line (Script.newline ++ "使用可能な列:") ]
       []).
Proof.
  intros Hread Hclass. unfold Script.script, Py.try_except.
  rewrite (script_run_read_failure read_csv _ e Hread).
  simpl. rewrite Hclass. unfold Py.isinstance.
  rewrite every_class_is_exception. reflexivity.
Qed.

Lemma generic_handler_raises_name_error_witness :
  let e := Py.mk_exn Py.ParserError "Error tokenizing data" in
  Sample.unparsable_files Script.FILENAME = inr e
  /\ Py.isinstance e Py.FileNotFoundError = false
  /\ fst (Script.script Sample.unparsable_files (Script.initial []))
     = Py.Raised (Py.mk_exn Py.NameError "name 'df' is not defined").
Proof.
  intros e.
  assert (H1 : Sample.unparsable_files Script.FILENAME = inr e)
    by reflexivity.
  assert (H2 : Py.isinstance e Py.FileNotFoundError = false) by reflexivity.
  split; [exact H1|]. split; [exact H2|].
  rewrite (generic_handler_raises_name_error
             Sample.unparsable_files [] e H1 H2).
  reflexivity.
Defined.

(** For comparison: a missing file is reported and the script ends
    normally. *)
Lemma missing_file_ends_normally
  (read_csv : string -> Frame.DataFrame + Py.exn)
  (keyboard : list string) (e : Py.exn) :
  read_csv Script.FILENAME = inr e ->
  Py.isinstance e Py.FileNotFoundError = true ->
  fst (Script.script read_csv (Script.initial keyboard)) = Py.Normal tt.
Proof.
  intros Hread Hclass. unfold Script.script, Py.try_except.
  rewrite (script_run_read_failure read_csv _ e Hread).
  simpl. rewrite Hclass. reflexivity.
Qed.

(** For comparison: once [df] is assigned the generic handler runs to its
    end.  Here the column [emg] is missing and nothing can be typed, so
    [input] raises [EOFError]; the handler prints the columns. *)
Example handler_after_assignment :
  Script.script Sample.hand_table_everywhere (Script.initial [])
  = (Py.Normal tt,
     Script.mk_globals (Some Sample.hand_table) "emg" []
       [ Script.Line "データの先頭5行を表示:";
         Script.FrameText Sample.hand_table;
         Script.LineList (Script.newline ++ "使用可能な列: ")
           ["timestamp"; "is_left"; "thumb_mcp_quat_0"]%string;
         Script.Line "EMGデータの列名を入力してください: ";
         Script.Line "エラーが発生しました: EOF when reading a line";
         Script.Line (Script.newline ++ "使用可能な列:");
         Script.LineList EmptyString
           ["timestamp"; "is_left"; "thumb_mcp_quat_0"]%string ]
       []).
Proof. reflexivity. Qed.

(** ** The peak search *)

Section LocalMaxima.

Variable x : list R.
Variable i_max : nat.

Lemma skip_equal_spec (xi : R) (fuel a : nat) :
  (a <= i_max)%nat -> (i_max <= fuel + a)%nat ->
  let r := Peaks.skip_equal fuel x xi a i_max in
  (a <= r <= i_max)%nat
  /\ (forall j, (a <= j < r)%nat -> Np.get x j = xi)
  /\ ((r < i_max)%nat -> Np.get x r <> xi).
Proof.
  revert a. induction fuel as [|fuel IH]; intros a Ha Hfuel; simpl.
  - assert (a = i_max) by lia. subst a.
    split; [lia|]. split; [intros j Hj; lia | intros Hr; lia].
  - destruct (Nat.ltb_spec a i_max) as [Hlt|Hge]; simpl.
    + destruct (Np.eqb (Np.get x a) xi) eqn:Heq.
      * apply eqb_true in Heq.
        destruct (IH (S a) ltac:(lia) ltac:(lia)) as (Hr & Hflat & Hstop).
        split; [lia|]. split; [|exact Hstop].
        intros j Hj. destruct (Nat.eq_dec j a) as [->|Hne]; [exact Heq|].
        apply Hflat. lia.
      * apply eqb_false in Heq.
        split; [lia|]. split; [intros j Hj; lia | intros _; exact Heq].
    + split; [lia|]. split; [intros j Hj; lia | intros Hr; lia].
Qed.

Hypothesis i_max_def : i_max = (length x - 1)%nat.

Lemma no_flat_top_at_end (l r : nat) :
  PeakSpec.flat_top x l r -> (l < i_max)%nat.
Proof. intros (Hlr & Hr & _). lia. Qed.

Lemma local_maxima_loop_spec (fuel i p : nat) :
  (1 <= i)%nat -> (i_max <= fuel + i)%nat ->
  In p (Peaks.local_maxima_loop fuel x i i_max)
  <-> exists l r, PeakSpec.flat_top x l r /\ (i <= l)%nat
                  /\ p = ((l + r) / 2)%nat.
Proof.
  revert i. induction fuel as [|fuel IH]; intros i Hi Hfuel;
    cbn [Peaks.local_maxima_loop In].
  - split; [tauto|]. intros (l & r & Htop & Hl & _).
    apply no_flat_top_at_end in Htop. lia.
  - destruct (Nat.ltb_spec i i_max) as [Hlt|Hge].
    2:{ split; [cbn [In]; tauto|]. intros (l & r & Htop & Hl & _).
        apply no_flat_top_at_end in Htop. lia. }
    (* every flat top from [i] on that does not start at [i] starts later *)
    assert (Hlater :
      (forall r, ~ PeakSpec.flat_top x i r) ->
      (In p (Peaks.local_maxima_loop fuel x (i + 1) i_max)
       <-> exists l r, PeakSpec.flat_top x l r /\ (i <= l)%nat
                       /\ p = ((l + r) / 2)%nat)).
    { intros Hnone. rewrite IH by lia. split.
      - intros (l & r & Htop & Hl & Hq). exists l, r.
        split; [exact Htop|]. split; [lia|exact Hq].
      - intros (l & r & Htop & Hl & Hq). exists l, r.
        split; [exact Htop|]. split; [|exact Hq].
        destruct (Nat.eq_dec l i) as [->|Hne]; [|lia].
        exfalso. exact (Hnone r Htop). }
    destruct (Np.ltb (Np.get x (i - 1)) (Np.get x i)) eqn:Hleft.
    2:{ apply Hlater. intros r (_ & _ & _ & Hl & _).
        apply ltb_false in Hleft. lra. }
    apply ltb_true in Hleft.
    pose proof (skip_equal_spec (Np.get x i) i_max (i + 1)
                  ltac:(lia) ltac:(lia)) as Hskip.
    set (a := Peaks.skip_equal i_max x (Np.get x i) (i + 1) i_max) in *.
    cbv zeta in Hskip. destruct Hskip as (Ha & Hflat & Hstop).
    assert (Hflat' : forall j, (i <= j < a)%nat -> Np.get x j = Np.get x i).
    { intros j Hj. destruct (Nat.eq_dec j i) as [->|Hne]; [reflexivity|].
      apply Hflat. lia. }
    destruct (Np.ltb (Np.get x a) (Np.get x i)) eqn:Hright.
    + apply ltb_true in Hright.
      assert (Htop0 : PeakSpec.flat_top x i (a - 1)).
      { split; [lia|]. split; [lia|]. split; [|split].
        - intros j Hj. apply Hflat'. lia.
        - exact Hleft.
        - replace (a - 1 + 1)%nat with a by lia. exact Hright. }
      cbn [In]. rewrite IH by lia. split.
      * intros [<- | (l & r & Htop & Hl & Hq)].
        -- exists i, (a - 1)%nat. split; [exact Htop0|]. split; [lia|reflexivity].
        -- exists l, r. split; [exact Htop|]. split; [lia|exact Hq].
      * intros (l & r & Htop & Hl & Hq).
        destruct (Nat.le_gt_cases (a + 1) l) as [Hfar|Hnear].
        { right. exists l, r. auto. }
        left. subst p.
        destruct Htop as (Hlr & Hr & Heq & Hlo & Hhi).
        assert (l = i).
        { destruct (Nat.eq_dec l i) as [E|Hne]; [exact E|]. exfalso.
          destruct (Nat.eq_dec l a) as [->|Hne'].
          - rewrite (Hflat' (a - 1)%nat) in Hlo by lia. lra.
          - rewrite (Hflat' (l - 1)%nat), (Hflat' l) in Hlo by lia. lra. }
        subst l.
        assert (r = (a - 1)%nat).
        { destruct (Nat.lt_trichotomy (r + 1) a) as [Hlt'|[E|Hgt]].
          - rewrite (Hflat' (r + 1)%nat) in Hhi by lia. lra.
          - lia.
          - exfalso. rewrite <- (Heq a) in Hright by lia. lra. }
        subst r. reflexivity.
    + apply ltb_false in Hright.
      apply Hlater. intros r (Hlr & Hr & Heq & Hlo & Hhi).
      destruct (Nat.lt_trichotomy (r + 1) a) as [Hlt'|[E|Hgt]].
      * rewrite (Hflat' (r + 1)%nat) in Hhi by lia. lra.
      * rewrite E in Hhi. lra.
      * apply Hstop; [lia|]. apply Heq. lia.
Qed.

End LocalMaxima.

Lemma local_maxima_1d_spec (x : list R) (p : nat) :
  In p (Peaks.local_maxima_1d x) <-> PeakSpec.flat_top_middle x p.
Proof.
  unfold Peaks.local_maxima_1d, PeakSpec.flat_top_middle.
  rewrite (local_maxima_loop_spec x (length x - 1) eq_refl) by lia.
  split.
  - intros (l & r & Htop & _ & Hp). exists l, r. auto.
  - intros (l & r & Htop & Hp). exists l, r.
    split; [exact Htop|]. split; [|exact Hp].
    destruct Htop as (Hlr & _). lia.
Qed.

Lemma mask_select_map_filter {A : Type} (f : A -> bool) (l : list A) :
  Np.mask_select (map f l) l = filter f l.
Proof.
  induction l as [|a l IH]; simpl; [reflexivity|].
  rewrite IH. reflexivity.
Qed.

Lemma find_peaks_spec (x : list R) (height : R) (p : nat) :
  In p (Peaks.find_peaks x height)
  <-> PeakSpec.flat_top_middle x p /\ height <= Np.get x p.
Proof.
  unfold Peaks.find_peaks, Np.take. rewrite map_map.
  rewrite (mask_select_map_filter (fun p => Np.leb height (Np.get x p))).
  rewrite filter_In, local_maxima_1d_spec, leb_true. tauto.
Qed.

Lemma strict_peak_is_flat_top_middle (x : list R) (i : nat) :
  PeakSpec.strict_peak x i -> PeakSpec.flat_top_middle x i.
Proof.
  intros (Hi & Hlen & Hlo & Hhi). exists i, i. split.
  - split; [lia|]. split; [exact Hlen|]. split; [|split; assumption].
    intros j Hj. replace j with i by lia. reflexivity.
  - replace (i + i)%nat with (i * 2)%nat by lia.
    symmetry. apply Nat.div_mul. lia.
Qed.

Lemma flat_top_middle_in_range (x : list R) (p : nat) :
  PeakSpec.flat_top_middle x p ->
  (1 <= p)%nat /\ (p + 1 < length x)%nat
  /\ exists j, (j < length x)%nat /\ Np.get x j < Np.get x p.
Proof.
  intros (l & r & (Hlr & Hr & Heq & Hlo & Hhi) & ->).
  assert (Hmid : (l <= (l + r) / 2 <= r)%nat).
  { split.
    - apply Nat.div_le_lower_bound; lia.
    - apply Nat.Div0.div_le_upper_bound; lia. }
  split; [lia|]. split; [lia|].
  exists (l - 1)%nat. split; [lia|]. rewrite (Heq _ Hmid). exact Hlo.
Qed.

(** ** [argmax] *)

Lemma argmax_from_spec (pre a : list R) (best_i : nat) (best : R) :
  (best_i < length pre)%nat ->
  Np.get (pre ++ a) best_i = best ->
  (forall j, (j < length pre)%nat -> Np.get (pre ++ a) j <= best) ->
  (forall j, (j < best_i)%nat -> Np.get (pre ++ a) j < best) ->
  let m := Np.argmax_from a (length pre) best_i best in
  (m < length (pre ++ a))%nat
  /\ (forall j, (j < length (pre ++ a))%nat ->
        Np.get (pre ++ a) j <= Np.get (pre ++ a) m)
  /\ (forall j, (j < m)%nat -> Np.get (pre ++ a) j < Np.get (pre ++ a) m).
Proof.
  revert pre best_i best. induction a as [|y a IH];
    intros pre best_i best Hbi Hbest Hall Hfirst; simpl.
  - rewrite app_nil_r in *. split; [exact Hbi|]. rewrite Hbest.
    split; assumption.
  - assert (Hy : Np.get (pre ++ y :: a) (length pre) = y).
    { unfold Np.get. rewrite app_nth2, Nat.sub_diag by lia. reflexivity. }
    assert (Hshift : pre ++ y :: a = (pre ++ [y]) ++ a)
      by (rewrite <- app_assoc; reflexivity).
    assert (Hlen : length (pre ++ [y]) = S (length pre))
      by (rewrite length_app; simpl; lia).
    destruct (Np.ltb best y) eqn:Hcmp.
    + apply ltb_true in Hcmp. rewrite Hshift in *.
      rewrite <- Hlen. apply IH.
      * lia.
      * exact Hy.
      * intros j Hj. destruct (Nat.eq_dec j (length pre)) as [->|Hne].
        -- rewrite Hy. lra.
        -- specialize (Hall j ltac:(lia)). lra.
      * intros j Hj. specialize (Hall j Hj). lra.
    + apply ltb_false in Hcmp. rewrite Hshift in *.
      rewrite <- Hlen. apply IH.
      * lia.
      * exact Hbest.
      * intros j Hj. destruct (Nat.eq_dec j (length pre)) as [->|Hne].
        -- rewrite Hy. exact Hcmp.
        -- apply Hall. lia.
      * exact Hfirst.
Qed.

Lemma argmax_spec (a : list R) :
  a <> [] ->
  (Np.argmax a < length a)%nat
  /\ (forall j, (j < length a)%nat -> Np.get a j <= Np.get a (Np.argmax a))
  /\ (forall j, (j < Np.argmax a)%nat -> Np.get a j < Np.get a (Np.argmax a)).
Proof.
  destruct a as [|y a]; [intros H; contradiction|]. intros _.
  apply (argmax_from_spec [y] a 0 y).
  - simpl. lia.
  - reflexivity.
  - intros j Hj. simpl in Hj. replace j with 0%nat by lia.
    unfold Np.get. simpl. lra.
  - intros j Hj. lia.
Qed.

(** ** The per-band report *)

Lemma take_nth (x : list R) (idx : list nat) (k : nat) :
  (k < length idx)%nat ->
  Np.get (Np.take x idx) k = Np.get x (nth k idx 0%nat).
Proof.
  intros Hk. unfold Np.take, Np.get.
  rewrite nth_indep with (d' := Np.get x 0%nat)
    by (rewrite length_map; exact Hk).
  unfold Np.get. rewrite (map_nth (fun i => nth i x 0)). reflexivity.
Qed.

Lemma report_peak_found (name : string) (band_psd band_freq : list R) :
  Peaks.find_peaks band_psd 0 <> [] ->
  exists p,
    In p (Peaks.find_peaks band_psd 0)
    /\ (forall q, In q (Peaks.find_peaks band_psd 0) ->
          Np.get band_psd q <= Np.get band_psd p)
    /\ Bands.report_peak name band_psd band_freq
       = Bands.PeakFound name (Np.get band_freq p) (Np.get band_psd p)
           (Bands.dB (Np.get band_psd p)).
Proof.
  intros Hne. unfold Bands.report_peak.
  set (peaks := Peaks.find_peaks band_psd 0) in *.
  assert (Hlen : (0 < length peaks)%nat)
    by (destruct peaks; [contradiction | simpl; lia]).
  assert (Htake : Np.take band_psd peaks <> []).
  { unfold Np.take. destruct peaks; [contradiction | discriminate]. }
  destruct (argmax_spec _ Htake) as (Hk & Hmax & _).
  set (k := Np.argmax (Np.take band_psd peaks)) in *.
  unfold Np.take in Hk. rewrite length_map in Hk.
  exists (nth k peaks 0%nat). split; [apply nth_In; exact Hk|]. split.
  - intros q Hq. destruct (In_nth _ _ 0%nat Hq) as (j & Hj & <-).
    rewrite <- !take_nth by assumption. apply Hmax.
    unfold Np.take. rewrite length_map. exact Hj.
  - destruct (Nat.ltb_spec 0 (length peaks)) as [_|Hbad]; [reflexivity|lia].
Qed.

Lemma report_peak_fallback (name : string) (band_psd band_freq : list R) :
  Peaks.find_peaks band_psd 0 = [] ->
  band_psd <> [] ->
  exists m,
    (m < length band_psd)%nat
    /\ (forall j, (j < length band_psd)%nat ->
          Np.get band_psd j <= Np.get band_psd m)
    /\ (forall j, (j < m)%nat -> Np.get band_psd j < Np.get band_psd m)
    /\ Bands.report_peak name band_psd band_freq
       = Bands.NoPeakMax name (Np.get band_psd m)
           (Bands.dB (Np.get band_psd m)) (Np.get band_freq m).
Proof.
  intros Hnone Hne. unfold Bands.report_peak. rewrite Hnone. simpl.
  destruct (argmax_spec _ Hne) as (Hk & Hmax & Hfirst).
  exists (Np.argmax band_psd). auto.
Qed.

Lemma mask_select_nonempty {A : Type} (mask : list bool) (a : list A) :
  Np.any mask = true -> length mask = length a ->
  Np.mask_select mask a <> [].
Proof.
  revert a. induction mask as [|b mask IH]; intros [|y a] Hany Hlen;
    simpl in *; try discriminate.
  injection Hlen as Hlen. destruct b; [discriminate|].
  apply IH; assumption.
Qed.

(** C2 (as the code has it): in a band whose selection is not empty, the
    peaks are exactly the samples that are the middle (rounded down) of a
    flat top, that is of a run of equal samples whose two outer neighbours
    are strictly smaller, and whose value is at least 0; every sample
    strictly greater than both immediate neighbours and at least 0 is among
    them.  If there is a peak, the line printed is the peak line, for a peak
    whose value is the largest among the peaks; if there is none, it is the
    fallback line, for the first largest sample of the band. *)
Theorem band_peak_rule (xf psd : list R) (b : Bands.band) :
  let mask := Bands.band_mask xf b in
  let band_psd := Np.mask_select mask psd in
  let band_freq := Np.mask_select mask xf in
  let peaks := Peaks.find_peaks band_psd 0 in
  Np.any mask = true ->
  length xf = length psd ->
  (forall p, In p peaks
             <-> PeakSpec.flat_top_middle band_psd p
                 /\ 0 <= Np.get band_psd p)
  /\ (forall i, PeakSpec.strict_peak band_psd i -> 0 <= Np.get band_psd i ->
        In i peaks)
  /\ (peaks <> [] ->
      exists p,
        In p peaks
        /\ (forall q, In q peaks -> Np.get band_psd q <= Np.get band_psd p)
        /\ Bands.analyze_band xf psd b
           = Bands.PeakFound (Bands.band_name b) (Np.get band_freq p)
               (Np.get band_psd p) (Bands.dB (Np.get band_psd p)))
  /\ (peaks = [] ->
      exists m,
        (m < length band_psd)%nat
        /\ (forall j, (j < length band_psd)%nat ->
              Np.get band_psd j <= Np.get band_psd m)
        /\ (forall j, (j < m)%nat -> Np.get band_psd j < Np.get band_psd m)
        /\ Bands.analyze_band xf psd b
           = Bands.NoPeakMax (Bands.band_name b) (Np.get band_psd m)
               (Bands.dB (Np.get band_psd m)) (Np.get band_freq m)).
Proof.
  intros mask band_psd band_freq peaks Hany Hlen.
  assert (Hrun : Bands.analyze_band xf psd b
                 = Bands.report_peak (Bands.band_name b) band_psd band_freq).
  { unfold Bands.analyze_band. fold mask. rewrite Hany. reflexivity. }
  split; [intros p; apply find_peaks_spec|]. split.
  - intros i Hstrict Hheight. apply find_peaks_spec.
    split; [apply strict_peak_is_flat_top_middle; exact Hstrict | exact Hheight].
  - rewrite Hrun. split.
    + intros Hne. apply report_peak_found. exact Hne.
    + intros Hnone. apply report_peak_fallback; [exact Hnone|].
      apply mask_select_nonempty; [exact Hany|].
      unfold mask, Bands.band_mask. rewrite length_map. exact Hlen.
Qed.

(** *** Running the report on concrete bins *)

Lemma band_test_false (b : Bands.band) (x : R) :
  Bands.band_test b x = false <-> x < Bands.low b \/ Bands.high b < x.
Proof.
  unfold Bands.band_test. rewrite andb_false_iff, !leb_false. tauto.
Qed.

(** The decibel value of a magnitude: a number for a positive one, minus
    infinity for 0. *)
Lemma dB_positive (v : R) :
  0 < v -> Bands.dB v = Bands.Finite (20 * Bands.log10 v).
Proof.
  intros Hv. unfold Bands.dB.
  rewrite (proj2 (eqb_false v 0)) by lra.
  rewrite (proj2 (ltb_true 0 v)) by exact Hv. reflexivity.
Qed.

Lemma dB_zero : Bands.dB 0 = Bands.MinusInfinity.
Proof. unfold Bands.dB. rewrite (proj2 (eqb_true 0 0)) by reflexivity. reflexivity. Qed.

(** Decide every band membership test of a goal on closed numbers. *)
Ltac decide_band_tests :=
  repeat match goal with
    | |- context [Bands.band_test ?b ?x] =>
        first
          [ rewrite (proj2 (band_test_true b x))
              by (unfold Bands.low, Bands.high; simpl; lra)
          | rewrite (proj2 (band_test_false b x))
              by (unfold Bands.low, Bands.high; simpl; lra) ]
    end.

Lemma flat_sample_mask :
  Bands.band_mask Sample.flat_xf Sample.lowest_band
  = [true; true; true; true; true].
Proof.
  unfold Bands.band_mask, Sample.flat_xf. cbn [map].
  decide_band_tests. reflexivity.
Qed.

Lemma flat_sample_top (p : nat) :
  PeakSpec.flat_top_middle Sample.flat_psd p <-> p = 1%nat.
Proof.
  unfold Sample.flat_psd. split.
  - intros (l & r & (Hlr & Hr & Hflat & Hlo & Hhi) & ->).
    simpl in Hr.
    assert (Hl : l = 1%nat \/ l = 2%nat \/ l = 3%nat) by lia.
    assert (Hr' : r = 1%nat \/ r = 2%nat \/ r = 3%nat) by lia.
    destruct Hl as [->|[->| ->]]; unfold Np.get in Hlo; simpl in Hlo;
      try lra.
    destruct Hr' as [->|[->| ->]]; unfold Np.get in Hhi; simpl in Hhi;
      try lra.
    reflexivity.
  - intros ->. exists 1%nat, 2%nat. split; [|reflexivity].
    split; [lia|]. split; [simpl; lia|]. split; [|split].
    + intros j Hj. assert (Hc : j = 1%nat \/ j = 2%nat) by lia.
      destruct Hc as [Hc|Hc]; subst j; reflexivity.
    + unfold Np.get; simpl; lra.
    + unfold Np.get; simpl; lra.
Qed.

Example flat_top_run :
  Bands.analyze_band Sample.flat_xf Sample.flat_psd Sample.lowest_band
  = Bands.PeakFound "Delta-Theta (0-20Hz)" 2 3 (Bands.dB 3).
Proof.
  unfold Bands.analyze_band. rewrite flat_sample_mask.
  cbn [Np.any existsb negb orb].
  change (Np.mask_select [true; true; true; true; true] Sample.flat_psd)
    with Sample.flat_psd.
  change (Np.mask_select [true; true; true; true; true] Sample.flat_xf)
    with Sample.flat_xf.
  assert (Hin : In 1%nat (Peaks.find_peaks Sample.flat_psd 0)).
  { apply find_peaks_spec. split; [apply flat_sample_top; reflexivity|].
    unfold Np.get, Sample.flat_psd; simpl; lra. }
  assert (Hne : Peaks.find_peaks Sample.flat_psd 0 <> [])
    by (intros E; rewrite E in Hin; exact Hin).
  destruct (report_peak_found (Bands.band_name Sample.lowest_band)
              Sample.flat_psd Sample.flat_xf Hne) as (p & Hp & _ & ->).
  apply find_peaks_spec in Hp. destruct Hp as [Hp _].
  apply flat_sample_top in Hp. subst p. reflexivity.
Qed.

Lemma flat_sample_selected :
  Np.any (Bands.band_mask Sample.flat_xf Sample.lowest_band) = true
  /\ Np.mask_select (Bands.band_mask Sample.flat_xf Sample.lowest_band)
       Sample.flat_psd = Sample.flat_psd.
Proof. rewrite flat_sample_mask. split; reflexivity. Qed.

Lemma band_peak_rule_witness :
  let mask := Bands.band_mask Sample.flat_xf Sample.lowest_band in
  let band_psd := Np.mask_select mask Sample.flat_psd in
  Np.any mask = true
  /\ length Sample.flat_xf = length Sample.flat_psd
  /\ (Peaks.find_peaks band_psd 0 <> [] ->
      exists p,
        In p (Peaks.find_peaks band_psd 0)
        /\ (forall q, In q (Peaks.find_peaks band_psd 0) ->
              Np.get band_psd q <= Np.get band_psd p)
        /\ Bands.analyze_band Sample.flat_xf Sample.flat_psd
             Sample.lowest_band
           = Bands.PeakFound (Bands.band_name Sample.lowest_band)
               (Np.get (Np.mask_select mask Sample.flat_xf) p)
               (Np.get band_psd p) (Bands.dB (Np.get band_psd p))).
Proof.
  intros mask band_psd.
  assert (H1 : Np.any mask = true) by exact (proj1 flat_sample_selected).
  assert (H2 : length Sample.flat_xf = length Sample.flat_psd)
    by reflexivity.
  split; [exact H1|]. split; [exact H2|].
  exact (proj1 (proj2 (proj2
           (band_peak_rule Sample.flat_xf Sample.flat_psd Sample.lowest_band
              H1 H2)))).
Defined.

(** C2 as stated fails on a flat top: in the band [0; 3; 3; 0; 5] no sample
    is strictly greater than both its neighbours, so the stated rule asks
    for the fallback line at the largest sample; the code prints the peak
    line for the flat top instead, whose value 3 is not the largest. *)
Lemma flat_top_is_not_fallback :
  let mask := Bands.band_mask Sample.flat_xf Sample.lowest_band in
  let band_psd := Np.mask_select mask Sample.flat_psd in
  let band_freq := Np.mask_select mask Sample.flat_xf in
  Np.any mask = true
  /\ (forall i, ~ PeakSpec.strict_peak band_psd i)
  /\ ~ (exists m,
          (forall j, (j < length band_psd)%nat ->
             Np.get band_psd j <= Np.get band_psd m)
          /\ Bands.reported_value
               (Bands.analyze_band Sample.flat_xf Sample.flat_psd
                  Sample.lowest_band)
             = Some (Np.get band_psd m)).
Proof.
  intros mask band_psd band_freq.
  destruct flat_sample_selected as [Hany Hsel].
  split; [exact Hany|].
  unfold band_psd, mask. rewrite Hsel. split.
  - intros i (Hi & Hlen & Hlo & Hhi). simpl in Hlen.
    assert (Hcases : i = 1%nat \/ i = 2%nat \/ i = 3%nat) by lia.
    destruct Hcases as [->|[->| ->]];
      unfold Np.get, Sample.flat_psd in Hlo, Hhi; simpl in Hlo, Hhi; lra.
  - intros (m & Hmax & Hrep). rewrite flat_top_run in Hrep.
    simpl in Hrep. injection Hrep as Hrep.
    specialize (Hmax 4%nat ltac:(simpl; lia)).
    rewrite <- Hrep in Hmax.
    unfold Np.get, Sample.flat_psd in Hmax. simpl in Hmax. lra.
Qed.

(** ** A sine wave through the analysis *)

Lemma sine_wave_length (A f phase fs : R) (N : nat) :
  length (Signal.sine_wave A f phase fs N) = N.
Proof. unfold Signal.sine_wave. rewrite length_map, length_seq. reflexivity. Qed.

Lemma xf_as_map (fs : R) (x : list R) :
  fs <> 0 ->
  Spectrum.xf fs x
  = map (fun i => INR i * fs / INR (length x)) (seq 0 (length x / 2)).
Proof.
  intros Hfs. apply nth_ext with (d := 0) (d' := INR 0 * fs / INR (length x)).
  - rewrite xf_length, length_map, length_seq. reflexivity.
  - intros i Hi. rewrite xf_length in Hi.
    rewrite (map_nth (fun i => INR i * fs / INR (length x))).
    rewrite seq_nth by exact Hi. simpl.
    apply xf_bin_frequency_aux; assumption.
Qed.

Lemma sine99_axis :
  Spectrum.xf 200 Sample.sine99 = [0 * 200 / 7; 1 * 200 / 7; 2 * 200 / 7].
Proof.
  rewrite xf_as_map by lra. unfold Sample.sine99.
  rewrite sine_wave_length.
  change (7 / 2)%nat with 3%nat. cbn [seq map].
  replace (INR 7) with 7 by (simpl; lra).
  replace (INR 0) with 0 by reflexivity.
  replace (INR 1) with 1 by reflexivity.
  replace (INR 2) with 2 by (simpl; lra).
  reflexivity.
Qed.

Lemma sine99_mask :
  Bands.band_mask (Spectrum.xf 200 Sample.sine99) Sample.high_beta
  = [false; false; true].
Proof.
  rewrite sine99_axis. unfold Bands.band_mask. cbn [map].
  decide_band_tests. reflexivity.
Qed.

Lemma sine99_report :
  exists v,
    Bands.analyze_band (Spectrum.xf 200 Sample.sine99)
      (Spectrum.psd Sample.sine99) Sample.high_beta
    = Bands.NoPeakMax "High Beta (50-100Hz)" v (Bands.dB v) (2 * 200 / 7).
Proof.
  unfold Bands.analyze_band. rewrite sine99_mask, sine99_axis.
  pose proof (psd_length Sample.sine99) as Hlen.
  unfold Sample.sine99 in Hlen at 2. rewrite sine_wave_length in Hlen.
  change (7 / 2)%nat with 3%nat in Hlen.
  destruct (Spectrum.psd Sample.sine99) as [|p0 [|p1 [|p2 [|p3 l]]]];
    try discriminate Hlen.
  exists p2. reflexivity.
Qed.


(** *** Sums *)


Lemma sum_map_ext {A : Type} (f g : A -> R) (l : list A) :
  (forall a, In a l -> f a = g a) ->
  Np.sum (map f l) = Np.sum (map g l).
Proof.
  intros H. f_equal. apply map_ext_in. exact H.
Qed.


Lemma sum_map_scal {A : Type} (c : R) (f : A -> R) (l : list A) :
  Np.sum (map (fun a => c * f a) l) = c * Np.sum (map f l).
Proof.
  induction l as [|a l IH]; simpl; [lra|]. rewrite IH. lra.
Qed.

Lemma sum_map_const {A : Type} (c : R) (l : list A) :
  Np.sum (map (fun _ => c) l) = INR (length l) * c.
Proof.
  induction l as [|a l IH]; [simpl; lra|].
  cbn [map Np.sum fold_right length]. fold (Np.sum (map (fun _ : A => c) l)).
  rewrite IH, S_INR. lra.
Qed.

(** *** Sums of equally spaced sines and cosines *)




(** *** The transform of a sine that sits on bin [k] *)

Lemma retained_twice (N j : nat) : (j < N / 2)%nat -> (2 * j + 2 <= N)%nat.
Proof. intros Hj. pose proof (Nat.div_mod_eq N 2). lia. Qed.

Section BinCentredSine.

Variables (A phase fs : R) (N k : nat).
Hypothesis fs_nonzero : fs <> 0.
Hypothesis k_positive : (0 < k)%nat.
Hypothesis k_retained : (k < N / 2)%nat.

Local Abbreviation f := (INR k * fs / INR N).
Local Abbreviation x := (Signal.sine_wave A f phase fs N).



(** Angles of the sum and difference frequencies. *)
Local Abbreviation phi_plus j := (2 * PI * (INR k + INR j) / INR N).
Local Abbreviation phi_minus j := (2 * PI * (INR k - INR j) / INR N).





End BinCentredSine.

(** *** Finding a selected bin in the selection *)

Lemma mask_select_hit {A : Type} (mask : list bool) (l : list A) (d : A)
  (i : nat) :
  length mask = length l -> (i < length l)%nat -> nth i mask false = true ->
  exists idx, (idx < length (Np.mask_select mask l))%nat
              /\ nth idx (Np.mask_select mask l) d = nth i l d.
Proof.
  revert l i. induction mask as [|m mask IH]; intros [|a l] i Hlen Hi Hm;
    simpl in *; try lia.
  destruct i as [|i].
  - subst m. exists 0%nat. simpl. split; [lia | reflexivity].
  - destruct (IH l i ltac:(lia) ltac:(lia) Hm) as (idx & Hidx & Hval).
    destruct m.
    + exists (S idx). simpl. split; [lia | exact Hval].
    + exists idx. split; assumption.
Qed.

(** * Further properties of the analysis *)

(** ** The frequency axis *)

Lemma xf_entry_bounds (fs : R) (x : list R) (j : nat) :
  0 < fs -> (j < length x / 2)%nat ->
  0 <= nth j (Spectrum.xf fs x) 0 < fs / 2.
Proof.
  intros Hfs Hj. rewrite xf_bin_frequency_aux by (lra || exact Hj).
  pose proof (retained_twice _ _ Hj) as H2.
  assert (HN : 0 < INR (length x)) by (apply lt_0_INR; lia).
  assert (Hj0 : 0 <= INR j) by apply pos_INR.
  assert (H2j : 2 * INR j < INR (length x)).
  { replace 2 with (INR 2) by (simpl; lra). rewrite <- mult_INR.
    apply lt_INR. lia. }
  split.
  - apply Rmult_le_pos; [nra|]. apply Rlt_le, Rinv_0_lt_compat. exact HN.
  - apply Rmult_lt_reg_r with (r := INR (length x)); [exact HN|].
    replace (INR j * fs / INR (length x) * INR (length x)) with (INR j * fs)
      by (field; lra).
    nra.
Qed.

(** X1: for a positive sampling rate the frequency axis starts at or above
    0, increases strictly from one entry to the next, and stays strictly
    below the Nyquist frequency [fs / 2]. *)
Theorem xf_increasing_below_nyquist (fs : R) (x : list R) (i j : nat) :
  0 < fs -> (i < j)%nat -> (j < length x / 2)%nat ->
  0 <= nth i (Spectrum.xf fs x) 0
  /\ nth i (Spectrum.xf fs x) 0 < nth j (Spectrum.xf fs x) 0
  /\ nth j (Spectrum.xf fs x) 0 < fs / 2.
Proof.
  intros Hfs Hij Hj.
  destruct (xf_entry_bounds fs x i Hfs ltac:(lia)) as [Hi0 _].
  destruct (xf_entry_bounds fs x j Hfs Hj) as [_ Hjn].
  split; [exact Hi0|]. split; [|exact Hjn].
  rewrite !xf_bin_frequency_aux by (lra || lia).
  pose proof (retained_twice _ _ Hj) as H2.
  assert (HN : 0 < INR (length x)) by (apply lt_0_INR; lia).
  assert (Hlt : INR i < INR j) by (apply lt_INR; exact Hij).
  apply Rmult_lt_reg_r with (r := INR (length x)); [exact HN|].
  replace (INR i * fs / INR (length x) * INR (length x)) with (INR i * fs)
    by (field; lra).
  replace (INR j * fs / INR (length x) * INR (length x)) with (INR j * fs)
    by (field; lra).
  nra.
Qed.

Lemma xf_increasing_below_nyquist_witness :
  0 < Spectrum.SAMPLING_RATE /\ (0 < 1)%nat
  /\ (1 < length Sample.ramp4 / 2)%nat
  /\ nth 0 (Spectrum.xf Spectrum.SAMPLING_RATE Sample.ramp4) 0
     < nth 1 (Spectrum.xf Spectrum.SAMPLING_RATE Sample.ramp4) 0.
Proof.
  assert (H1 : 0 < Spectrum.SAMPLING_RATE)
    by (unfold Spectrum.SAMPLING_RATE; lra).
  assert (H2 : (0 < 1)%nat) by lia.
  assert (H3 : (1 < length Sample.ramp4 / 2)%nat) by (simpl; lia).
  split; [exact H1|]. split; [exact H2|]. split; [exact H3|].
  exact (proj1 (proj2 (xf_increasing_below_nyquist
                         Spectrum.SAMPLING_RATE Sample.ramp4 0 1 H1 H2 H3))).
Defined.

(** ** Bands without bins *)

Lemma any_false_iff (mask : list bool) :
  Np.any mask = false <-> forall m, In m mask -> m = false.
Proof.
  unfold Np.any. induction mask as [|m mask IH]; simpl.
  - split; [intros _ m []|reflexivity].
  - rewrite orb_false_iff, IH. split.
    + intros [Hm Hrest] m' [<-|Hin]; [exact Hm | apply Hrest; exact Hin].
    + intros H. split; [apply H; left; reflexivity|].
      intros m' Hin. apply H. right. exact Hin.
Qed.

Lemma band_mask_nth (xf : list R) (b : Bands.band) (j : nat) :
  (j < length xf)%nat ->
  nth j (Bands.band_mask xf b) false = Bands.band_test b (Np.get xf j).
Proof.
  intros Hj. unfold Bands.band_mask, Np.get.
  rewrite nth_indep with (d' := Bands.band_test b 0)
    by (rewrite length_map; exact Hj).
  apply map_nth.
Qed.

Lemma no_data_iff (xf psd : list R) (b : Bands.band) :
  Bands.analyze_band xf psd b = Bands.NoData (Bands.band_name b)
  <-> forall j, (j < length xf)%nat ->
        Bands.band_test b (Np.get xf j) = false.
Proof.
  unfold Bands.analyze_band.
  destruct (Np.any (Bands.band_mask xf b)) eqn:Hany; simpl.
  - split.
    + unfold Bands.report_peak.
      destruct (0 <? length _)%nat; intros H; discriminate H.
    + intros Hall. exfalso.
      assert (Hnone : Np.any (Bands.band_mask xf b) = false).
      { apply any_false_iff. intros m Hin.
        destruct (In_nth _ _ false Hin) as (j & Hj & <-).
        unfold Bands.band_mask in Hj. rewrite length_map in Hj.
        rewrite band_mask_nth by exact Hj. apply Hall. exact Hj. }
      rewrite Hnone in Hany. discriminate Hany.
  - split; [|reflexivity]. intros _ j Hj.
    rewrite <- band_mask_nth by exact Hj.
    apply (proj1 (any_false_iff _) Hany). apply nth_In.
    unfold Bands.band_mask. rewrite length_map. exact Hj.
Qed.

Lemma no_bin_at_or_above_nyquist (fs : R) (x : list R) (b : Bands.band)
  (j : nat) :
  0 < fs -> fs / 2 <= Bands.low b -> (j < length (Spectrum.xf fs x))%nat ->
  Bands.band_test b (Np.get (Spectrum.xf fs x) j) = false.
Proof.
  intros Hfs Hlow Hj. rewrite xf_length in Hj. apply band_test_false. left.
  destruct (xf_entry_bounds fs x j Hfs Hj) as [_ Hlt].
  unfold Np.get. lra.
Qed.

(** X2: a band that starts at or above the Nyquist frequency never holds a
    bin, whatever the column: its line is the no-data line.  With the
    configured 200 Hz this is the case of the Gamma (100-200 Hz) and High
    Gamma (200-500 Hz) bands. *)
Theorem band_above_nyquist_has_no_data (fs : R) (x : list R)
  (b : Bands.band) :
  0 < fs -> fs / 2 <= Bands.low b ->
  Bands.analyze_band (Spectrum.xf fs x) (Spectrum.psd x) b
  = Bands.NoData (Bands.band_name b).
Proof.
  intros Hfs Hlow. apply no_data_iff. intros j Hj.
  apply no_bin_at_or_above_nyquist; assumption.
Qed.

Lemma band_above_nyquist_has_no_data_witness :
  0 < Spectrum.SAMPLING_RATE
  /\ Spectrum.SAMPLING_RATE / 2
     <= Bands.low (100, 200, "Gamma (100-200Hz)"%string)
  /\ Bands.analyze_band (Spectrum.xf Spectrum.SAMPLING_RATE Sample.ramp4)
       (Spectrum.psd Sample.ramp4) (100, 200, "Gamma (100-200Hz)"%string)
     = Bands.NoData "Gamma (100-200Hz)".
Proof.
  assert (H1 : 0 < Spectrum.SAMPLING_RATE)
    by (unfold Spectrum.SAMPLING_RATE; lra).
  assert (H2 : Spectrum.SAMPLING_RATE / 2
               <= Bands.low (100, 200, "Gamma (100-200Hz)"%string)).
  { unfold Spectrum.SAMPLING_RATE, Bands.low. simpl. lra. }
  split; [exact H1|]. split; [exact H2|].
  exact (band_above_nyquist_has_no_data Spectrum.SAMPLING_RATE Sample.ramp4
           (100, 200, "Gamma (100-200Hz)"%string) H1 H2).
Defined.

(** The loop of the script at its configured rate: the last two lines are
    always the no-data lines. *)
Lemma configured_upper_bands_have_no_data (x : list R) :
  exists r0 r1 r2,
    Bands.band_reports Spectrum.SAMPLING_RATE x
    = [ r0; r1; r2; Bands.NoData "Gamma (100-200Hz)";
        Bands.NoData "High Gamma (200-500Hz)" ].
Proof.
  assert (H1 : 0 < Spectrum.SAMPLING_RATE)
    by (unfold Spectrum.SAMPLING_RATE; lra).
  unfold Bands.band_reports, Bands.frequency_bands. cbn [map].
  rewrite (proj2 (no_data_iff _ _ (100, 200, "Gamma (100-200Hz)"%string)))
    by (intros j Hj; apply no_bin_at_or_above_nyquist;
        [exact H1 | unfold Spectrum.SAMPLING_RATE, Bands.low; simpl; lra
        | exact Hj]).
  rewrite (proj2 (no_data_iff _ _
                    (200, 500, "High Gamma (200-500Hz)"%string)))
    by (intros j Hj; apply no_bin_at_or_above_nyquist;
        [exact H1 | unfold Spectrum.SAMPLING_RATE, Bands.low; simpl; lra
        | exact Hj]).
  do 3 eexists. reflexivity.
Qed.

(** ** Magnitudes are not negative *)

Lemma Cabs_nonneg (z : Spectrum.C) : 0 <= Spectrum.Cabs z.
Proof. unfold Spectrum.Cabs. apply sqrt_pos. Qed.

Lemma psd_nonneg (x : list R) (v : R) : In v (Spectrum.psd x) -> 0 <= v.
Proof.
  unfold Spectrum.psd. intros Hin. apply in_map_iff in Hin.
  destruct Hin as (z & <- & _).
  pose proof (Cabs_nonneg z) as Hz.
  destruct (Nat.eq_dec (Spectrum.n x) 0) as [E|Hne].
  - rewrite E. simpl. unfold Rdiv. rewrite Rinv_0. lra.
  - assert (0 < INR (Spectrum.n x)) by (apply lt_0_INR; lia).
    apply Rmult_le_pos; [|exact Hz].
    apply Rmult_le_pos; [lra|]. apply Rlt_le, Rinv_0_lt_compat. assumption.
Qed.

Lemma in_mask_select {A : Type} (mask : list bool) (l : list A) (a : A) :
  In a (Np.mask_select mask l) -> In a l.
Proof.
  revert l. induction mask as [|m mask IH]; intros [|y l] Hin;
    simpl in Hin; try contradiction.
  destruct m.
  - destruct Hin as [<-|Hin]; [left; reflexivity | right; apply IH; exact Hin].
  - right. apply IH. exact Hin.
Qed.

Lemma get_nonneg (a : list R) (i : nat) :
  (forall v, In v a -> 0 <= v) -> 0 <= Np.get a i.
Proof.
  intros Hall. unfold Np.get.
  destruct (Nat.lt_ge_cases i (length a)) as [Hi|Hi].
  - apply Hall, nth_In. exact Hi.
  - rewrite nth_overflow by exact Hi. lra.
Qed.

Lemma filter_all {A : Type} (f : A -> bool) (l : list A) :
  (forall a, In a l -> f a = true) -> filter f l = l.
Proof.
  induction l as [|a l IH]; intros Hall; simpl; [reflexivity|].
  rewrite (Hall a (or_introl eq_refl)), IH; [reflexivity|].
  intros a' Ha'. apply Hall. right. exact Ha'.
Qed.

(** X3: every entry of the magnitude array is at least 0, so on any
    selection of it the [height=0] condition of the peak search removes
    nothing: the peaks are all the local maxima. *)
Theorem height_filter_keeps_every_maximum (x : list R) (mask : list bool) :
  (forall v, In v (Spectrum.psd x) -> 0 <= v)
  /\ Peaks.find_peaks (Np.mask_select mask (Spectrum.psd x)) 0
     = Peaks.local_maxima_1d (Np.mask_select mask (Spectrum.psd x)).
Proof.
  split; [apply psd_nonneg|].
  unfold Peaks.find_peaks, Np.take. rewrite map_map.
  rewrite (mask_select_map_filter
             (fun p => Np.leb 0 (Np.get (Np.mask_select mask (Spectrum.psd x)) p))).
  apply filter_all. intros p _. apply leb_true, get_nonneg.
  intros v Hv. apply (psd_nonneg x). apply (in_mask_select mask). exact Hv.
Qed.

(** ** Where a report line comes from *)

Lemma mask_select_origin {A B : Type} (mask : list bool) (l1 : list A)
  (l2 : list B) (d1 : A) (d2 : B) (idx : nat) :
  length mask = length l1 -> length l1 = length l2 ->
  (idx < length (Np.mask_select mask l2))%nat ->
  exists j, (j < length l1)%nat /\ nth j mask false = true
            /\ nth idx (Np.mask_select mask l1) d1 = nth j l1 d1
            /\ nth idx (Np.mask_select mask l2) d2 = nth j l2 d2.
Proof.
  revert l1 l2 idx. induction mask as [|m mask IH];
    intros [|a l1] [|b l2] idx H1 H2 Hidx; simpl in *; try lia; try discriminate.
  destruct m.
  - destruct idx as [|idx].
    + exists 0%nat. repeat split; lia.
    + simpl in Hidx.
      destruct (IH l1 l2 idx ltac:(lia) ltac:(lia) ltac:(lia))
        as (j & Hj & Hm & E1 & E2).
      exists (S j). repeat split; try lia; assumption.
  - destruct (IH l1 l2 idx ltac:(lia) ltac:(lia) Hidx)
      as (j & Hj & Hm & E1 & E2).
    exists (S j). repeat split; try lia; assumption.
Qed.

Lemma report_peak_index (name : string) (band_psd band_freq : list R) :
  band_psd <> [] ->
  exists idx, (idx < length band_psd)%nat
    /\ Bands.reported_freq (Bands.report_peak name band_psd band_freq)
       = Some (Np.get band_freq idx)
    /\ Bands.reported_value (Bands.report_peak name band_psd band_freq)
       = Some (Np.get band_psd idx).
Proof.
  intros Hne.
  destruct (Peaks.find_peaks band_psd 0) as [|p0 peaks] eqn:Hpeaks.
  - destruct (report_peak_fallback name band_psd band_freq Hpeaks Hne)
      as (m & Hm & _ & _ & ->).
    exists m. repeat split. exact Hm.
  - assert (Hsome : Peaks.find_peaks band_psd 0 <> [])
      by (rewrite Hpeaks; discriminate).
    destruct (report_peak_found name band_psd band_freq Hsome)
      as (p & Hp & _ & ->).
    apply find_peaks_spec in Hp. destruct Hp as [Hmid _].
    destruct (flat_top_middle_in_range _ _ Hmid) as (_ & Hrange & _).
    exists p. repeat split. lia.
Qed.

(** X4: the line of a band is the no-data line exactly when no retained
    frequency passes the band's test; otherwise the frequency and the value
    it shows are those of one and the same bin, and that bin passes the
    band's test. *)
Theorem report_line_is_an_in_band_bin (xf psd : list R) (b : Bands.band) :
  length xf = length psd ->
  (Bands.analyze_band xf psd b = Bands.NoData (Bands.band_name b)
   <-> forall j, (j < length xf)%nat ->
         Bands.band_test b (Np.get xf j) = false)
  /\ (Bands.analyze_band xf psd b <> Bands.NoData (Bands.band_name b) ->
      exists j, (j < length xf)%nat
        /\ Bands.band_test b (Np.get xf j) = true
        /\ Bands.reported_freq (Bands.analyze_band xf psd b)
           = Some (Np.get xf j)
        /\ Bands.reported_value (Bands.analyze_band xf psd b)
           = Some (Np.get psd j)).
Proof.
  intros Hlen. split; [apply no_data_iff|]. intros Hdata.
  unfold Bands.analyze_band in *.
  set (mask := Bands.band_mask xf b) in *.
  assert (Hmask : length mask = length xf)
    by (unfold mask, Bands.band_mask; apply length_map).
  destruct (Np.any mask) eqn:Hany; simpl in *; [|contradiction].
  assert (Hne : Np.mask_select mask psd <> [])
    by (apply mask_select_nonempty; [exact Hany | lia]).
  destruct (report_peak_index (Bands.band_name b) _
              (Np.mask_select mask xf) Hne) as (idx & Hidx & Hf & Hv).
  destruct (mask_select_origin mask xf psd 0 0 idx Hmask Hlen Hidx)
    as (j & Hj & Hm & E1 & E2).
  exists j. split; [exact Hj|]. split.
  - rewrite <- band_mask_nth by exact Hj. exact Hm.
  - unfold Np.get in *. rewrite Hf, Hv, E1, E2. split; reflexivity.
Qed.

Lemma report_line_is_an_in_band_bin_witness :
  length Sample.flat_xf = length Sample.flat_psd
  /\ Bands.analyze_band Sample.flat_xf Sample.flat_psd Sample.lowest_band
     <> Bands.NoData (Bands.band_name Sample.lowest_band)
  /\ exists j, (j < length Sample.flat_xf)%nat
       /\ Bands.band_test Sample.lowest_band (Np.get Sample.flat_xf j) = true
       /\ Bands.reported_freq
            (Bands.analyze_band Sample.flat_xf Sample.flat_psd
               Sample.lowest_band)
          = Some (Np.get Sample.flat_xf j)
       /\ Bands.reported_value
            (Bands.analyze_band Sample.flat_xf Sample.flat_psd
               Sample.lowest_band)
          = Some (Np.get Sample.flat_psd j).
Proof.
  assert (H1 : length Sample.flat_xf = length Sample.flat_psd)
    by reflexivity.
  assert (H2 : Bands.analyze_band Sample.flat_xf Sample.flat_psd
                 Sample.lowest_band
               <> Bands.NoData (Bands.band_name Sample.lowest_band))
    by (rewrite flat_top_run; discriminate).
  split; [exact H1|]. split; [exact H2|].
  exact (proj2 (report_line_is_an_in_band_bin Sample.flat_xf Sample.flat_psd
                  Sample.lowest_band H1) H2).
Defined.

(** ** The annotation of the plot against the printed line *)

(** X5: when a band gets an annotation, it sits at a bin of the band whose
    magnitude is positive and is the largest of the band, and it shows that
    magnitude in decibels. *)
Theorem annotation_marks_band_maximum (xf psd : list R) (b : Bands.band)
  (f : R) (d : Bands.decibels) :
  length xf = length psd ->
  Bands.annotation xf psd b = Some (f, d) ->
  exists j, (j < length xf)%nat
    /\ Bands.band_test b (Np.get xf j) = true
    /\ f = Np.get xf j
    /\ d = Bands.dB (Np.get psd j)
    /\ 0 < Np.get psd j
    /\ forall i, (i < length xf)%nat ->
         Bands.band_test b (Np.get xf i) = true ->
         Np.get psd i <= Np.get psd j.
Proof.
  intros Hlen. unfold Bands.annotation.
  set (mask := Bands.band_mask xf b).
  assert (Hmask : length mask = length xf)
    by (unfold mask, Bands.band_mask; apply length_map).
  destruct (Np.any mask) eqn:Hany; simpl; [|discriminate].
  assert (Hne : Np.mask_select mask psd <> [])
    by (apply mask_select_nonempty; [exact Hany | lia]).
  destruct (argmax_spec _ Hne) as (Hm & Hmax & _).
  set (m := Np.argmax (Np.mask_select mask psd)) in *.
  destruct (Np.ltb 0 (Np.get (Np.mask_select mask psd) m)) eqn:Hpos;
    [|discriminate].
  apply ltb_true in Hpos. intros H. injection H as <- <-.
  destruct (mask_select_origin mask xf psd 0 0 m Hmask Hlen Hm)
    as (j & Hj & Hmj & E1 & E2).
  exists j. unfold Np.get in *. rewrite E1, E2 in *.
  split; [exact Hj|]. split.
  { change (nth j xf 0) with (Np.get xf j).
    rewrite <- band_mask_nth by exact Hj. exact Hmj. }
  split; [reflexivity|]. split; [reflexivity|]. split; [exact Hpos|].
  intros i Hi Hin.
  change (nth i xf 0) with (Np.get xf i) in Hin.
  rewrite <- band_mask_nth in Hin by exact Hi.
  destruct (mask_select_hit mask psd 0 i ltac:(lia) ltac:(lia) Hin)
    as (idx & Hidx & Hval).
  rewrite <- Hval. apply Hmax. exact Hidx.
Qed.

Lemma flat_sample_annotation :
  Bands.annotation Sample.flat_xf Sample.flat_psd Sample.lowest_band
  = Some (8, Bands.dB 5).
Proof.
  unfold Bands.annotation. rewrite flat_sample_mask.
  cbn [Np.any existsb negb orb].
  change (Np.mask_select [true; true; true; true; true] Sample.flat_psd)
    with Sample.flat_psd.
  change (Np.mask_select [true; true; true; true; true] Sample.flat_xf)
    with Sample.flat_xf.
  assert (Hne : Sample.flat_psd <> []) by discriminate.
  destruct (argmax_spec _ Hne) as (Hm & Hmax & Hfirst).
  assert (Hm4 : Np.argmax Sample.flat_psd = 4%nat).
  { set (m := Np.argmax Sample.flat_psd) in *. simpl in Hm.
    specialize (Hmax 4%nat ltac:(simpl; lia)).
    assert (Hc : (m = 0 \/ m = 1 \/ m = 2 \/ m = 3 \/ m = 4)%nat) by lia.
    destruct Hc as [E|[E|[E|[E|E]]]]; [| | | |exact E];
      rewrite E in Hmax; unfold Np.get, Sample.flat_psd in Hmax;
      simpl in Hmax; lra. }
  rewrite Hm4. unfold Np.get, Sample.flat_psd, Sample.flat_xf.
  cbn [nth].
  rewrite (proj2 (ltb_true 0 5)) by lra. reflexivity.
Qed.

Lemma annotation_marks_band_maximum_witness :
  length Sample.flat_xf = length Sample.flat_psd
  /\ Bands.annotation Sample.flat_xf Sample.flat_psd Sample.lowest_band
     = Some (8, Bands.dB 5)
  /\ exists j, (j < length Sample.flat_xf)%nat
       /\ Bands.band_test Sample.lowest_band (Np.get Sample.flat_xf j) = true
       /\ 8 = Np.get Sample.flat_xf j
       /\ Bands.dB 5 = Bands.dB (Np.get Sample.flat_psd j)
       /\ 0 < Np.get Sample.flat_psd j
       /\ forall i, (i < length Sample.flat_xf)%nat ->
            Bands.band_test Sample.lowest_band (Np.get Sample.flat_xf i)
            = true ->
            Np.get Sample.flat_psd i <= Np.get Sample.flat_psd j.
Proof.
  assert (H1 : length Sample.flat_xf = length Sample.flat_psd)
    by reflexivity.
  split; [exact H1|]. split; [exact flat_sample_annotation|].
  exact (annotation_marks_band_maximum Sample.flat_xf Sample.flat_psd
           Sample.lowest_band 8 (Bands.dB 5) H1 flat_sample_annotation).
Defined.

(** X6: the annotation and the printed line agree whenever the line is the
    fallback line (same frequency, same decibel value, drawn when the value
    is positive) and whenever the band has no data (no annotation); they
    can differ when the line is a peak line, because the annotation always
    takes the largest sample. *)
Theorem annotation_agrees_with_fallback_line (xf psd : list R)
  (b : Bands.band) :
  (forall v d f,
     Bands.analyze_band xf psd b = Bands.NoPeakMax (Bands.band_name b) v d f ->
     Bands.annotation xf psd b
     = if Np.ltb 0 v then Some (f, d) else None)
  /\ (Bands.analyze_band xf psd b = Bands.NoData (Bands.band_name b) ->
      Bands.annotation xf psd b = None)
  /\ (forall f v d f' d',
        Bands.analyze_band xf psd b
        = Bands.PeakFound (Bands.band_name b) f v d ->
        Bands.annotation xf psd b = Some (f', d') ->
        length xf = length psd ->
        exists j, (j < length xf)%nat /\ f' = Np.get xf j
                  /\ v <= Np.get psd j).
Proof.
  unfold Bands.analyze_band, Bands.annotation.
  set (mask := Bands.band_mask xf b).
  destruct (Np.any mask) eqn:Hany; simpl.
  - split; [|split].
    + unfold Bands.report_peak. intros v d f.
      destruct (0 <? length _)%nat; intros H; [discriminate H|].
      injection H as <- <- <-. reflexivity.
    + unfold Bands.report_peak.
      destruct (0 <? length _)%nat; intros H; discriminate H.
    + intros f v d f' d' Hline Hann Hlen.
      assert (Hmask : length mask = length xf)
        by (unfold mask, Bands.band_mask; apply length_map).
      assert (Hne : Np.mask_select mask psd <> [])
        by (apply mask_select_nonempty; [exact Hany | lia]).
      destruct (argmax_spec _ Hne) as (Hm & Hmax & _).
      set (m := Np.argmax (Np.mask_select mask psd)) in *.
      destruct (Np.ltb 0 (Np.get (Np.mask_select mask psd) m));
        [|discriminate Hann].
      injection Hann as <- _.
      destruct (mask_select_origin mask xf psd 0 0 m Hmask Hlen Hm)
        as (j & Hj & _ & E1 & E2).
      exists j. split; [exact Hj|]. unfold Np.get in *.
      split; [exact E1|]. rewrite <- E2.
      destruct (report_peak_index (Bands.band_name b) _
                  (Np.mask_select mask xf) Hne) as (idx & Hidx & _ & Hv).
      rewrite Hline in Hv. simpl in Hv. injection Hv as ->.
      apply Hmax. exact Hidx.
  - split; [|split].
    + intros v d f H. discriminate H.
    + reflexivity.
    + intros f v d f' d' H. discriminate H.
Qed.

Lemma annotation_agrees_with_fallback_line_witness :
  exists v,
    Bands.analyze_band (Spectrum.xf 200 Sample.sine99)
      (Spectrum.psd Sample.sine99) Sample.high_beta
    = Bands.NoPeakMax (Bands.band_name Sample.high_beta) v (Bands.dB v)
        (2 * 200 / 7)
    /\ Bands.annotation (Spectrum.xf 200 Sample.sine99)
         (Spectrum.psd Sample.sine99) Sample.high_beta
       = if Np.ltb 0 v then Some (2 * 200 / 7, Bands.dB v) else None.
Proof.
  destruct sine99_report as [v Hv]. exists v. split; [exact Hv|].
  exact (proj1 (annotation_agrees_with_fallback_line
                  (Spectrum.xf 200 Sample.sine99)
                  (Spectrum.psd Sample.sine99) Sample.high_beta)
           v (Bands.dB v) (2 * 200 / 7) Hv).
Defined.

(** On the flat-top sample the two differ: the line shows the flat top at
    2 Hz, the annotation the largest sample at 8 Hz. *)
Example annotation_differs_from_peak_line :
  Bands.reported_freq
    (Bands.analyze_band Sample.flat_xf Sample.flat_psd Sample.lowest_band)
  = Some 2
  /\ Bands.annotation Sample.flat_xf Sample.flat_psd Sample.lowest_band
     = Some (8, Bands.dB 5).
Proof.
  rewrite flat_top_run. split; [reflexivity | exact flat_sample_annotation].
Qed.

(** ** Bands with fewer than three bins *)

Lemma short_array_has_no_peak (x : list R) (height : R) :
  (length x < 3)%nat -> Peaks.find_peaks x height = [].
Proof.
  intros Hlen. destruct (Peaks.find_peaks x height) as [|p ps] eqn:E;
    [reflexivity|]. exfalso.
  assert (Hin : In p (Peaks.find_peaks x height))
    by (rewrite E; left; reflexivity).
  apply find_peaks_spec in Hin.
  destruct Hin as [(l & r & (Hlr & Hr & _) & _) _]. lia.
Qed.

(** X7: a band that selects one or two bins never has a peak (the first and
    the last sample cannot be one): its line is always the fallback line,
    for the first largest of its samples (no sample is larger, and every
    earlier sample is strictly smaller). *)
Theorem short_band_reports_fallback (xf psd : list R) (b : Bands.band) :
  length xf = length psd ->
  Np.any (Bands.band_mask xf b) = true ->
  (length (Np.mask_select (Bands.band_mask xf b) psd) < 3)%nat ->
  exists m,
    (m < length (Np.mask_select (Bands.band_mask xf b) psd))%nat
    /\ (forall j,
          (j < length (Np.mask_select (Bands.band_mask xf b) psd))%nat ->
          Np.get (Np.mask_select (Bands.band_mask xf b) psd) j
          <= Np.get (Np.mask_select (Bands.band_mask xf b) psd) m)
    /\ (forall j,
          (j < m)%nat ->
          Np.get (Np.mask_select (Bands.band_mask xf b) psd) j
          < Np.get (Np.mask_select (Bands.band_mask xf b) psd) m)
    /\ Bands.analyze_band xf psd b
       = Bands.NoPeakMax (Bands.band_name b)
           (Np.get (Np.mask_select (Bands.band_mask xf b) psd) m)
           (Bands.dB (Np.get (Np.mask_select (Bands.band_mask xf b) psd) m))
           (Np.get (Np.mask_select (Bands.band_mask xf b) xf) m).
Proof.
  intros Hlen Hany Hshort.
  assert (Hne : Np.mask_select (Bands.band_mask xf b) psd <> []).
  { apply mask_select_nonempty; [exact Hany|].
    unfold Bands.band_mask. rewrite length_map. exact Hlen. }
  destruct (report_peak_fallback (Bands.band_name b) _
              (Np.mask_select (Bands.band_mask xf b) xf)
              (short_array_has_no_peak _ 0 Hshort) Hne)
    as (m & Hm & Hmax & Hfirst & Hrun).
  exists m. split; [exact Hm|]. split; [exact Hmax|].
  split; [exact Hfirst|].
  unfold Bands.analyze_band. rewrite Hany. exact Hrun.
Qed.

Lemma sine99_selection_length :
  length (Np.mask_select
            (Bands.band_mask (Spectrum.xf 200 Sample.sine99) Sample.high_beta)
            (Spectrum.psd Sample.sine99)) = 1%nat.
Proof.
  rewrite sine99_mask.
  pose proof (psd_length Sample.sine99) as Hlen.
  unfold Sample.sine99 in Hlen at 2. rewrite sine_wave_length in Hlen.
  change (7 / 2)%nat with 3%nat in Hlen.
  destruct (Spectrum.psd Sample.sine99) as [|p0 [|p1 [|p2 [|p3 l]]]];
    try discriminate Hlen.
  reflexivity.
Qed.

Lemma short_band_reports_fallback_witness :
  length (Spectrum.xf 200 Sample.sine99)
  = length (Spectrum.psd Sample.sine99)
  /\ Np.any (Bands.band_mask (Spectrum.xf 200 Sample.sine99)
               Sample.high_beta) = true
  /\ exists v d f,
       Bands.analyze_band (Spectrum.xf 200 Sample.sine99)
         (Spectrum.psd Sample.sine99) Sample.high_beta
       = Bands.NoPeakMax (Bands.band_name Sample.high_beta) v d f.
Proof.
  assert (H1 : length (Spectrum.xf 200 Sample.sine99)
               = length (Spectrum.psd Sample.sine99))
    by (rewrite xf_length, psd_length; reflexivity).
  assert (H2 : Np.any (Bands.band_mask (Spectrum.xf 200 Sample.sine99)
                         Sample.high_beta) = true)
    by (rewrite sine99_mask; reflexivity).
  assert (H3 : (length (Np.mask_select
                          (Bands.band_mask (Spectrum.xf 200 Sample.sine99)
                             Sample.high_beta)
                          (Spectrum.psd Sample.sine99)) < 3)%nat)
    by (rewrite sine99_selection_length; lia).
  split; [exact H1|]. split; [exact H2|].
  destruct (short_band_reports_fallback _ _ _ H1 H2 H3)
    as (m & _ & _ & _ & Hrun).
  do 3 eexists. exact Hrun.
Defined.

(** ** The bin at 0 Hz and the gain of the signal *)

Lemma map_get_seq (x : list R) :
  map (Np.get x) (seq 0 (length x)) = x.
Proof.
  induction x as [|a x IH]; [reflexivity|].
  cbn [length seq map]. unfold Np.get at 1. cbn [nth]. f_equal.
  rewrite <- seq_shift, map_map. exact IH.
Qed.

Lemma dft_bin_zero (x : list R) :
  Spectrum.dft_bin x 0 = (Np.sum x, - 0).
Proof.
  unfold Spectrum.dft_bin. f_equal.
  - transitivity (Np.sum (map (Np.get x) (seq 0 (length x))));
      [|rewrite map_get_seq; reflexivity].
    apply sum_map_ext. intros j _.
    unfold Spectrum.dft_angle. simpl INR.
    replace (2 * PI * INR j * 0 / INR (length x)) with 0
      by (unfold Rdiv; ring).
    rewrite cos_0. ring.
  - f_equal.
    rewrite (sum_map_ext _ (fun _ => 0)).
    + rewrite sum_map_const. ring.
    + intros j _. unfold Spectrum.dft_angle. simpl INR.
      replace (2 * PI * INR j * 0 / INR (length x)) with 0
        by (unfold Rdiv; ring).
      rewrite sin_0. ring.
Qed.

(** X8: the first entry of the magnitude array (the bin at 0 Hz) is twice
    the absolute value of the mean of the column: the factor 2/N is applied
    to the constant component as to every other bin. *)
Theorem psd_at_zero_is_twice_the_mean (x : list R) :
  (2 <= length x)%nat ->
  nth 0 (Spectrum.psd x) 0
  = 2 * Rabs (Np.sum x / INR (length x)).
Proof.
  intros Hlen.
  assert (Hhalf : (0 < length x / 2)%nat).
  { pose proof (Nat.div_mod_eq (length x) 2).
    pose proof (Nat.mod_upper_bound (length x) 2). lia. }
  assert (HN : 0 < INR (length x)) by (apply lt_0_INR; lia).
  rewrite psd_nth by exact Hhalf.
  rewrite fft_nth by lia. rewrite dft_bin_zero.
  unfold Spectrum.Cabs. cbn [fst snd].
  replace (Np.sum x * Np.sum x + - 0 * - 0) with (Rsqr (Np.sum x))
    by (unfold Rsqr; ring).
  rewrite sqrt_Rsqr_abs.
  unfold Rdiv at 2. rewrite Rabs_mult.
  rewrite (Rabs_right (/ INR (length x)))
    by (apply Rle_ge, Rlt_le, Rinv_0_lt_compat; exact HN).
  field. lra.
Qed.

Lemma psd_at_zero_is_twice_the_mean_witness :
  (2 <= length Sample.ramp4)%nat
  /\ nth 0 (Spectrum.psd Sample.ramp4) 0 = 5.
Proof.
  assert (H : (2 <= length Sample.ramp4)%nat) by (simpl; lia).
  split; [exact H|].
  rewrite (psd_at_zero_is_twice_the_mean Sample.ramp4 H).
  unfold Sample.ramp4, Np.sum. cbn [fold_right length].
  replace (INR 4) with 4 by (simpl; lra).
  replace ((1 + (2 + (3 + (4 + 0)))) / 4) with (5 / 2) by lra.
  rewrite Rabs_right by lra. lra.
Defined.

Lemma get_scaled (c : R) (x : list R) (j : nat) :
  Np.get (map (Rmult c) x) j = c * Np.get x j.
Proof.
  unfold Np.get. replace 0 with (c * 0) at 1 by ring. apply map_nth.
Qed.

Lemma dft_bin_scaled (c : R) (x : list R) (k : nat) :
  Spectrum.dft_bin (map (Rmult c) x) k
  = (c * fst (Spectrum.dft_bin x k), c * snd (Spectrum.dft_bin x k)).
Proof.
  unfold Spectrum.dft_bin. rewrite length_map. cbn [fst snd]. f_equal.
  - rewrite <- sum_map_scal. apply sum_map_ext. intros j _.
    rewrite get_scaled. ring.
  - rewrite Ropp_mult_distr_r_reverse. f_equal.
    rewrite <- sum_map_scal. apply sum_map_ext. intros j _.
    rewrite get_scaled. ring.
Qed.

Lemma Cabs_scaled (c : R) (z : Spectrum.C) :
  Spectrum.Cabs (c * fst z, c * snd z) = Rabs c * Spectrum.Cabs z.
Proof.
  unfold Spectrum.Cabs. cbn [fst snd].
  replace (c * fst z * (c * fst z) + c * snd z * (c * snd z))
    with (Rsqr c * (fst z * fst z + snd z * snd z))
    by (unfold Rsqr; ring).
  rewrite sqrt_mult_alt by apply Rle_0_sqr.
  rewrite sqrt_Rsqr_abs. reflexivity.
Qed.

(** X9: multiplying the whole column by a constant [c] (a gain, or a sign
    flip) multiplies every magnitude by the absolute value of [c] and
    leaves the frequency axis as it is. *)
Theorem gain_scales_magnitudes (c fs : R) (x : list R) :
  Spectrum.psd (map (Rmult c) x) = map (Rmult (Rabs c)) (Spectrum.psd x)
  /\ Spectrum.xf fs (map (Rmult c) x) = Spectrum.xf fs x.
Proof.
  split.
  - apply nth_ext with (d := 0) (d' := 0).
    + rewrite length_map, !psd_length, length_map. reflexivity.
    + intros i Hi. rewrite psd_length, length_map in Hi.
      transitivity (Rabs c * nth i (Spectrum.psd x) 0);
        [|symmetry; exact (get_scaled (Rabs c) (Spectrum.psd x) i)].
      rewrite psd_nth by (rewrite length_map; exact Hi).
      rewrite psd_nth by exact Hi.
      pose proof (half_le (length x)).
      rewrite !fft_nth by (rewrite ?length_map; lia).
      rewrite dft_bin_scaled, Cabs_scaled, length_map. ring.
  - unfold Spectrum.xf, Spectrum.n. rewrite length_map. reflexivity.
Qed.

(** * A sine wave between the bins

    The transform of a sampled sine of any frequency below the Nyquist
    frequency, in closed form.  With [theta] the angle of the sine per
    sample and [omega j] that of bin [j], the squared modulus [M j] of bin
    [j] satisfies

    [(D - t j)^2 * M j = K * (p * (1 - t j) + q * t j)]

    where [D = sin^2 (theta / 2)], [t j = sin^2 (omega j / 2)], and [K],
    [p], [q] do not depend on [j].  The right-hand side over [(D - t)^2]
    grows with [t] below [D] and falls above it, so the magnitudes rise up
    to the bin just below the frequency of the sine and fall from the bin
    just above it. *)

(** ** The algebra of the leakage equation *)







(** ** The transform of a sine of any frequency *)

Section LeakySine.

Variables (A phase fs f : R) (N : nat).
Hypothesis fs_nonzero : fs <> 0.
Hypothesis N_positive : (0 < N)%nat.

Local Abbreviation x := (Signal.sine_wave A f phase fs N).
Local Abbreviation theta := (2 * PI * f / fs).
Local Abbreviation omega j := (2 * PI * INR j / INR N).





End LeakySine.

(** ** The order of the magnitudes of a sine between bins [m] and [m + 1] *)


Section OffBinSine.

Variables (A phase fs f : R) (N m : nat).
Hypothesis A_nonzero : A <> 0.
Hypothesis fs_positive : 0 < fs.
Hypothesis above_m : INR m * fs / INR N < f.
Hypothesis below_next : f < INR (m + 1) * fs / INR N.
Hypothesis m_retained : (m < N / 2)%nat.

Local Abbreviation x := (Signal.sine_wave A f phase fs N).
Local Abbreviation theta := (2 * PI * f / fs).
Local Abbreviation omega j := (2 * PI * INR j / INR N).












Local Abbreviation power j :=
  (fst (Spectrum.dft_bin x j) * fst (Spectrum.dft_bin x j)
   + snd (Spectrum.dft_bin x j) * snd (Spectrum.dft_bin x j)).








End OffBinSine.

(** ** The bins a band selects *)





(** The whole number of bins below a position on the axis. *)
Lemma nat_floor (r : R) : 0 <= r -> exists m : nat, INR m <= r < INR m + 1.
Proof.
  intros Hr. destruct (archimed r) as [Hup Hdown].
  assert (Hpos : (0 < up r)%Z) by (apply lt_IZR; lra).
  exists (Z.to_nat (up r - 1)).
  rewrite INR_IZR_INZ, Z2Nat.id by lia. rewrite minus_IZR. lra.
Qed.



(** With the rate and the bands of the script and at least six samples, a
    band that contains a frequency below [(N // 2) * R / N] always holds a
    retained bin. *)
Lemma configured_band_has_bin (f : R) (N : nat) (b : Bands.band) :
  In b Bands.frequency_bands ->
  (6 <= N)%nat ->
  0 < f ->
  f < INR (N / 2) * Spectrum.SAMPLING_RATE / INR N ->
  Bands.band_test b f = true ->
  exists j0, (j0 < N / 2)%nat
             /\ Bands.band_test b (INR j0 * Spectrum.SAMPLING_RATE / INR N)
                = true.
Proof.
  unfold Spectrum.SAMPLING_RATE. intros Hb HN6 Hf Hlast Hband.
  pose proof (Nat.div_mod_eq N 2) as Hdiv.
  pose proof (Nat.mod_upper_bound N 2 ltac:(lia)) as Hmod.
  assert (HN : 0 < INR N) by (apply lt_0_INR; lia).
  set (d := 200 / INR N).
  assert (Hd : 0 < d) by (unfold d; apply Rdiv_lt_0_compat; lra).
  assert (HdN : d * INR N = 200) by (unfold d; field; lra).
  assert (Hbin : forall j, INR j * 200 / INR N = INR j * d)
    by (intros j; unfold d; field; lra).
  rewrite Hbin in Hlast.
  assert (Hhalf : 2 * INR (N / 2) <= INR N).
  { replace 2 with (INR 2) by (simpl; lra). rewrite <- mult_INR.
    apply le_INR. lia. }
  assert (Hf100 : f < 100) by nra.
  assert (Htop : 50 <= INR (N / 2 - 1) * d).
  { assert (H4 : INR N <= 4 * INR (N / 2 - 1)).
    { replace 4 with (INR 4) by (simpl; lra). rewrite <- mult_INR.
      apply le_INR. lia. }
    nra. }
  assert (Hd50 : d <= 50).
  { assert (6 <= INR N).
    { replace 6 with (INR 6) by (simpl; lra). apply le_INR. exact HN6. }
    nra. }
  assert (Hdelta : 0 <= f / d) by (apply Rlt_le, Rdiv_lt_0_compat; lra).
  destruct (nat_floor (f / d) Hdelta) as (m & Hm0 & Hm1).
  assert (Hmf : INR m * d <= f).
  { apply Rmult_le_reg_r with (r := / d); [apply Rinv_0_lt_compat; lra|].
    replace (INR m * d * / d) with (INR m) by (field; lra). exact Hm0. }
  assert (Hfm : f < (INR m + 1) * d).
  { apply Rmult_lt_reg_r with (r := / d); [apply Rinv_0_lt_compat; lra|].
    replace ((INR m + 1) * d * / d) with (INR m + 1) by (field; lra).
    exact Hm1. }
  assert (Hmret : (m < N / 2)%nat).
  { apply INR_lt. apply Rmult_lt_reg_r with (r := d); [lra|]. lra. }
  assert (Hstep : forall lo hi : R,
            Bands.low b = lo -> Bands.high b = hi ->
            lo <= f <= hi -> lo <= 50 -> 50 <= hi -> 2 * lo <= hi ->
            exists j0, (j0 < N / 2)%nat
                       /\ Bands.band_test b (INR j0 * 200 / INR N) = true).
  { intros lo hi Hlo Hhi Hfin Hlo50 Hwide Hdouble.
    destruct (Rle_lt_dec lo (INR m * d)) as [Hin|Hout].
    - exists m. split; [exact Hmret|]. rewrite Hbin. apply band_test_true.
      rewrite Hlo, Hhi. lra.
    - assert (Hm1r : (m + 1 < N / 2)%nat).
      { destruct (Nat.le_gt_cases (N / 2) (m + 1)) as [H|H]; [|exact H].
        exfalso. replace (N / 2 - 1)%nat with m in Htop by lia. lra. }
      exists (m + 1)%nat. split; [exact Hm1r|]. rewrite Hbin.
      apply band_test_true.
      rewrite Hlo, Hhi, plus_INR. simpl (INR 1). split; [lra|].
      destruct m as [|m'].
      + simpl. lra.
      + assert (H1 : 1 <= INR (S m')).
        { replace 1 with (INR 1) by (simpl; lra). apply le_INR. lia. }
        assert (Hdm : d <= INR (S m') * d) by nra. lra. }
  simpl in Hb.
  destruct Hb as [<-|[<-|[<-|[<-|[<-|[]]]]]];
    apply band_test_true in Hband;
    unfold Bands.low, Bands.high in Hband; simpl in Hband.
  - exists 0%nat. split; [lia|]. apply band_test_true.
    unfold Bands.low, Bands.high. simpl. unfold Rdiv. rewrite !Rmult_0_l. lra.
  - apply (Hstep 20 50); try reflexivity; lra.
  - apply (Hstep 50 100); try reflexivity; lra.
  - lra.
  - lra.
Qed.

(** At or above [(N // 2) * R / N] no retained bin is within one bin
    width: every retained bin is at least [R / N] below. *)
Lemma retained_bins_out_of_reach (fs f : R) (N j : nat) :
  0 < fs -> (j < N / 2)%nat ->
  INR (N / 2) * fs / INR N <= f ->
  fs / INR N <= f - INR j * fs / INR N.
Proof.
  intros Hfs Hj Hf.
  pose proof (retained_twice N j Hj) as H2.
  assert (HN : 0 < INR N) by (apply lt_0_INR; lia).
  assert (Hstep : INR j + 1 <= INR (N / 2)).
  { replace (INR j + 1) with (INR (j + 1)) by (rewrite plus_INR; simpl; lra).
    apply le_INR. lia. }
  assert (Hbin : 0 < fs / INR N) by (apply Rdiv_lt_0_compat; assumption).
  replace (INR j * fs / INR N) with (INR j * (fs / INR N)) by (field; lra).
  replace (INR (N / 2) * fs / INR N) with (INR (N / 2) * (fs / INR N)) in Hf
    by (field; lra).
  nra.
Qed.

(** A bin at the first or the last place of a band's selection is never a
    peak for [find_peaks]: as soon as the selection has any peak, however
    small, the line printed is that of a peak strictly inside it. *)
Lemma edge_bin_printed_only_without_peak (name : string)
  (band_psd band_freq : list R) :
  Peaks.find_peaks band_psd 0 <> [] ->
  exists p,
    (1 <= p)%nat /\ (p + 1 < length band_psd)%nat
    /\ Bands.report_peak name band_psd band_freq
       = Bands.PeakFound name (Np.get band_freq p) (Np.get band_psd p)
           (Bands.dB (Np.get band_psd p)).
Proof.
  intros Hsome.
  destruct (report_peak_found name band_psd band_freq Hsome)
    as (p & Hp & _ & Hline).
  apply find_peaks_spec in Hp. destruct Hp as [Hmid _].
  destruct (flat_top_middle_in_range _ _ Hmid) as (H1 & H2 & _).
  exists p. split; [exact H1|]. split; [exact H2 | exact Hline].
Qed.



(** * Further properties of the script *)

Lemma print_all_run (l : list Script.out) (g : Script.globals) :
  Script.print_all l g
  = (Py.Normal tt,
     Script.mk_globals (Script.df g) (Script.EMG_COLUMN g) (Script.stdin g)
       (Script.stdout g ++ l) (Script.saved g)).
Proof.
  revert g. induction l as [|o l IH]; intros g.
  - simpl. rewrite app_nil_r. destruct g; reflexivity.
  - cbn [Script.print_all]. unfold Py.bind, Script.print, Py.modify.
    rewrite IH. cbn [Script.df Script.EMG_COLUMN Script.stdin Script.stdout
                       Script.saved].
    rewrite <- app_assoc. reflexivity.
Qed.

Lemma getitem_has_column (d : Frame.DataFrame) (name : string)
  (cells : list Frame.cell) :
  Frame.getitem d name = inl cells -> Frame.has_column d name = true.
Proof.
  unfold Frame.getitem, Frame.has_column.
  destruct (Frame.index_of name (Frame.columns d)); [reflexivity|].
  intros H; discriminate H.
Qed.

Lemma getitem_missing (d : Frame.DataFrame) (name : string) :
  Frame.has_column d name = false ->
  Frame.getitem d name = inr (Py.mk_exn Py.KeyError (Py.repr name)).
Proof.
  unfold Frame.getitem, Frame.has_column.
  destruct (Frame.index_of name (Frame.columns d)); [|reflexivity].
  intros H; discriminate H.
Qed.

(** Simplify one run of the script without looking into the tables, the
    columns or the numbers. *)
Ltac script_step :=
  cbn -[Frame.has_column Frame.getitem Frame.as_floats Script.checked_fft
        Script.print_all Bands.band_reports Script.make_figure Frame.head
        Script.replicate String.append Script.newline Py.isinstance
        Nat.eqb length].

(** X11: when the file is read, the configured column [emg] exists, its
    cells convert to numbers and there is at least one row, the script ends
    normally, asks nothing, prints the header, the first rows, the five
    band lines between two dashed lines and the closing message, and saves
    exactly one figure, [emg_fft_analysis.png]. *)
Theorem script_success_run
  (read_csv : string -> Frame.DataFrame + Py.exn) (keyboard : list string)
  (table : Frame.DataFrame) (cells : list Frame.cell) (emg_data : list R) :
  read_csv Script.FILENAME = inl table ->
  Frame.getitem table "emg" = inl cells ->
  Frame.as_floats cells = inl emg_data ->
  emg_data <> [] ->
  Script.script read_csv (Script.initial keyboard)
  = (Py.Normal tt,
     Script.mk_globals (Some table) "emg" keyboard
       ([ Script.Line "データの先頭5行を表示:";
          Script.FrameText (Frame.head table);
          Script.Line (Script.newline ++ "各周波数帯域のピーク値:");
          Script.Line (Script.replicate 50 "-") ]
        ++ map Script.BandLine
             (Bands.band_reports Spectrum.SAMPLING_RATE emg_data)
        ++ [ Script.Line (Script.replicate 50 "-");
             Script.Line
               (Script.newline
                ++ "FFT解析結果を 'emg_fft_analysis.png' として保存しました。") ])
       [("emg_fft_analysis.png"%string, Script.make_figure emg_data)]).
Proof.
  intros Hread Hcol Hfloats Hne.
  unfold Script.script, Py.try_except, Script.body, Py.bind, Py.lift.
  rewrite Hread. script_step.
  rewrite (getitem_has_column _ _ _ Hcol). script_step.
  rewrite Hcol. script_step. rewrite Hfloats. script_step.
  unfold Script.checked_fft.
  destruct emg_data as [|v rest]; [contradiction|].
  cbn [length Nat.eqb]. script_step. rewrite print_all_run. script_step.
  rewrite <- !app_assoc. reflexivity.
Qed.

Lemma script_success_run_witness :
  Sample.emg_table_everywhere Script.FILENAME = inl Sample.emg_table
  /\ Frame.getitem Sample.emg_table "emg"
     = inl [Frame.CNum 1; Frame.CNum 2]
  /\ Frame.as_floats [Frame.CNum 1; Frame.CNum 2] = inl [1; 2]
  /\ [1; 2] <> ([] : list R)
  /\ fst (Script.script Sample.emg_table_everywhere (Script.initial []))
     = Py.Normal tt
  /\ Script.saved
       (snd (Script.script Sample.emg_table_everywhere (Script.initial [])))
     = [("emg_fft_analysis.png"%string, Script.make_figure [1; 2])].
Proof.
  assert (H1 : Sample.emg_table_everywhere Script.FILENAME
               = inl Sample.emg_table) by reflexivity.
  assert (H2 : Frame.getitem Sample.emg_table "emg"
               = inl [Frame.CNum 1; Frame.CNum 2]) by reflexivity.
  assert (H3 : Frame.as_floats [Frame.CNum 1; Frame.CNum 2] = inl [1; 2])
    by reflexivity.
  assert (H4 : [1; 2] <> ([] : list R)) by discriminate.
  split; [exact H1|]. split; [exact H2|]. split; [exact H3|].
  split; [exact H4|].
  rewrite (script_success_run Sample.emg_table_everywhere []
             Sample.emg_table _ _ H1 H2 H3 H4).
  split; reflexivity.
Defined.

(** X12: when the configured column is missing, the script prints the
    available columns, reads exactly one line from the keyboard and uses it
    as the column from then on; with a column that exists, converts and has
    rows, the run then ends like a run without the question. *)
Theorem script_prompt_run
  (read_csv : string -> Frame.DataFrame + Py.exn)
  (answer : string) (later : list string)
  (table : Frame.DataFrame) (cells : list Frame.cell) (emg_data : list R) :
  read_csv Script.FILENAME = inl table ->
  Frame.has_column table "emg" = false ->
  Frame.getitem table answer = inl cells ->
  Frame.as_floats cells = inl emg_data ->
  emg_data <> [] ->
  Script.script read_csv (Script.initial (answer :: later))
  = (Py.Normal tt,
     Script.mk_globals (Some table) answer later
       ([ Script.Line "データの先頭5行を表示:";
          Script.FrameText (Frame.head table);
          Script.LineList (Script.newline ++ "使用可能な列: ")
            (Frame.columns table);
          Script.Line "EMGデータの列名を入力してください: ";
          Script.Line (Script.newline ++ "各周波数帯域のピーク値:");
          Script.Line (Script.replicate 50 "-") ]
        ++ map Script.BandLine
             (Bands.band_reports Spectrum.SAMPLING_RATE emg_data)
        ++ [ Script.Line (Script.replicate 50 "-");
             Script.Line
               (Script.newline
                ++ "FFT解析結果を 'emg_fft_analysis.png' として保存しました。") ])
       [("emg_fft_analysis.png"%string, Script.make_figure emg_data)]).
Proof.
  intros Hread Hmissing Hcol Hfloats Hne.
  unfold Script.script, Py.try_except, Script.body, Py.bind, Py.lift.
  rewrite Hread. script_step. rewrite Hmissing. script_step.
  rewrite Hcol. script_step. rewrite Hfloats. script_step.
  unfold Script.checked_fft.
  destruct emg_data as [|v rest]; [contradiction|].
  cbn [length Nat.eqb]. script_step. rewrite print_all_run. script_step.
  rewrite <- !app_assoc. reflexivity.
Qed.

Lemma script_prompt_run_witness :
  Sample.sensor_table_everywhere Script.FILENAME = inl Sample.sensor_table
  /\ Frame.has_column Sample.sensor_table "emg" = false
  /\ Frame.getitem Sample.sensor_table "Sensor_1"
     = inl [Frame.CNum 1; Frame.CNum 2]
  /\ Frame.as_floats [Frame.CNum 1; Frame.CNum 2] = inl [1; 2]
  /\ [1; 2] <> ([] : list R)
  /\ Script.EMG_COLUMN
       (snd (Script.script Sample.sensor_table_everywhere
               (Script.initial ["Sensor_1"; "unread"]%string)))
     = "Sensor_1"%string
  /\ Script.stdin
       (snd (Script.script Sample.sensor_table_everywhere
               (Script.initial ["Sensor_1"; "unread"]%string)))
     = ["unread"%string].
Proof.
  assert (H1 : Sample.sensor_table_everywhere Script.FILENAME
               = inl Sample.sensor_table) by reflexivity.
  assert (H2 : Frame.has_column Sample.sensor_table "emg" = false)
    by reflexivity.
  assert (H3 : Frame.getitem Sample.sensor_table "Sensor_1"
               = inl [Frame.CNum 1; Frame.CNum 2]) by reflexivity.
  assert (H4 : Frame.as_floats [Frame.CNum 1; Frame.CNum 2] = inl [1; 2])
    by reflexivity.
  assert (H5 : [1; 2] <> ([] : list R)) by discriminate.
  split; [exact H1|]. split; [exact H2|]. split; [exact H3|].
  split; [exact H4|]. split; [exact H5|].
  rewrite (script_prompt_run Sample.sensor_table_everywhere "Sensor_1"
             ["unread"%string] Sample.sensor_table _ _ H1 H2 H3 H4 H5).
  split; reflexivity.
Defined.

(** X13: when neither the configured column nor the one typed exists, the
    [KeyError] is caught: the script prints the [repr] of the name typed
    (between single quotes, or between double quotes when the name holds a
    single quote and no double quote, with backslashes and control
    characters escaped) and the list of columns, saves nothing and ends
    normally.  The name typed is taken in ASCII, where [Py.repr] is
    Python's [repr] character for character. *)
Theorem script_unknown_column_run
  (read_csv : string -> Frame.DataFrame + Py.exn)
  (answer : string) (later : list string) (table : Frame.DataFrame) :
  read_csv Script.FILENAME = inl table ->
  Frame.has_column table "emg" = false ->
  Frame.has_column table answer = false ->
  Py.is_ascii answer = true ->
  Script.script read_csv (Script.initial (answer :: later))
  = (Py.Normal tt,
     Script.mk_globals (Some table) answer later
       [ Script.Line "データの先頭5行を表示:";
         Script.FrameText (Frame.head table);
         Script.LineList (Script.newline ++ "使用可能な列: ")
           (Frame.columns table);
         Script.Line "EMGデータの列名を入力してください: ";
         Script.Line ("エラーが発生しました: " ++ Py.repr answer);
         Script.Line (Script.newline ++ "使用可能な列:");
         Script.LineList EmptyString (Frame.columns table) ]
       []).
Proof.
  intros Hread Hmissing Hunknown _.
  unfold Script.script, Py.try_except, Script.body, Py.bind, Py.lift.
  rewrite Hread. script_step. rewrite Hmissing. script_step.
  rewrite (getitem_missing _ _ Hunknown). script_step.
  reflexivity.
Qed.

Lemma script_unknown_column_run_witness :
  Sample.hand_table_everywhere Script.FILENAME = inl Sample.hand_table
  /\ Frame.has_column Sample.hand_table "emg" = false
  /\ Frame.has_column Sample.hand_table "it's" = false
  /\ Py.is_ascii "it's" = true
  /\ fst (Script.script Sample.hand_table_everywhere
            (Script.initial ["it's"%string])) = Py.Normal tt
  /\ nth 4 (Script.stdout
              (snd (Script.script Sample.hand_table_everywhere
                      (Script.initial ["it's"%string]))))
        (Script.Line EmptyString)
     = Script.Line
         ("エラーが発生しました: "
          ++ String Py.double_quote ("it's" ++ String Py.double_quote EmptyString))
  /\ Script.saved
       (snd (Script.script Sample.hand_table_everywhere
               (Script.initial ["it's"%string]))) = [].
Proof.
  assert (H1 : Sample.hand_table_everywhere Script.FILENAME
               = inl Sample.hand_table) by reflexivity.
  assert (H2 : Frame.has_column Sample.hand_table "emg" = false)
    by reflexivity.
  assert (H3 : Frame.has_column Sample.hand_table "it's" = false)
    by reflexivity.
  assert (H4 : Py.is_ascii "it's" = true) by reflexivity.
  split; [exact H1|]. split; [exact H2|]. split; [exact H3|].
  split; [exact H4|].
  rewrite (script_unknown_column_run Sample.hand_table_everywhere "it's" []
             Sample.hand_table H1 H2 H3 H4).
  split; [reflexivity|]. split; reflexivity.
Defined.

(** X14: a table whose column [emg] has no rows makes [fft] refuse the
    empty array; the [ValueError] is caught, the script prints its message
    and the list of columns, saves nothing and ends normally. *)
Theorem script_empty_column_run
  (read_csv : string -> Frame.DataFrame + Py.exn) (keyboard : list string)
  (table : Frame.DataFrame) :
  read_csv Script.FILENAME = inl table ->
  Frame.getitem table "emg" = inl [] ->
  Script.script read_csv (Script.initial keyboard)
  = (Py.Normal tt,
     Script.mk_globals (Some table) "emg" keyboard
       [ Script.Line "データの先頭5行を表示:";
         Script.FrameText (Frame.head table);
         Script.Line
           "エラーが発生しました: invalid number of data points (0) specified";
         Script.Line (Script.newline ++ "使用可能な列:");
         Script.LineList EmptyString (Frame.columns table) ]
       []).
Proof.
  intros Hread Hcol.
  unfold Script.script, Py.try_except, Script.body, Py.bind, Py.lift.
  rewrite Hread. script_step.
  rewrite (getitem_has_column _ _ _ Hcol). script_step.
  rewrite Hcol. cbn [Frame.as_floats]. script_step.
  unfold Script.checked_fft. cbn [length Nat.eqb]. script_step.
  reflexivity.
Qed.

Lemma script_empty_column_run_witness :
  Sample.empty_emg_table_everywhere Script.FILENAME
  = inl Sample.empty_emg_table
  /\ Frame.getitem Sample.empty_emg_table "emg" = inl []
  /\ fst (Script.script Sample.empty_emg_table_everywhere (Script.initial []))
     = Py.Normal tt
  /\ Script.saved
       (snd (Script.script Sample.empty_emg_table_everywhere
               (Script.initial []))) = [].
Proof.
  assert (H1 : Sample.empty_emg_table_everywhere Script.FILENAME
               = inl Sample.empty_emg_table) by reflexivity.
  assert (H2 : Frame.getitem Sample.empty_emg_table "emg" = inl [])
    by reflexivity.
  split; [exact H1|]. split; [exact H2|].
  rewrite (script_empty_column_run Sample.empty_emg_table_everywhere []
             Sample.empty_emg_table H1 H2).
  split; reflexivity.
Defined.

Lemma as_floats_error_class (cells : list Frame.cell) (e : Py.exn) :
  Frame.as_floats cells = inr e -> Py.cls e = Py.ValueError.
Proof.
  induction cells as [|c cells IH]; simpl; [intros H; discriminate H|].
  destruct c as [b|v|s].
  - destruct (Frame.as_floats cells) as [xs|e'];
      intros H; [discriminate H|]. injection H as <-. apply IH. reflexivity.
  - destruct (Frame.as_floats cells) as [xs|e'];
      intros H; [discriminate H|]. injection H as <-. apply IH. reflexivity.
  - intros H. injection H as <-. reflexivity.
Qed.

Lemma getitem_error_class (d : Frame.DataFrame) (name : string)
  (e : Py.exn) :
  Frame.getitem d name = inr e -> Py.cls e = Py.KeyError.
Proof.
  unfold Frame.getitem.
  destruct (Frame.index_of name (Frame.columns d));
    intros H; [discriminate H|]. injection H as <-. reflexivity.
Qed.

(** *** One step of the script at a time *)

Section ScriptSteps.

Context {A : Type}.
Variables (d : option Frame.DataFrame) (c : string) (kb : list string)
  (out : list Script.out) (s : list (string * Script.figure)).

Lemma run_lift {B : Type} (r : B + Py.exn) (k : B -> Py.M Script.globals A) :
  Py.bind (Py.lift r) k (Script.mk_globals d c kb out s)
  = match r with
    | inl b => k b (Script.mk_globals d c kb out s)
    | inr e => (Py.Raised e, Script.mk_globals d c kb out s)
    end.
Proof. destruct r; reflexivity. Qed.

Lemma run_print (o : Script.out) (k : unit -> Py.M Script.globals A) :
  Py.bind (Script.print o) k (Script.mk_globals d c kb out s)
  = k tt (Script.mk_globals d c kb (out ++ [o]) s).
Proof. reflexivity. Qed.

Lemma run_print_all (l : list Script.out)
  (k : unit -> Py.M Script.globals A) :
  Py.bind (Script.print_all l) k (Script.mk_globals d c kb out s)
  = k tt (Script.mk_globals d c kb (out ++ l) s).
Proof. unfold Py.bind. rewrite print_all_run. reflexivity. Qed.

Lemma run_savefig (name : string) (fig : Script.figure)
  (k : unit -> Py.M Script.globals A) :
  Py.bind (Script.savefig name fig) k (Script.mk_globals d c kb out s)
  = k tt (Script.mk_globals d c kb out (s ++ [(name, fig)])).
Proof. reflexivity. Qed.

Lemma run_assign_df (v : Frame.DataFrame)
  (k : unit -> Py.M Script.globals A) :
  Py.bind (Script.assign_df v) k (Script.mk_globals d c kb out s)
  = k tt (Script.mk_globals (Some v) c kb out s).
Proof. reflexivity. Qed.

Lemma run_assign_column (v : string) (k : unit -> Py.M Script.globals A) :
  Py.bind (Script.assign_EMG_COLUMN v) k (Script.mk_globals d c kb out s)
  = k tt (Script.mk_globals d v kb out s).
Proof. reflexivity. Qed.

Lemma run_get_column (k : string -> Py.M Script.globals A) :
  Py.bind (Py.gets Script.EMG_COLUMN) k (Script.mk_globals d c kb out s)
  = k c (Script.mk_globals d c kb out s).
Proof. reflexivity. Qed.

Lemma run_read_df (v : Frame.DataFrame)
  (k : Frame.DataFrame -> Py.M Script.globals A) :
  Py.bind Script.read_df k (Script.mk_globals (Some v) c kb out s)
  = k v (Script.mk_globals (Some v) c kb out s).
Proof. reflexivity. Qed.

Lemma run_ret {B : Type} (b : B) (k : B -> Py.M Script.globals A) :
  Py.bind (Py.ret b) k (Script.mk_globals d c kb out s)
  = k b (Script.mk_globals d c kb out s).
Proof. reflexivity. Qed.

End ScriptSteps.

Lemma run_input_answer {A : Type} (d : option Frame.DataFrame) (c : string)
  (answer : string) (later : list string) (out : list Script.out)
  (s : list (string * Script.figure)) (prompt : string)
  (k : string -> Py.M Script.globals A) :
  Py.bind (Script.input prompt) k
    (Script.mk_globals d c (answer :: later) out s)
  = k answer (Script.mk_globals d c later (out ++ [Script.Line prompt]) s).
Proof. reflexivity. Qed.

Lemma run_input_eof {A : Type} (d : option Frame.DataFrame) (c : string)
  (out : list Script.out) (s : list (string * Script.figure))
  (prompt : string) (k : string -> Py.M Script.globals A) :
  Py.bind (Script.input prompt) k (Script.mk_globals d c [] out s)
  = (Py.Raised (Py.mk_exn Py.EOFError "EOF when reading a line"),
     Script.mk_globals d c [] (out ++ [Script.Line prompt]) s).
Proof. reflexivity. Qed.

Lemma bind_bind {S A B C : Type} (m : Py.M S A) (k1 : A -> Py.M S B)
  (k2 : B -> Py.M S C) (g : S) :
  Py.bind (Py.bind m k1) k2 g
  = Py.bind m (fun a => Py.bind (k1 a) k2) g.
Proof.
  unfold Py.bind. destruct (m g) as [[a|e] g']; reflexivity.
Qed.

(** What the analysis part of the body (from [df[EMG_COLUMN]] on) leaves
    behind once [df] is assigned: either it raised something that is no
    [FileNotFoundError], with nothing saved, or it ran to its end and saved
    the one figure. *)
Lemma analysis_outcome (t : Frame.DataFrame) (col : string)
  (kb : list string) (out : list Script.out) :
  match
    Py.bind (Py.lift (Frame.getitem t col)) (fun cells =>
    Py.bind (Py.lift (Frame.as_floats cells)) (fun emg_data =>
    Py.bind (Py.lift (Script.checked_fft emg_data)) (fun _ =>
    Py.bind (Script.print
               (Script.Line (Script.newline ++ "各周波数帯域のピーク値:")))
      (fun _ =>
    Py.bind (Script.print (Script.Line (Script.replicate 50 "-")))
      (fun _ =>
    Py.bind (Script.print_all
               (map Script.BandLine
                  (Bands.band_reports Spectrum.SAMPLING_RATE emg_data)))
      (fun _ =>
    Py.bind (Script.print (Script.Line (Script.replicate 50 "-")))
      (fun _ =>
    Py.bind (Script.savefig "emg_fft_analysis.png"
               (Script.make_figure emg_data)) (fun _ =>
    Script.print
      (Script.Line
         (Script.newline
          ++ "FFT解析結果を 'emg_fft_analysis.png' として保存しました。"))))))))))
      (Script.mk_globals (Some t) col kb out [])
  with
  | (Py.Raised e, g') =>
      exists t', Script.df g' = Some t' /\ Script.saved g' = []
                 /\ Py.isinstance e Py.FileNotFoundError = false
  | (Py.Normal _, g') =>
      exists emg_data,
        emg_data <> []
        /\ Script.saved g'
           = [("emg_fft_analysis.png"%string, Script.make_figure emg_data)]
  end.
Proof.
  rewrite run_lift.
  destruct (Frame.getitem t col) as [cells|e] eqn:Hg.
  2:{ exists t. split; [reflexivity|]. split; [reflexivity|].
      unfold Py.isinstance. rewrite (getitem_error_class _ _ _ Hg).
      reflexivity. }
  rewrite run_lift.
  destruct (Frame.as_floats cells) as [x|e] eqn:Hf.
  2:{ exists t. split; [reflexivity|]. split; [reflexivity|].
      unfold Py.isinstance. rewrite (as_floats_error_class _ _ Hf).
      reflexivity. }
  rewrite run_lift. unfold Script.checked_fft.
  destruct x as [|v rest]; cbn [length Nat.eqb].
  - exists t. split; [reflexivity|]. split; reflexivity.
  - rewrite !run_print, run_print_all, run_print, run_savefig.
    exists (v :: rest). split; [discriminate | reflexivity].
Qed.

(** What the body of the [try] leaves behind: either the read itself
    raised and nothing has happened, or [df] is assigned and nothing is
    saved and the exception is no [FileNotFoundError], or the body ran to
    its end and saved the one figure. *)
Lemma body_outcome (read_csv : string -> Frame.DataFrame + Py.exn)
  (keyboard : list string) :
  match Script.body read_csv (Script.initial keyboard) with
  | (Py.Raised e, g') =>
      (read_csv Script.FILENAME = inr e /\ g' = Script.initial keyboard)
      \/ (exists t, Script.df g' = Some t /\ Script.saved g' = []
                    /\ Py.isinstance e Py.FileNotFoundError = false)
  | (Py.Normal _, g') =>
      exists emg_data,
        emg_data <> []
        /\ Script.saved g'
           = [("emg_fft_analysis.png"%string, Script.make_figure emg_data)]
  end.
Proof.
  unfold Script.body, Script.initial. rewrite run_lift.
  destruct (read_csv Script.FILENAME) as [t|e] eqn:Hread.
  2:{ left. split; reflexivity. }
  rewrite run_assign_df, run_print, run_read_df, run_print, run_read_df,
    run_get_column.
  destruct (Frame.has_column t "emg") eqn:Hhas; cbn [negb].
  - rewrite run_ret, run_read_df, run_get_column.
    pose proof (analysis_outcome t "emg" keyboard
                  ([] ++ [Script.Line "データの先頭5行を表示:"]
                   ++ [Script.FrameText (Frame.head t)])) as Htail.
    rewrite app_assoc in Htail.
    destruct (Py.bind _ _ _) as [[u|e] g'];
      [exact Htail | right; exact Htail].
  - rewrite bind_bind, run_read_df, bind_bind, run_print, bind_bind.
    destruct keyboard as [|answer later].
    + rewrite run_input_eof. right. exists t.
      split; [reflexivity|]. split; reflexivity.
    + rewrite run_input_answer, run_assign_column, run_read_df,
        run_get_column.
      pose proof (analysis_outcome t answer later
                    (((([] ++ [Script.Line "データの先頭5行を表示:"])
                       ++ [Script.FrameText (Frame.head t)])
                      ++ [Script.LineList
                            (Script.newline ++ "使用可能な列: ")
                            (Frame.columns t)])
                     ++ [Script.Line "EMGデータの列名を入力してください: "]))
        as Htail.
      destruct (Py.bind _ _ _) as [[u|e] g'];
        [exact Htail | right; exact Htail].
Qed.

(** X15: whatever the file and the keyboard, the script raises only in one
    situation, a failed read that is no [FileNotFoundError], and then what
    it raises is the [NameError] for [df]; every other failure is caught
    and reported.  It never saves a figure unless it ends normally, and
    then it saves exactly one, computed from a column with at least one
    row. *)
Theorem script_raises_only_after_failed_read
  (read_csv : string -> Frame.DataFrame + Py.exn) (keyboard : list string) :
  (forall e,
     fst (Script.script read_csv (Script.initial keyboard)) = Py.Raised e ->
     e = Py.mk_exn Py.NameError "name 'df' is not defined"
     /\ exists e0, read_csv Script.FILENAME = inr e0
                   /\ Py.isinstance e0 Py.FileNotFoundError = false)
  /\ (Script.saved (snd (Script.script read_csv (Script.initial keyboard)))
      = []
      \/ (fst (Script.script read_csv (Script.initial keyboard))
          = Py.Normal tt
          /\ exists emg_data,
               emg_data <> []
               /\ Script.saved
                    (snd (Script.script read_csv (Script.initial keyboard)))
                  = [("emg_fft_analysis.png"%string,
                      Script.make_figure emg_data)])).
Proof.
  unfold Script.script, Py.try_except.
  pose proof (body_outcome read_csv keyboard) as Hbody.
  destruct (Script.body read_csv (Script.initial keyboard))
    as [[u|e] g'].
  - destruct u. cbn [fst snd]. split; [intros e H; discriminate H|].
    right. split; [reflexivity | exact Hbody].
  - cbn [Py.dispatch].
    assert (Hexc : Py.isinstance e Py.Exception = true)
      by apply every_class_is_exception.
    destruct Hbody as [[Hread ->] | (t & Hdf & Hsaved & Hclass)].
    + destruct (Py.isinstance e Py.FileNotFoundError) eqn:Hclass.
      * split; [intros e' H; discriminate H | left; reflexivity].
      * rewrite Hexc. unfold Script.on_exception, Script.initial.
        rewrite !run_print. split; [|left; reflexivity].
        intros e' H. injection H as <-.
        split; [reflexivity|]. exists e. split; assumption.
    + rewrite Hclass, Hexc.
      destruct g' as [d c kb out s]. cbn [Script.df Script.saved] in *.
      subst d s. unfold Script.on_exception.
      rewrite !run_print, run_read_df.
      split; [intros e' H; discriminate H | left; reflexivity].
Qed.

Lemma script_raises_only_after_failed_read_witness :
  fst (Script.script Sample.unparsable_files (Script.initial []))
  = Py.Raised (Py.mk_exn Py.NameError "name 'df' is not defined")
  /\ exists e0, Sample.unparsable_files Script.FILENAME = inr e0
                /\ Py.isinstance e0 Py.FileNotFoundError = false.
Proof.
  assert (H : fst (Script.script Sample.unparsable_files (Script.initial []))
              = Py.Raised (Py.mk_exn Py.NameError "name 'df' is not defined"))
    by reflexivity.
  split; [exact H|].
  exact (proj2 (proj1 (script_raises_only_after_failed_read
                         Sample.unparsable_files []) _ H)).
Defined.

(** * Further properties of the loader *)

Lemma load_all_data_aux
  (read_csv : string -> Frame.DataFrame + Py.exn) (st : Loader.state)
  (hand_filepath emg_filepath : string) :
  Loader.load_all_data read_csv hand_filepath emg_filepath st
  = (Py.Normal
       (match read_csv hand_filepath with inl t => Some t | inr _ => None end,
        match read_csv emg_filepath with inl t => Some t | inr _ => None end),
     Loader.mk_state
       (Loader.mk_loader
          (match read_csv hand_filepath with
           | inl t => Some t
           | inr _ => Loader.hand_data (Loader.self st)
           end)
          (match read_csv emg_filepath with
           | inl t => Some t
           | inr _ => Loader.emg_data (Loader.self st)
           end))
       (Loader.stdout st
        ++ [ match read_csv hand_filepath with
             | inl t => Loader.loaded_message "Hand" t
             | inr e => Loader.error_message "hand" e
             end;
             match read_csv emg_filepath with
             | inl t => Loader.loaded_message "EMG" t
             | inr e => Loader.error_message "EMG" e
             end ])).
Proof.
  unfold Loader.load_all_data, Py.bind.
  rewrite load_hand_data_run.
  destruct (read_csv hand_filepath) as [th|eh];
    rewrite load_emg_data_run;
    destruct (read_csv emg_filepath) as [te|ee];
    destruct st as [[h e] out]; cbn [Loader.self Loader.stdout
      Loader.hand_data Loader.emg_data Py.ret];
    rewrite <- app_assoc; reflexivity.
Qed.

(** X16: [load_all_data] always attempts both reads, in the order hand,
    EMG, and never raises: it returns the pair of the two results ([None]
    for a read that failed), stores each table that was read and keeps the
    earlier value of the other attribute, and prints one line per file. *)
Theorem load_all_data_loads_independently
  (read_csv : string -> Frame.DataFrame + Py.exn) (st : Loader.state)
  (hand_filepath emg_filepath : string) :
  Loader.load_all_data read_csv hand_filepath emg_filepath st
  = (Py.Normal
       (match read_csv hand_filepath with inl t => Some t | inr _ => None end,
        match read_csv emg_filepath with inl t => Some t | inr _ => None end),
     Loader.mk_state
       (Loader.mk_loader
          (match read_csv hand_filepath with
           | inl t => Some t
           | inr _ => Loader.hand_data (Loader.self st)
           end)
          (match read_csv emg_filepath with
           | inl t => Some t
           | inr _ => Loader.emg_data (Loader.self st)
           end))
       (Loader.stdout st
        ++ [ match read_csv hand_filepath with
             | inl t => Loader.loaded_message "Hand" t
             | inr e => Loader.error_message "hand" e
             end;
             match read_csv emg_filepath with
             | inl t => Loader.loaded_message "EMG" t
             | inr e => Loader.error_message "EMG" e
             end ])).
Proof.
  unfold Loader.load_all_data, Py.bind.
  rewrite load_hand_data_run.
  destruct (read_csv hand_filepath) as [th|eh];
    rewrite load_emg_data_run;
    destruct (read_csv emg_filepath) as [te|ee];
    destruct st as [[h e] out]; cbn [Loader.self Loader.stdout
      Loader.hand_data Loader.emg_data Py.ret];
    rewrite <- app_assoc; reflexivity.
Qed.

Lemma print_lines_run (lines : list string) (st : Loader.state) :
  LoaderInfo.print_lines lines st
  = (Py.Normal tt,
     Loader.mk_state (Loader.self st) (Loader.stdout st ++ lines)).
Proof.
  revert st. induction lines as [|l lines IH]; intros st.
  - simpl. rewrite app_nil_r. destruct st; reflexivity.
  - cbn [LoaderInfo.print_lines]. unfold Py.bind, Loader.print, Py.modify.
    rewrite IH. cbn [Loader.self Loader.stdout].
    rewrite <- app_assoc. reflexivity.
Qed.

Lemma get_basic_info_aux
  (repr_columns : list string -> string)
  (repr_dtypes : Frame.DataFrame -> string) (st : Loader.state) :
  LoaderInfo.get_basic_info repr_columns repr_dtypes st
  = (Py.Normal tt,
     Loader.mk_state (Loader.self st)
       (Loader.stdout st
        ++ match Loader.hand_data (Loader.self st) with
           | Some t => LoaderInfo.info_block repr_columns repr_dtypes "Hand" t
           | None => []
           end
        ++ match Loader.emg_data (Loader.self st) with
           | Some t => LoaderInfo.info_block repr_columns repr_dtypes "EMG" t
           | None => []
           end))
  /\ (forall what t,
        length (LoaderInfo.info_block repr_columns repr_dtypes what t)
        = 4%nat).
Proof.
  split; [|reflexivity].
  unfold LoaderInfo.get_basic_info, Py.bind, Py.gets.
  destruct st as [[h e] out]. cbn [Loader.self Loader.hand_data
                                    Loader.emg_data Loader.stdout].
  destruct h as [th|]; destruct e as [te|];
    rewrite ?print_lines_run; cbn [Py.ret Loader.self Loader.stdout
      Loader.hand_data Loader.emg_data];
    rewrite ?print_lines_run; cbn [Loader.self Loader.stdout];
    rewrite ?app_nil_r, <- ?app_assoc; reflexivity.
Qed.

(** X17: [get_basic_info] never raises and never changes the loader; it
    prints four lines for each table that is loaded, the hand block before
    the EMG block, and nothing at all for a table that is not loaded. *)
Theorem get_basic_info_prints_loaded_tables
  (repr_columns : list string -> string)
  (repr_dtypes : Frame.DataFrame -> string) (st : Loader.state) :
  LoaderInfo.get_basic_info repr_columns repr_dtypes st
  = (Py.Normal tt,
     Loader.mk_state (Loader.self st)
       (Loader.stdout st
        ++ match Loader.hand_data (Loader.self st) with
           | Some t => LoaderInfo.info_block repr_columns repr_dtypes "Hand" t
           | None => []
           end
        ++ match Loader.emg_data (Loader.self st) with
           | Some t => LoaderInfo.info_block repr_columns repr_dtypes "EMG" t
           | None => []
           end))
  /\ (forall what t,
        length (LoaderInfo.info_block repr_columns repr_dtypes what t)
        = 4%nat).
Proof.
  split; [|reflexivity].
  unfold LoaderInfo.get_basic_info, Py.bind, Py.gets.
  destruct st as [[h e] out]. cbn [Loader.self Loader.hand_data
                                    Loader.emg_data Loader.stdout].
  destruct h as [th|]; destruct e as [te|];
    rewrite ?print_lines_run; cbn [Py.ret Loader.self Loader.stdout
      Loader.hand_data Loader.emg_data];
    rewrite ?print_lines_run; cbn [Loader.self Loader.stdout];
    rewrite ?app_nil_r, <- ?app_assoc; reflexivity.
Qed.

(** X18: the usage example of the loader never raises.  It starts from a
    fresh loader, prints one line per file, then the info block and later
    the sample block of exactly the tables that were read, hand before EMG
    in each group; with no file readable it prints the two error lines and
    nothing else. *)
Theorem loader_main_run
  (repr_columns : list string -> string)
  (repr_dtypes : Frame.DataFrame -> string)
  (repr_frame : Frame.DataFrame -> string)
  (read_csv : string -> Frame.DataFrame + Py.exn) (st : Loader.state) :
  LoaderInfo.main repr_columns repr_dtypes repr_frame read_csv st
  = (Py.Normal tt,
     Loader.mk_state
       (Loader.mk_loader
          (match read_csv "hand_data_log.csv"%string with
           | inl t => Some t | inr _ => None end)
          (match read_csv "emg_data.csv"%string with
           | inl t => Some t | inr _ => None end))
       (Loader.stdout st
        ++ [ match read_csv "hand_data_log.csv"%string with
             | inl t => Loader.loaded_message "Hand" t
             | inr e => Loader.error_message "hand" e
             end;
             match read_csv "emg_data.csv"%string with
             | inl t => Loader.loaded_message "EMG" t
             | inr e => Loader.error_message "EMG" e
             end ]
        ++ match read_csv "hand_data_log.csv"%string with
           | inl t => LoaderInfo.info_block repr_columns repr_dtypes "Hand" t
           | inr _ => []
           end
        ++ match read_csv "emg_data.csv"%string with
           | inl t => LoaderInfo.info_block repr_columns repr_dtypes "EMG" t
           | inr _ => []
           end
        ++ match read_csv "hand_data_log.csv"%string with
           | inl t => LoaderInfo.sample_block repr_frame "Hand" t
           | inr _ => []
           end
        ++ match read_csv "emg_data.csv"%string with
           | inl t => LoaderInfo.sample_block repr_frame "EMG" t
           | inr _ => []
           end)).
Proof.
  unfold LoaderInfo.main.
  unfold Py.bind at 1. unfold Py.modify at 1.
  unfold Py.bind at 1.
  rewrite load_all_data_aux.
  cbn [Loader.self Loader.stdout Loader.hand_data Loader.emg_data
       Loader.init].
  unfold Py.bind at 1.
  rewrite (proj1 (get_basic_info_aux repr_columns repr_dtypes _)).
  cbn [Loader.self Loader.stdout Loader.hand_data Loader.emg_data fst snd].
  unfold Py.bind.
  destruct (read_csv "hand_data_log.csv"%string) as [th|eh];
    destruct (read_csv "emg_data.csv"%string) as [te|ee];
    rewrite ?print_lines_run; cbn [Py.ret Loader.self Loader.stdout];
    rewrite ?print_lines_run; cbn [Loader.self Loader.stdout];
    rewrite ?app_nil_r, <- ?app_assoc; reflexivity.
Qed.

(** * Properties of the report functions of [sample_app.py] *)

Section AppRuns.

Variable read_csv : string -> Frame.DataFrame + Py.exn.
Variable missing_labels_message : list string -> list string -> string.
Variable corr_error : Frame.DataFrame -> option Py.exn.

Lemma new_loader_load_hand (path : string) (s : App.state) :
  App.with_new_loader (Loader.load_hand_data read_csv path) s
  = match read_csv path with
    | inl t =>
        (Py.Normal (Some t),
         App.mk_state (App.stdout s ++ [Loader.loaded_message "Hand" t])
           (App.saved s))
    | inr e =>
        (Py.Normal None,
         App.mk_state (App.stdout s ++ [Loader.error_message "hand" e])
           (App.saved s))
    end.
Proof.
  unfold App.with_new_loader. rewrite load_hand_data_run.
  destruct (read_csv path); reflexivity.
Qed.

Lemma new_loader_load_emg (path : string) (s : App.state) :
  App.with_new_loader (Loader.load_emg_data read_csv path) s
  = match read_csv path with
    | inl t =>
        (Py.Normal (Some t),
         App.mk_state (App.stdout s ++ [Loader.loaded_message "EMG" t])
           (App.saved s))
    | inr e =>
        (Py.Normal None,
         App.mk_state (App.stdout s ++ [Loader.error_message "EMG" e])
           (App.saved s))
    end.
Proof.
  unfold App.with_new_loader. rewrite load_emg_data_run.
  destruct (read_csv path); reflexivity.
Qed.

Lemma new_loader_load_all (hand_path emg_path : string) (s : App.state) :
  App.with_new_loader (Loader.load_all_data read_csv hand_path emg_path) s
  = (Py.Normal
       (match read_csv hand_path with inl t => Some t | inr _ => None end,
        match read_csv emg_path with inl t => Some t | inr _ => None end),
     App.mk_state
       (App.stdout s
        ++ [ match read_csv hand_path with
             | inl t => Loader.loaded_message "Hand" t
             | inr e => Loader.error_message "hand" e
             end;
             match read_csv emg_path with
             | inl t => Loader.loaded_message "EMG" t
             | inr e => Loader.error_message "EMG" e
             end ])
       (App.saved s)).
Proof.
  unfold App.with_new_loader. rewrite load_all_data_aux. reflexivity.
Qed.

Lemma visualize_data_run (s : App.state) :
  App.visualize_data read_csv missing_labels_message corr_error s
  = let after_load :=
      App.mk_state
        (App.stdout s
         ++ [ match read_csv "hand_data_log.csv"%string with
              | inl t => Loader.loaded_message "Hand" t
              | inr e => Loader.error_message "hand" e
              end;
              match read_csv "emg_data.csv"%string with
              | inl t => Loader.loaded_message "EMG" t
              | inr e => Loader.error_message "EMG" e
              end ])
        (App.saved s) in
    match read_csv "hand_data_log.csv"%string,
          read_csv "emg_data.csv"%string with
    | inl hand_data, inl emg_data =>
        match App.overview_figure missing_labels_message corr_error
                hand_data emg_data with
        | inl fig =>
            (Py.Normal tt,
             App.mk_state
               (App.stdout after_load
                ++ ["Visualization saved as 'hand_emg_analysis.png'"%string])
               (App.saved s ++ [("hand_emg_analysis.png"%string, fig)]))
        | inr e => (Py.Raised e, after_load)
        end
    | _, _ =>
        (Py.Normal tt,
         App.mk_state
           (App.stdout after_load
            ++ ["Error: Could not load data files"%string])
           (App.saved s))
    end.
Proof.
  unfold App.visualize_data. unfold Py.bind at 1.
  rewrite new_loader_load_all.
  destruct (read_csv "hand_data_log.csv"%string) as [th|eh];
    destruct (read_csv "emg_data.csv"%string) as [te|ee];
    try reflexivity.
  unfold Py.bind, Py.lift.
  destruct (App.overview_figure missing_labels_message corr_error th te);
    reflexivity.
Qed.

Lemma analyze_finger_movement_run (s : App.state) :
  App.analyze_finger_movement read_csv s
  = match read_csv "hand_data_log.csv"%string with
    | inr e =>
        (Py.Normal tt,
         App.mk_state (App.stdout s ++ [Loader.error_message "hand" e])
           (App.saved s))
    | inl hand_data =>
        match App.finger_figure hand_data with
        | inl fig =>
            (Py.Normal tt,
             App.mk_state
               ((App.stdout s ++ [Loader.loaded_message "Hand" hand_data])
                ++ ["Index finger analysis saved as 'index_finger_analysis.png'"%string])
               (App.saved s ++ [("index_finger_analysis.png"%string, fig)]))
        | inr e =>
            (Py.Raised e,
             App.mk_state
               (App.stdout s ++ [Loader.loaded_message "Hand" hand_data])
               (App.saved s))
        end
    end.
Proof.
  unfold App.analyze_finger_movement. unfold Py.bind at 1.
  rewrite new_loader_load_hand.
  destruct (read_csv "hand_data_log.csv"%string) as [th|eh];
    [|reflexivity].
  unfold Py.bind, Py.lift.
  destruct (App.finger_figure th); reflexivity.
Qed.

Lemma compare_emg_patterns_run (s : App.state) :
  App.compare_emg_patterns read_csv s
  = match read_csv "emg_data.csv"%string with
    | inr e =>
        (Py.Normal tt,
         App.mk_state (App.stdout s ++ [Loader.error_message "EMG" e])
           (App.saved s))
    | inl emg_data =>
        match App.sensors_figure emg_data with
        | inl fig =>
            (Py.Normal tt,
             App.mk_state
               ((App.stdout s ++ [Loader.loaded_message "EMG" emg_data])
                ++ ["EMG sensor comparison saved as 'emg_sensors_comparison.png'"%string])
               (App.saved s ++ [("emg_sensors_comparison.png"%string, fig)]))
        | inr e =>
            (Py.Raised e,
             App.mk_state
               (App.stdout s ++ [Loader.loaded_message "EMG" emg_data])
               (App.saved s))
        end
    end.
Proof.
  unfold App.compare_emg_patterns. unfold Py.bind at 1.
  rewrite new_loader_load_emg.
  destruct (read_csv "emg_data.csv"%string) as [te|ee];
    [|reflexivity].
  unfold Py.bind, Py.lift.
  destruct (App.sensors_figure te); reflexivity.
Qed.

(** X19: [visualize_data] attempts both reads even when the first fails;
    when either fails it prints the two loader lines and
    [Error: Could not load data files], saves nothing and returns
    normally. *)
Theorem visualize_data_without_tables (s : App.state) :
  (exists e, read_csv "hand_data_log.csv"%string = inr e)
  \/ (exists e, read_csv "emg_data.csv"%string = inr e) ->
  App.visualize_data read_csv missing_labels_message corr_error s
  = (Py.Normal tt,
     App.mk_state
       (App.stdout s
        ++ [ match read_csv "hand_data_log.csv"%string with
             | inl t => Loader.loaded_message "Hand" t
             | inr e => Loader.error_message "hand" e
             end;
             match read_csv "emg_data.csv"%string with
             | inl t => Loader.loaded_message "EMG" t
             | inr e => Loader.error_message "EMG" e
             end;
             "Error: Could not load data files"%string ])
       (App.saved s)).
Proof.
  intros Hfail. rewrite visualize_data_run. cbv zeta.
  cbn [App.stdout App.saved].
  destruct (read_csv "hand_data_log.csv"%string) as [th|eh];
    destruct (read_csv "emg_data.csv"%string) as [te|ee];
    try (rewrite <- app_assoc; reflexivity).
  destruct Hfail as [[e H]|[e H]]; discriminate H.
Qed.

(** X20: [analyze_finger_movement] and [compare_emg_patterns] return
    silently when their file cannot be read: nothing is printed beyond the
    loader's error line, nothing is saved, nothing is raised. *)
Theorem single_table_reports_without_table (s : App.state) :
  (forall e, read_csv "hand_data_log.csv"%string = inr e ->
     App.analyze_finger_movement read_csv s
     = (Py.Normal tt,
        App.mk_state (App.stdout s ++ [Loader.error_message "hand" e])
          (App.saved s)))
  /\ (forall e, read_csv "emg_data.csv"%string = inr e ->
        App.compare_emg_patterns read_csv s
        = (Py.Normal tt,
           App.mk_state (App.stdout s ++ [Loader.error_message "EMG" e])
             (App.saved s))).
Proof.
  split; intros e H.
  - rewrite analyze_finger_movement_run, H. reflexivity.
  - rewrite compare_emg_patterns_run, H. reflexivity.
Qed.

(** X21: none of the three report functions saves an image unless it runs
    to its end: the files written are either those written before, or,
    after a normal end, those plus one image under the function's fixed
    name.  In particular a run that raises has written nothing. *)
Theorem reports_save_only_on_success (s : App.state) :
  (App.saved (snd (App.visualize_data read_csv missing_labels_message
                     corr_error s)) = App.saved s
   \/ (fst (App.visualize_data read_csv missing_labels_message
              corr_error s) = Py.Normal tt
       /\ exists fig,
            App.saved (snd (App.visualize_data read_csv
                              missing_labels_message corr_error s))
            = App.saved s ++ [("hand_emg_analysis.png"%string, fig)]))
  /\ (App.saved (snd (App.analyze_finger_movement read_csv s)) = App.saved s
      \/ (fst (App.analyze_finger_movement read_csv s) = Py.Normal tt
          /\ exists fig,
               App.saved (snd (App.analyze_finger_movement read_csv s))
               = App.saved s ++ [("index_finger_analysis.png"%string, fig)]))
  /\ (App.saved (snd (App.compare_emg_patterns read_csv s)) = App.saved s
      \/ (fst (App.compare_emg_patterns read_csv s) = Py.Normal tt
          /\ exists fig,
               App.saved (snd (App.compare_emg_patterns read_csv s))
               = App.saved s
                 ++ [("emg_sensors_comparison.png"%string, fig)])).
Proof.
  rewrite visualize_data_run, analyze_finger_movement_run,
    compare_emg_patterns_run. cbv zeta.
  split; [|split].
  - destruct (read_csv "hand_data_log.csv"%string) as [th|eh];
      destruct (read_csv "emg_data.csv"%string) as [te|ee];
      try (left; reflexivity).
    destruct (App.overview_figure missing_labels_message corr_error th te)
      as [fig|e]; [right | left; reflexivity].
    split; [reflexivity|]. exists fig. reflexivity.
  - destruct (read_csv "hand_data_log.csv"%string) as [th|eh];
      [|left; reflexivity].
    destruct (App.finger_figure th) as [fig|e]; [right | left; reflexivity].
    split; [reflexivity|]. exists fig. reflexivity.
  - destruct (read_csv "emg_data.csv"%string) as [te|ee];
      [|left; reflexivity].
    destruct (App.sensors_figure te) as [fig|e]; [right | left; reflexivity].
    split; [reflexivity|]. exists fig. reflexivity.
Qed.

End AppRuns.

Lemma visualize_data_without_tables_witness :
  ((exists e, Sample.only_hand_file "hand_data_log.csv" = inr e)
   \/ (exists e, Sample.only_hand_file "emg_data.csv" = inr e))
  /\ App.visualize_data Sample.only_hand_file (fun _ _ => EmptyString)
       (fun _ => None) (App.mk_state [] [])
     = (Py.Normal tt,
        App.mk_state
          [ "Hand data loaded: 3 rows, 3 columns";
            "Error loading EMG data: [Errno 2] No such file or directory";
            "Error: Could not load data files" ]%string
          []).
Proof.
  assert (H : (exists e, Sample.only_hand_file "hand_data_log.csv" = inr e)
              \/ (exists e, Sample.only_hand_file "emg_data.csv" = inr e)).
  { right. eexists. reflexivity. }
  split; [exact H|].
  rewrite (visualize_data_without_tables Sample.only_hand_file
             (fun _ _ => EmptyString) (fun _ => None) (App.mk_state [] []) H).
  reflexivity.
Defined.

Lemma single_table_reports_without_table_witness :
  Sample.unparsable_files "hand_data_log.csv"
  = inr (Py.mk_exn Py.ParserError "Error tokenizing data")
  /\ App.analyze_finger_movement Sample.unparsable_files (App.mk_state [] [])
     = (Py.Normal tt,
        App.mk_state
          ([] ++ [Loader.error_message "hand"
                    (Py.mk_exn Py.ParserError "Error tokenizing data")])
          []).
Proof.
  assert (H : Sample.unparsable_files "hand_data_log.csv"
              = inr (Py.mk_exn Py.ParserError "Error tokenizing data"))
    by reflexivity.
  split; [exact H|].
  exact (proj1 (single_table_reports_without_table Sample.unparsable_files
                  (App.mk_state [] [])) _ H).
Defined.

(** ** The loops over columns *)

Lemma getitem_missing_iff (d : Frame.DataFrame) (name : string)
  (e : Py.exn) :
  Frame.getitem d name = inr e <-> Frame.has_column d name = false
                                   /\ e = Py.mk_exn Py.KeyError
                                            (Py.repr name).
Proof.
  unfold Frame.getitem, Frame.has_column.
  destruct (Frame.index_of name (Frame.columns d)); split.
  - intros H; discriminate H.
  - intros [H _]; discriminate H.
  - intros H. injection H as <-. split; reflexivity.
  - intros [_ ->]. reflexivity.
Qed.

Lemma plot_each_ok (table : Frame.DataFrame) (x_name : string)
  (xs : list Frame.cell) (names : list (string * option string)) :
  Frame.getitem table x_name = inl xs ->
  (forall nl, In nl names -> Frame.has_column table (fst nl) = true) ->
  exists arts,
    App.plot_each table x_name names = inl arts
    /\ Forall2 (fun nl a =>
                  exists ys, Frame.getitem table (fst nl) = inl ys
                             /\ a = App.PlotLine xs ys (snd nl))
         names arts.
Proof.
  intros Hx. induction names as [|[name label] names IH]; intros Hall.
  - exists []. split; [reflexivity | constructor].
  - destruct IH as (arts & Hrun & Hfor).
    { intros nl Hin. apply Hall. right. exact Hin. }
    pose proof (Hall (name, label) (or_introl eq_refl)) as Hname.
    cbn [fst] in Hname.
    destruct (Frame.getitem table name) as [ys|e] eqn:Hy.
    2:{ apply getitem_missing_iff in Hy. destruct Hy as [Hy _].
        rewrite Hy in Hname. discriminate Hname. }
    exists (App.PlotLine xs ys label :: arts). split.
    + cbn [App.plot_each]. rewrite Hx, Hy. cbn [App.and_then].
      rewrite Hrun. reflexivity.
    + constructor; [|exact Hfor]. exists ys. split; [exact Hy | reflexivity].
Qed.

Lemma plot_each_first_missing (table : Frame.DataFrame) (x_name : string)
  (xs : list Frame.cell) (pre post : list (string * option string))
  (name : string) (label : option string) :
  Frame.getitem table x_name = inl xs ->
  (forall nl, In nl pre -> Frame.has_column table (fst nl) = true) ->
  Frame.has_column table name = false ->
  App.plot_each table x_name (pre ++ (name, label) :: post)
  = inr (Py.mk_exn Py.KeyError (Py.repr name)).
Proof.
  intros Hx Hpre Hmiss. induction pre as [|[n l] pre IH].
  - cbn [app App.plot_each]. rewrite Hx, (getitem_missing _ _ Hmiss).
    reflexivity.
  - pose proof (Hpre (n, l) (or_introl eq_refl)) as Hn. cbn [fst] in Hn.
    destruct (Frame.getitem table n) as [ys|e] eqn:Hy.
    2:{ apply getitem_missing_iff in Hy. destruct Hy as [Hy _].
        rewrite Hy in Hn. discriminate Hn. }
    cbn [app App.plot_each]. rewrite Hx, Hy. cbn [App.and_then].
    rewrite IH; [reflexivity|].
    intros nl Hin. apply Hpre. right. exact Hin.
Qed.

Lemma panels_of_lines (table : Frame.DataFrame) (ts : list Frame.cell)
  (names : list string) (arts : list App.artist) :
  Forall2 (fun nl a =>
             exists ys, Frame.getitem table (fst nl) = inl ys
                        /\ a = App.PlotLine ts ys (snd nl))
    (map (fun sensor : string => (sensor, @None string)) names) arts ->
  Forall2 (fun name ax =>
             App.title ax = name
             /\ exists ys, Frame.getitem table name = inl ys
                           /\ App.artists ax = [App.PlotLine ts ys None])
    names
    (map (fun sa => App.mk_axes (fst sa) [snd sa]) (combine names arts)).
Proof.
  revert arts. induction names as [|name names IH]; intros arts H;
    inversion H as [|nl a l1 l2 (ys & Hy & Ha) Hrest]; subst; cbn [combine map].
  - constructor.
  - constructor; [|apply IH; exact Hrest].
    split; [reflexivity|]. exists ys. split; [exact Hy | reflexivity].
Qed.

Lemma repr_sensor_column (name : string) :
  In name App.sensor_columns ->
  Py.repr name = ("'" ++ name ++ "'")%string.
Proof.
  change App.sensor_columns
    with ["Sensor_1"; "Sensor_2"; "Sensor_3"; "Sensor_4"; "Sensor_5";
          "Sensor_6"; "Sensor_7"; "Sensor_8"]%string.
  cbn [In]. intros H.
  repeat (destruct H as [<-|H]; [reflexivity|]). contradiction.
Qed.

(** X22: when the EMG file is read and holds the column [Timestamp] and
    all eight columns [Sensor_1] .. [Sensor_8], [compare_emg_patterns]
    saves one image, [emg_sensors_comparison.png], with eight panels in the
    order of the sensors, each titled with its column name and showing that
    column against [Timestamp]; it prints the loader line and the closing
    message and ends normally. *)
Theorem compare_emg_patterns_success
  (read_csv : string -> Frame.DataFrame + Py.exn) (s : App.state)
  (emg_data : Frame.DataFrame) (ts : list Frame.cell) :
  read_csv "emg_data.csv"%string = inl emg_data ->
  Frame.getitem emg_data "Timestamp" = inl ts ->
  (forall name, In name App.sensor_columns ->
     Frame.has_column emg_data name = true) ->
  exists fig,
    App.compare_emg_patterns read_csv s
    = (Py.Normal tt,
       App.mk_state
         ((App.stdout s ++ [Loader.loaded_message "EMG" emg_data])
          ++ ["EMG sensor comparison saved as 'emg_sensors_comparison.png'"%string])
         (App.saved s ++ [("emg_sensors_comparison.png"%string, fig)]))
    /\ Forall2 (fun name ax =>
                  App.title ax = name
                  /\ exists ys, Frame.getitem emg_data name = inl ys
                                /\ App.artists ax
                                   = [App.PlotLine ts ys None])
         App.sensor_columns fig.
Proof.
  intros Hread Hts Hall.
  destruct (plot_each_ok emg_data "Timestamp" ts
              (map (fun sensor : string => (sensor, @None string))
                   App.sensor_columns) Hts) as (arts & Hrun & Hfor).
  { intros nl Hin. apply in_map_iff in Hin.
    destruct Hin as (name & <- & Hname). apply Hall. exact Hname. }
  exists (map (fun sa => App.mk_axes (fst sa) [snd sa])
            (combine App.sensor_columns arts)).
  split; [|apply panels_of_lines; exact Hfor].
  rewrite compare_emg_patterns_run, Hread.
  unfold App.sensors_figure. rewrite Hrun. reflexivity.
Qed.

(** X23: when the EMG file is read and holds [Timestamp] but one of the
    sensor columns is missing, [compare_emg_patterns] raises the
    [KeyError] of the first missing sensor column to its caller, after the
    loader line and without saving anything. *)
Theorem compare_emg_patterns_missing_sensor
  (read_csv : string -> Frame.DataFrame + Py.exn) (s : App.state)
  (emg_data : Frame.DataFrame) (ts : list Frame.cell)
  (pre post : list string) (name : string) :
  read_csv "emg_data.csv"%string = inl emg_data ->
  Frame.getitem emg_data "Timestamp" = inl ts ->
  App.sensor_columns = pre ++ name :: post ->
  (forall earlier, In earlier pre ->
     Frame.has_column emg_data earlier = true) ->
  Frame.has_column emg_data name = false ->
  App.compare_emg_patterns read_csv s
  = (Py.Raised (Py.mk_exn Py.KeyError ("'" ++ name ++ "'")),
     App.mk_state (App.stdout s ++ [Loader.loaded_message "EMG" emg_data])
       (App.saved s)).
Proof.
  intros Hread Hts Hsplit Hpre Hmiss.
  assert (Hrepr : Py.repr name = ("'" ++ name ++ "'")%string).
  { apply repr_sensor_column. rewrite Hsplit. apply in_elt. }
  rewrite compare_emg_patterns_run, Hread.
  unfold App.sensors_figure. rewrite Hsplit, map_app. cbn [map].
  rewrite (plot_each_first_missing emg_data "Timestamp" ts _ _ name None
             Hts); [rewrite Hrepr; reflexivity | | exact Hmiss].
  intros nl Hin. apply in_map_iff in Hin.
  destruct Hin as (earlier & <- & Hin). apply Hpre. exact Hin.
Qed.

Lemma compare_emg_patterns_missing_sensor_witness :
  Sample.sensor_table_everywhere "emg_data.csv" = inl Sample.sensor_table
  /\ Frame.getitem Sample.sensor_table "Timestamp"
     = inl [Frame.CNum 0; Frame.CNum 1]
  /\ App.sensor_columns
     = ["Sensor_1"%string]
       ++ "Sensor_2"%string
          :: ["Sensor_3"; "Sensor_4"; "Sensor_5"; "Sensor_6"; "Sensor_7";
              "Sensor_8"]%string
  /\ (forall earlier, In earlier ["Sensor_1"%string] ->
        Frame.has_column Sample.sensor_table earlier = true)
  /\ Frame.has_column Sample.sensor_table "Sensor_2" = false
  /\ App.compare_emg_patterns Sample.sensor_table_everywhere
       (App.mk_state [] [])
     = (Py.Raised (Py.mk_exn Py.KeyError "'Sensor_2'"),
        App.mk_state ["EMG data loaded: 2 rows, 2 columns"%string] []).
Proof.
  assert (H1 : Sample.sensor_table_everywhere "emg_data.csv"
               = inl Sample.sensor_table) by reflexivity.
  assert (H2 : Frame.getitem Sample.sensor_table "Timestamp"
               = inl [Frame.CNum 0; Frame.CNum 1]) by reflexivity.
  assert (H3 : App.sensor_columns
               = ["Sensor_1"%string]
                 ++ "Sensor_2"%string
                    :: ["Sensor_3"; "Sensor_4"; "Sensor_5"; "Sensor_6";
                        "Sensor_7"; "Sensor_8"]%string) by reflexivity.
  assert (H4 : forall earlier, In earlier ["Sensor_1"%string] ->
                 Frame.has_column Sample.sensor_table earlier = true).
  { intros earlier [<-|[]]. reflexivity. }
  assert (H5 : Frame.has_column Sample.sensor_table "Sensor_2" = false)
    by reflexivity.
  split; [exact H1|]. split; [exact H2|]. split; [exact H3|].
  split; [exact H4|]. split; [exact H5|].
  rewrite (compare_emg_patterns_missing_sensor
             Sample.sensor_table_everywhere (App.mk_state [] [])
             Sample.sensor_table _ _ _ _ H1 H2 H3 H4 H5).
  reflexivity.
Defined.

Lemma compare_emg_patterns_success_witness :
  Sample.full_emg_table_everywhere "emg_data.csv" = inl Sample.full_emg_table
  /\ Frame.getitem Sample.full_emg_table "Timestamp" = inl [Frame.CNum 0]
  /\ (forall name, In name App.sensor_columns ->
        Frame.has_column Sample.full_emg_table name = true)
  /\ exists fig,
       App.compare_emg_patterns Sample.full_emg_table_everywhere
         (App.mk_state [] [])
       = (Py.Normal tt,
          App.mk_state
            (([] ++ [Loader.loaded_message "EMG" Sample.full_emg_table])
             ++ ["EMG sensor comparison saved as 'emg_sensors_comparison.png'"%string])
            ([] ++ [("emg_sensors_comparison.png"%string, fig)]))
       /\ Forall2 (fun name ax =>
                     App.title ax = name
                     /\ exists ys,
                          Frame.getitem Sample.full_emg_table name = inl ys
                          /\ App.artists ax
                             = [App.PlotLine [Frame.CNum 0] ys None])
            App.sensor_columns fig.
Proof.
  assert (H1 : Sample.full_emg_table_everywhere "emg_data.csv"
               = inl Sample.full_emg_table) by reflexivity.
  assert (H2 : Frame.getitem Sample.full_emg_table "Timestamp"
               = inl [Frame.CNum 0]) by reflexivity.
  assert (H3 : forall name, In name App.sensor_columns ->
                 Frame.has_column Sample.full_emg_table name = true).
  { intros name Hin.
    change App.sensor_columns
      with ["Sensor_1"; "Sensor_2"; "Sensor_3"; "Sensor_4"; "Sensor_5";
            "Sensor_6"; "Sensor_7"; "Sensor_8"]%string in Hin.
    cbn [In] in Hin.
    repeat (destruct Hin as [<-|Hin]; [reflexivity|]). contradiction. }
  split; [exact H1|]. split; [exact H2|]. split; [exact H3|].
  exact (compare_emg_patterns_success Sample.full_emg_table_everywhere
           (App.mk_state [] []) Sample.full_emg_table _ H1 H2 H3).
Defined.

(** X24: with neither data file readable the whole application ends
    normally and saves nothing: after its banner it prints the two loader
    errors and [Error: Could not load data files] (overview), then the hand
    error (finger report) and the EMG error (sensor report), each function
    reading its files anew. *)
Theorem app_main_without_files
  (read_csv : string -> Frame.DataFrame + Py.exn)
  (missing_labels_message : list string -> list string -> string)
  (corr_error : Frame.DataFrame -> option Py.exn)
  (s : App.state) (hand_error emg_error : Py.exn) :
  read_csv "hand_data_log.csv"%string = inr hand_error ->
  read_csv "emg_data.csv"%string = inr emg_error ->
  App.main read_csv missing_labels_message corr_error s
  = (Py.Normal tt,
     App.mk_state
       (App.stdout s
        ++ [ "=== Data Visualization Examples ===";
             Loader.error_message "hand" hand_error;
             Loader.error_message "EMG" emg_error;
             "Error: Could not load data files";
             Loader.error_message "hand" hand_error;
             Loader.error_message "EMG" emg_error ]%string)
       (App.saved s)).
Proof.
  intros Hhand Hemg. unfold App.main, Py.bind.
  unfold App.print at 1, Py.modify at 1. cbv beta iota.
  rewrite visualize_data_run, Hhand, Hemg. cbv beta iota zeta.
  rewrite analyze_finger_movement_run, Hhand. cbv beta iota.
  rewrite compare_emg_patterns_run, Hemg.
  cbn [App.stdout App.saved]. rewrite <- !app_assoc. reflexivity.
Qed.

Lemma app_main_without_files_witness :
  Sample.unparsable_files "hand_data_log.csv"
  = inr (Py.mk_exn Py.ParserError "Error tokenizing data")
  /\ Sample.unparsable_files "emg_data.csv"
     = inr (Py.mk_exn Py.ParserError "Error tokenizing data")
  /\ App.main Sample.unparsable_files (fun _ _ => EmptyString)
       (fun _ => None) (App.mk_state [] [])
     = (Py.Normal tt,
        App.mk_state
          [ "=== Data Visualization Examples ===";
            "Error loading hand data: Error tokenizing data";
            "Error loading EMG data: Error tokenizing data";
            "Error: Could not load data files";
            "Error loading hand data: Error tokenizing data";
            "Error loading EMG data: Error tokenizing data" ]%string
          []).
Proof.
  assert (H1 : Sample.unparsable_files "hand_data_log.csv"
               = inr (Py.mk_exn Py.ParserError "Error tokenizing data"))
    by reflexivity.
  assert (H2 : Sample.unparsable_files "emg_data.csv"
               = inr (Py.mk_exn Py.ParserError "Error tokenizing data"))
    by reflexivity.
  split; [exact H1|]. split; [exact H2|].
  rewrite (app_main_without_files Sample.unparsable_files
             (fun _ _ => EmptyString) (fun _ => None)
             (App.mk_state [] []) _ _ H1 H2).
  reflexivity.
Defined.

(** ** The two histograms *)

Lemma mask_select_map {A B : Type} (f : A -> B) (mask : list bool)
  (l : list A) :
  Np.mask_select mask (map f l) = map f (Np.mask_select mask l).
Proof.
  revert l. induction mask as [|m mask IH]; intros [|a l]; simpl;
    try reflexivity.
  destruct m; simpl; rewrite IH; reflexivity.
Qed.

Lemma getitem_select_rows (df : Frame.DataFrame) (mask : list bool)
  (name : string) (col : list Frame.cell) :
  Frame.getitem df name = inl col ->
  Frame.getitem (Frame.select_rows df mask) name
  = inl (Np.mask_select mask col).
Proof.
  unfold Frame.getitem, Frame.select_rows. cbn [Frame.columns Frame.rows].
  destruct (Frame.index_of name (Frame.columns df)) as [j|];
    intros H; [|discriminate H].
  injection H as <-. rewrite mask_select_map. reflexivity.
Qed.

(** X25: in the overview figure, when the [is_left] column holds only
    booleans, the values handed to the left-hand histogram and those handed
    to the right-hand histogram are, together, exactly the values of the
    column [thumb_mcp_quat_0]: every row is counted in one of the two
    histograms and in one only. *)
Theorem histograms_split_the_column
  (missing_labels_message : list string -> list string -> string)
  (corr_error : Frame.DataFrame -> option Py.exn)
  (hand_data emg_data : Frame.DataFrame) (fig : App.figure)
  (flags quat : list Frame.cell) :
  App.overview_figure missing_labels_message corr_error hand_data emg_data
  = inl fig ->
  Frame.getitem hand_data "is_left" = inl flags ->
  (forall c, In c flags -> exists b, c = Frame.CBool b) ->
  Frame.getitem hand_data "thumb_mcp_quat_0" = inl quat ->
  exists left_quat right_quat,
    nth 2 fig (App.mk_axes EmptyString [])
    = App.mk_axes "Left vs Right Hand Distribution"
        [ App.Hist left_quat (Some "Left Hand"%string);
          App.Hist right_quat (Some "Right Hand"%string) ]
    /\ Permutation (left_quat ++ right_quat) quat
    /\ (length left_quat + length right_quat = length quat)%nat.
Proof.
  intros Hfig Hflags Hbool Hquat.
  set (m := Frame.eq_scalar flags true).
  assert (Hm : length m = length quat).
  { unfold m, Frame.eq_scalar. rewrite length_map.
    rewrite (getitem_length _ _ _ Hflags), (getitem_length _ _ _ Hquat).
    reflexivity. }
  exists (Np.mask_select m quat), (Np.mask_select (map negb m) quat).
  split; [|split;
           [apply mask_select_permutation | apply mask_select_length_split];
           exact Hm].
  unfold App.overview_figure in Hfig.
  destruct (Frame.getitem hand_data "timestamp") as [ts|e];
    [|discriminate Hfig].
  rewrite Hquat in Hfig. cbn [App.and_then] in Hfig.
  destruct (App.plot_each emg_data "Timestamp" _) as [sensor_lines|e];
    [|discriminate Hfig].
  cbn [App.and_then] in Hfig.
  unfold SampleApp.left_hand, SampleApp.right_hand,
    SampleApp.left_mask, SampleApp.right_mask in Hfig.
  rewrite Hflags, (bool_column_masks flags Hbool) in Hfig.
  fold m in Hfig. cbn [App.and_then] in Hfig.
  rewrite !(getitem_select_rows hand_data _ _ _ Hquat) in Hfig.
  cbn [App.and_then] in Hfig.
  destruct (App.getitems missing_labels_message emg_data App.sensor_columns)
    as [sensors|e]; [|discriminate Hfig].
  cbn [App.and_then] in Hfig.
  destruct (App.corr corr_error sensors) as [correlated|e];
    [|discriminate Hfig].
  cbn [App.and_then] in Hfig. injection Hfig as <-. reflexivity.
Qed.

Lemma histograms_split_the_column_witness :
  exists fig,
    App.overview_figure (fun _ _ => EmptyString) (fun _ => None)
      Sample.hand_table Sample.full_emg_table = inl fig
    /\ Frame.getitem Sample.hand_table "is_left"
       = inl [Frame.CBool true; Frame.CBool false; Frame.CBool true]
    /\ (forall c,
          In c [Frame.CBool true; Frame.CBool false; Frame.CBool true] ->
          exists b, c = Frame.CBool b)
    /\ Frame.getitem Sample.hand_table "thumb_mcp_quat_0"
       = inl [Frame.CNum 1; Frame.CNum 2; Frame.CNum 3]
    /\ exists left_quat right_quat,
         nth 2 fig (App.mk_axes EmptyString [])
         = App.mk_axes "Left vs Right Hand Distribution"
             [ App.Hist left_quat (Some "Left Hand"%string);
               App.Hist right_quat (Some "Right Hand"%string) ]
         /\ Permutation (left_quat ++ right_quat)
              [Frame.CNum 1; Frame.CNum 2; Frame.CNum 3]
         /\ (length left_quat + length right_quat
             = length [Frame.CNum 1; Frame.CNum 2; Frame.CNum 3])%nat.
Proof.
  assert (Hfig : exists fig,
            App.overview_figure (fun _ _ => EmptyString) (fun _ => None)
              Sample.hand_table Sample.full_emg_table = inl fig)
    by (eexists; reflexivity).
  destruct Hfig as [fig Hfig].
  assert (Hflags : Frame.getitem Sample.hand_table "is_left"
                   = inl [Frame.CBool true; Frame.CBool false;
                          Frame.CBool true]) by reflexivity.
  assert (Hbool : forall c,
            In c [Frame.CBool true; Frame.CBool false; Frame.CBool true] ->
            exists b, c = Frame.CBool b).
  { intros c [<-|[<-|[<-|[]]]]; eexists; reflexivity. }
  assert (Hquat : Frame.getitem Sample.hand_table "thumb_mcp_quat_0"
                  = inl [Frame.CNum 1; Frame.CNum 2; Frame.CNum 3])
    by reflexivity.
  exists fig.
  split; [exact Hfig|]. split; [exact Hflags|]. split; [exact Hbool|].
  split; [exact Hquat|].
  exact (histograms_split_the_column (fun _ _ => EmptyString)
           (fun _ => None) Sample.hand_table Sample.full_emg_table fig
           _ _ Hfig Hflags Hbool Hquat).
Defined.

(** ** The finger report *)

(** X26: when the hand file is read and holds [timestamp] and the three
    index-finger joint columns, [analyze_finger_movement] saves one image,
    [index_finger_analysis.png], of four panels: one per joint in the order
    MCP, PIP, DIP, each with that joint's column against [timestamp], and a
    fourth panel that repeats the same three lines with the short labels;
    it prints the loader line and the closing message and ends normally. *)
Theorem analyze_finger_movement_success
  (read_csv : string -> Frame.DataFrame + Py.exn) (s : App.state)
  (hand_data : Frame.DataFrame) (ts mcp pip dip : list Frame.cell) :
  read_csv "hand_data_log.csv"%string = inl hand_data ->
  Frame.getitem hand_data "timestamp" = inl ts ->
  Frame.getitem hand_data "index_mcp_quat_0" = inl mcp ->
  Frame.getitem hand_data "index_pip_quat_0" = inl pip ->
  Frame.getitem hand_data "index_dip_quat_0" = inl dip ->
  App.analyze_finger_movement read_csv s
  = (Py.Normal tt,
     App.mk_state
       ((App.stdout s ++ [Loader.loaded_message "Hand" hand_data])
        ++ ["Index finger analysis saved as 'index_finger_analysis.png'"%string])
       (App.saved s
        ++ [("index_finger_analysis.png"%string,
             [ App.mk_axes "Index Finger MCP Joint Movement"
                 [App.PlotLine ts mcp (Some "Index MCP"%string)];
               App.mk_axes "Index Finger PIP Joint Movement"
                 [App.PlotLine ts pip (Some "Index PIP"%string)];
               App.mk_axes "Index Finger DIP Joint Movement"
                 [App.PlotLine ts dip (Some "Index DIP"%string)];
               App.mk_axes "Index Finger - All Joints"
                 [ App.PlotLine ts mcp (Some "MCP"%string);
                   App.PlotLine ts pip (Some "PIP"%string);
                   App.PlotLine ts dip (Some "DIP"%string) ] ])])).
Proof.
  intros Hread Hts Hmcp Hpip Hdip.
  rewrite analyze_finger_movement_run, Hread.
  unfold App.finger_figure, App.index_joints, App.joint_names.
  cbn [combine map fst snd App.plot_each].
  rewrite Hts, Hmcp, Hpip, Hdip. reflexivity.
Qed.

Lemma analyze_finger_movement_success_witness :
  Sample.finger_table_everywhere "hand_data_log.csv" = inl Sample.finger_table
  /\ Frame.getitem Sample.finger_table "timestamp"
     = inl [Frame.CNum 0; Frame.CNum 1]
  /\ Frame.getitem Sample.finger_table "index_mcp_quat_0"
     = inl [Frame.CNum 1; Frame.CNum 4]
  /\ Frame.getitem Sample.finger_table "index_pip_quat_0"
     = inl [Frame.CNum 2; Frame.CNum 5]
  /\ Frame.getitem Sample.finger_table "index_dip_quat_0"
     = inl [Frame.CNum 3; Frame.CNum 6]
  /\ App.stdout
       (snd (App.analyze_finger_movement Sample.finger_table_everywhere
               (App.mk_state [] [])))
     = [ "Hand data loaded: 2 rows, 4 columns";
         "Index finger analysis saved as 'index_finger_analysis.png'" ]%string.
Proof.
  assert (H1 : Sample.finger_table_everywhere "hand_data_log.csv"
               = inl Sample.finger_table) by reflexivity.
  assert (H2 : Frame.getitem Sample.finger_table "timestamp"
               = inl [Frame.CNum 0; Frame.CNum 1]) by reflexivity.
  assert (H3 : Frame.getitem Sample.finger_table "index_mcp_quat_0"
               = inl [Frame.CNum 1; Frame.CNum 4]) by reflexivity.
  assert (H4 : Frame.getitem Sample.finger_table "index_pip_quat_0"
               = inl [Frame.CNum 2; Frame.CNum 5]) by reflexivity.
  assert (H5 : Frame.getitem Sample.finger_table "index_dip_quat_0"
               = inl [Frame.CNum 3; Frame.CNum 6]) by reflexivity.
  split; [exact H1|]. split; [exact H2|]. split; [exact H3|].
  split; [exact H4|]. split; [exact H5|].
  rewrite (analyze_finger_movement_success Sample.finger_table_everywhere
             (App.mk_state [] []) Sample.finger_table _ _ _ _
             H1 H2 H3 H4 H5).
  reflexivity.
Defined.
